(** * SmartSlot backend: slot grid, booking store and conflict resolution

    A shallow embedding of the scheduling core of the SmartSlot REST API
    (Node.js / Express / Mongoose) together with the properties its
    specification states about it.

    Layout of the development:
    - [Js]: the JavaScript primitives the code relies on (string ordering,
      [split], [Number], [toString], [padStart]);
    - [DateUtils]: [src/utils/dateUtils.js];
    - [AvailableDate]: the availability-window model (schema, virtuals,
      pre-save hook, unique index on [date]);
    - [Booking]: the booking model (schema, pre-save hooks, unique indexes,
      reference generation, instance methods);
    - [ErrorHandler]: the global error middleware;
    - [BookingController], [CustomerController], [AdminController]: the
      request handlers;
    - the theorems, one per specified property.

    Conventions.  A MongoDB collection is a list of documents in insertion
    order; [findOne] answers the first match.  A request handler is a
    function from the database (and the clock reading of the request) to the
    database after the request and the HTTP reply.  Instants are epoch
    milliseconds in [Z].  A request reads the clock once. *)

From Stdlib Require Import ZArith List String Ascii Bool Lia.
From Stdlib Require Import DecimalString DecimalZ DecimalPos.
From Stdlib Require Import Sorted.
Import ListNotations.

Local Open Scope string_scope.
Local Open Scope Z_scope.

(* ------------------------------------------------------------------ *)
(** ** JavaScript primitives *)
(* ------------------------------------------------------------------ *)

Module Js.

(** [a < b] and [a <= b] on strings: code-unit lexicographic order. *)
Definition lt (a b : string) : bool := String.ltb a b.
Definition le (a b : string) : bool := String.leb a b.

(** Truthiness of a string value: the empty string is falsy. *)
Definition truthy (s : string) : bool := negb (s =? EmptyString)%string.

(** Truthiness of an optional string ([undefined] is falsy). *)
Definition given (o : option string) : bool :=
  match o with
  | Some s => truthy s
  | None => false
  end.

Definition isDigit (c : ascii) : bool :=
  let n := N_of_ascii c in ((48 <=? n) && (n <=? 57))%N.

Definition digitValue (c : ascii) : Z := Z.of_N (N_of_ascii c) - 48.

(** [s.split(sep)] for a one-character separator. *)
Fixpoint splitAcc (sep : ascii) (cur : string) (s : string) : list string :=
  match s with
  | EmptyString => [cur]
  | String c rest =>
      if Ascii.eqb c sep then cur :: splitAcc sep EmptyString rest
      else splitAcc sep (cur ++ String c EmptyString) rest
  end.

Definition split (sep : ascii) (s : string) : list string := splitAcc sep EmptyString s.

(** [Number(s)] on strings of decimal digits, the only ones the HH:MM
    patterns of the schemas let through; [None] stands for [NaN], which is
    also the model's answer on every other string.  The empty string
    converts to 0. *)
Fixpoint digitsValue (acc : Z) (s : string) : option Z :=
  match s with
  | EmptyString => Some acc
  | String c rest =>
      if isDigit c then digitsValue (10 * acc + digitValue c) rest else None
  end.

Definition toNumber (s : string) : option Z := digitsValue 0 s.

(** [parseInt(s)] on the strings the time patterns admit: the value of the
    leading run of decimal digits, [None] ([NaN]) when there is none. *)
Fixpoint leadingDigits (s : string) : string :=
  match s with
  | EmptyString => EmptyString
  | String c rest => if isDigit c then String c (leadingDigits rest) else EmptyString
  end.

Definition parseInt (s : string) : option Z :=
  match leadingDigits s with
  | EmptyString => None
  | String _ _ as d => digitsValue 0 d
  end.

(** [s.trim()], on the ASCII white space. *)
Definition isSpace (c : ascii) : bool :=
  let n := N_of_ascii c in (((9 <=? n) && (n <=? 13)) || (n =? 32))%N.

Fixpoint trimStart (s : string) : string :=
  match s with
  | EmptyString => EmptyString
  | String c rest => if isSpace c then trimStart rest else s
  end.

Fixpoint trimEnd (s : string) : string :=
  match s with
  | EmptyString => EmptyString
  | String c rest =>
      match trimEnd rest with
      | EmptyString => if isSpace c then EmptyString else String c EmptyString
      | String _ _ as rest' => String c rest'
      end
  end.

Definition trim (s : string) : string := trimEnd (trimStart s).

(** [n.toString()] for an integer. *)
Definition toString (n : Z) : string := NilZero.string_of_int (Z.to_int n).

Fixpoint repeatChar (c : ascii) (n : nat) : string :=
  match n with
  | O => EmptyString
  | S k => String c (repeatChar c k)
  end.

(** [s.padStart(width, c)] for a one-character filler. *)
Definition padStart (width : nat) (c : ascii) (s : string) : string :=
  repeatChar c (width - String.length s) ++ s.

(** [s.replace(/c/g, '')]: every occurrence of [c] is dropped. *)
Fixpoint removeChar (c : ascii) (s : string) : string :=
  match s with
  | EmptyString => EmptyString
  | String x rest =>
      if Ascii.eqb x c then removeChar c rest else String x (removeChar c rest)
  end.

(** [s.replace(c, '')] with a string pattern: only the first occurrence of
    [c] is dropped. *)
Fixpoint removeFirstChar (c : ascii) (s : string) : string :=
  match s with
  | EmptyString => EmptyString
  | String x rest =>
      if Ascii.eqb x c then rest else String x (removeFirstChar c rest)
  end.

(** [s.includes(sub)]. *)
Definition includes (sub s : string) : bool :=
  match String.index 0 sub s with
  | Some _ => true
  | None => false
  end.

(** [a.includes(x)] on an array of strings. *)
Definition arrayIncludes (x : string) (a : list string) : bool :=
  existsb (String.eqb x) a.

End Js.

(* ------------------------------------------------------------------ *)
(** ** Configuration ([config.business]) *)
(* ------------------------------------------------------------------ *)

Module Config.
Definition bookingReferencePrefix : string := "SM".
Definition maxAdvanceBookingDays : Z := 365.
End Config.

(* ------------------------------------------------------------------ *)
(** ** The clock of one request *)
(* ------------------------------------------------------------------ *)

(** Everything a handler obtains from [new Date()].  [now] is the instant
    itself, [currentDate] is [toISOString().split('T')[0]] (equally
    [toISOString().slice(0, 10)]), [currentTime] the local [HH:MM] (the
    padded [getHours()]:[getMinutes()], equally [toTimeString().slice(0, 5)]),
    [dateAfterDays n] the ISO date [n] days ahead, and [localDateTime d t]
    the instant [new Date(`${d}T${t}:00`)], [None] for an invalid date. *)
Record Clock := mkClock {
  now : Z;
  currentDate : string;
  currentTime : string;
  dateAfterDays : Z -> string;
  localDateTime : string -> string -> option Z
}.

(* ------------------------------------------------------------------ *)
(** ** [DateUtils] *)
(* ------------------------------------------------------------------ *)

Module DateUtils.

Definition getCurrentDate (clk : Clock) : string := currentDate clk.
Definition getCurrentTime (clk : Clock) : string := currentTime clk.

Definition isPastDate (clk : Clock) (date : string) : bool :=
  let today := getCurrentDate clk in
  Js.lt date today.

Definition isToday (clk : Clock) (date : string) : bool :=
  (date =? getCurrentDate clk)%string.

Definition isPastTimeSlot (clk : Clock) (date timeSlot : string) : bool :=
  if negb (isToday clk date) then isPastDate clk date
  else
    let currentTime := getCurrentTime clk in
    Js.le timeSlot currentTime.

Definition getDateAfterDays (clk : Clock) (days : Z) : string :=
  dateAfterDays clk days.

Definition isWithinBookingLimit (clk : Clock) (date : string) : bool :=
  let maxDate := getDateAfterDays clk Config.maxAdvanceBookingDays in
  Js.le date maxDate.

(** The idiom [const p = t.split(':').map(Number); p[0] * 60 + p[1]];
    [None] is [NaN] (a missing component is [undefined]). *)
Definition minutesOfDay (t : string) : option Z :=
  let p := map Js.toNumber (Js.split ":" t) in
  match nth_error p 0, nth_error p 1 with
  | Some (Some h), Some (Some m) => Some (h * 60 + m)
  | _, _ => None
  end.

(** The template
    [`${hours.toString().padStart(2,'0')}:${minutes.toString().padStart(2,'0')}`]
    with [hours = Math.floor(currentMinutes / 60)] and
    [minutes = currentMinutes % 60]. *)
Definition timeString (currentMinutes : Z) : string :=
  let hours := currentMinutes / 60 in
  let minutes := Z.rem currentMinutes 60 in
  Js.padStart 2 "0" (Js.toString hours) ++ ":" ++
  Js.padStart 2 "0" (Js.toString minutes).

(** The [while (currentMinutes < endMinutes)] loop.  [fuel] bounds the
    number of iterations; [None] means the bound was hit with the loop
    condition still true. *)
Fixpoint slotLoop (fuel : nat) (currentMinutes endMinutes duration : Z)
  : option (list string) :=
  if currentMinutes <? endMinutes then
    match fuel with
    | O => None
    | S fuel' =>
        option_map (cons (timeString currentMinutes))
          (slotLoop fuel' (currentMinutes + duration) endMinutes duration)
    end
  else Some [].

(** [generateTimeSlots(startTime, endTime, duration)].  A [NaN] bound makes
    the loop condition false at once.  The fuel given is the width of the
    range in minutes, which every positive integer [duration] stays within;
    [None] is therefore the non-terminating run ([duration <= 0] on a
    non-empty range). *)
Definition generateTimeSlots (startTime endTime : string) (duration : Z)
  : option (list string) :=
  match minutesOfDay startTime, minutesOfDay endTime with
  | Some currentMinutes, Some endMinutes =>
      slotLoop (Z.to_nat (endMinutes - currentMinutes))
        currentMinutes endMinutes duration
  | _, _ => Some []
  end.

Definition isValidTimeSlot (timeSlot startTime endTime : string) (duration : Z)
  : option bool :=
  option_map (Js.arrayIncludes timeSlot)
    (generateTimeSlots startTime endTime duration).

Definition isFutureDate (clk : Clock) (date : string) : bool :=
  let today := getCurrentDate clk in
  Js.lt today date.

(** The time template over given hours and minutes, and what it prints
    when both are [NaN]. *)
Definition template (hours minutes : Z) : string :=
  Js.padStart 2 "0" (Js.toString hours) ++ ":" ++
  Js.padStart 2 "0" (Js.toString minutes).

Definition nanTime : string := "NaN:NaN".

(** [getNextTimeSlot(currentTime, duration)].  A zero [duration] makes the
    remainder [NaN], and so do unparsed hours or minutes. *)
Definition getNextTimeSlot (currentTime : string) (duration : Z) : string :=
  match minutesOfDay currentTime with
  | Some totalMinutes =>
      if duration =? 0 then nanTime
      else
        let remainder := Z.rem totalMinutes duration in
        let totalMinutes' :=
          if negb (remainder =? 0) then totalMinutes + (duration - remainder)
          else totalMinutes + duration in
        let newHours := totalMinutes' / 60 in
        let newMinutes := Z.rem totalMinutes' 60 in
        template newHours newMinutes
  | None => nanTime
  end.

(** [getTimeDuration(startTime, endTime)] *)
Definition getTimeDuration (startTime endTime : string) : option Z :=
  match minutesOfDay startTime, minutesOfDay endTime with
  | Some startMinutes, Some endMinutes => Some (endMinutes - startMinutes)
  | _, _ => None
  end.

(** [addMinutesToTime(time, minutes)] *)
Definition addMinutesToTime (time : string) (minutes : Z) : string :=
  match minutesOfDay time with
  | Some m =>
      let totalMinutes := m + minutes in
      let newHours := Z.rem (totalMinutes / 60) 24 in
      let newMinutes := Z.rem totalMinutes 60 in
      template newHours newMinutes
  | None => nanTime
  end.

End DateUtils.


(* ------------------------------------------------------------------ *)
(** ** Schema patterns, exceptions, replies *)
(* ------------------------------------------------------------------ *)

Module Patterns.

Definition isChar (c x : ascii) : bool := Ascii.eqb x c.

Definition inRange (lo hi : N) (x : ascii) : bool :=
  let n := N_of_ascii x in ((lo <=? n) && (n <=? hi))%N.

(** [/^\d{4}-\d{2}-\d{2}$/] *)
Definition date (s : string) : bool :=
  match list_ascii_of_string s with
  | [y1; y2; y3; y4; a; m1; m2; b; d1; d2] =>
      Js.isDigit y1 && Js.isDigit y2 && Js.isDigit y3 && Js.isDigit y4 &&
      isChar "-" a && Js.isDigit m1 && Js.isDigit m2 &&
      isChar "-" b && Js.isDigit d1 && Js.isDigit d2
  | _ => false
  end.

(** [/^([0-1]?[0-9]|2[0-3]):[0-5][0-9]$/] *)
Definition time (s : string) : bool :=
  match list_ascii_of_string s with
  | [h1; h2; c; m1; m2] =>
      ((inRange 48 49 h1 && Js.isDigit h2) ||
       (isChar "2" h1 && inRange 48 51 h2)) &&
      isChar ":" c && inRange 48 53 m1 && Js.isDigit m2
  | [h; c; m1; m2] =>
      Js.isDigit h && isChar ":" c && inRange 48 53 m1 && Js.isDigit m2
  | _ => false
  end.

(** A Mongoose [match] validator: it passes on the empty string and tests
    the pattern on anything else. *)
Definition matchValidator (pattern : string -> bool) (v : string) : bool :=
  if Js.truthy v then pattern v else true.

(** A Mongoose [required] validator on a string path. *)
Definition requiredValidator (v : string) : bool := Js.truthy v.

End Patterns.

(** What [save()] and the hooks can throw. *)
Inductive Exception :=
| ValidationError (paths : list string)
    (** Mongoose schema validation, [err.name === 'ValidationError'] *)
| DuplicateKey (keyValue : list (string * string))
    (** MongoDB E11000, [err.code === 11000] with its [keyValue] *)
| Error (message : string).
    (** a plain [new Error(message)] *)

(** The outcome of a [save()]: the collection afterwards and the saved
    document, or the exception thrown with the collection untouched. *)
Inductive Saved (D : Type) :=
| Stored (collection : list D) (doc : D)
| Threw (e : Exception).
Arguments Stored {D} collection doc.
Arguments Threw {D} e.

(** The HTTP reply of a handler: status code, message and optional payload.
    [NoReply] is a handler that never answers because a slot loop does not
    terminate. *)
Inductive Reply (A : Type) :=
| Respond (statusCode : Z) (message : string) (data : option A)
| NoReply.
Arguments Respond {A} statusCode message data.
Arguments NoReply {A}.

Definition respondWithError {A} (message : string) (statusCode : Z) : Reply A :=
  Respond statusCode message None.
Definition respondWithSuccess {A} (message : string) (data : option A) : Reply A :=
  Respond 200 message data.
Definition respondWithCreated {A} (data : A) (message : string) : Reply A :=
  Respond 201 message (Some data).
Definition respondWithUpdated {A} (data : A) (message : string) : Reply A :=
  Respond 200 message (Some data).

(** Fresh [ObjectId]s: any identifier not yet in the collection will do. *)
Definition freshId (ids : list nat) : nat := S (fold_right Nat.max O ids).

(* ------------------------------------------------------------------ *)
(** ** The [AvailableDate] model *)
(* ------------------------------------------------------------------ *)

Module AvailableDate.

(** [slotDuration] is a whole number of minutes, as the creation routes
    require of it ([isInt]); a fractional or null [Number], which the schema
    itself does not exclude, is outside this record. *)
Record t := mk {
  _id : nat;
  date : string;
  startTime : string;
  endTime : string;
  slotDuration : Z;
  isActive : bool;
  notes : string;
  createdBy : option nat
}.

(** Schema validators, in path order; the answer lists the failing paths. *)
Definition validate (d : t) : list string :=
  (if Patterns.requiredValidator (date d) && Patterns.matchValidator Patterns.date (date d)
   then [] else ["date"%string]) ++
  (if Patterns.requiredValidator (startTime d) && Patterns.matchValidator Patterns.time (startTime d)
   then [] else ["startTime"%string]) ++
  (if Patterns.requiredValidator (endTime d) && Patterns.matchValidator Patterns.time (endTime d)
   then [] else ["endTime"%string]) ++
  (if (15 <=? slotDuration d) && (slotDuration d <=? 120)
   then [] else ["slotDuration"%string]) ++
  (if (String.length (notes d) <=? 500)%nat then [] else ["notes"%string]).

(** [virtual('totalSlots')]: [Math.floor(totalMinutes / slotDuration)].
    [None] is a non-finite result ([NaN] bounds or a zero duration). *)
Definition totalSlots (d : t) : option Z :=
  match DateUtils.minutesOfDay (startTime d), DateUtils.minutesOfDay (endTime d) with
  | Some startMinutes, Some endMinutes =>
      let totalMinutes := endMinutes - startMinutes in
      if slotDuration d =? 0 then None
      else Some (totalMinutes / slotDuration d)
  | _, _ => None
  end.

(** [pre('save')]: the time range must be non-empty and hold one slot.
    Comparisons against [NaN] are false. *)
Definition preSave (d : t) : option Exception :=
  match DateUtils.minutesOfDay (startTime d), DateUtils.minutesOfDay (endTime d) with
  | Some startMinutes, Some endMinutes =>
      if startMinutes >=? endMinutes then
        Some (Error "End time must be after start time")
      else if (endMinutes - startMinutes) <? slotDuration d then
        Some (Error "Time range must be at least one slot duration")
      else None
  | _, _ => None
  end.

(** [methods.generateTimeSlots]: the loop of [DateUtils.generateTimeSlots]
    over the document's own fields. *)
Definition generateTimeSlots (d : t) : option (list string) :=
  match DateUtils.minutesOfDay (startTime d), DateUtils.minutesOfDay (endTime d) with
  | Some currentMinutes, Some endMinutes =>
      DateUtils.slotLoop (Z.to_nat (endMinutes - currentMinutes))
        currentMinutes endMinutes (slotDuration d)
  | _, _ => Some []
  end.

(** [methods.isValidTimeSlot] *)
Definition isValidTimeSlot (d : t) (timeSlot : string) : option bool :=
  option_map (Js.arrayIncludes timeSlot) (generateTimeSlots d).

(** [save()] of a document built with [new AvailableDate(...)]: schema
    validation, the pre-save hook, then the insertion, which the unique
    index on [date] refuses when the date is already stored. *)
Definition save (coll : list t) (d : t) : Saved t :=
  match validate d with
  | (_ :: _) as paths => Threw (ValidationError paths)
  | [] =>
      match preSave d with
      | Some e => Threw e
      | None =>
          if existsb (fun x => (date x =? date d)%string) coll
          then Threw (DuplicateKey [("date"%string, date d)])
          else Stored (coll ++ [d]) d
      end
  end.

Definition findById (id : nat) (coll : list t) : option t :=
  find (fun x => Nat.eqb (_id x) id) coll.

Definition replaceDoc (coll : list t) (d : t) : list t :=
  map (fun x => if Nat.eqb (_id x) (_id d) then d else x) coll.

(** [save()] of a document read from the collection and changed in memory:
    schema validation and the pre-save hook as for a new one, then the
    update; the index on [date] is consulted when the date was changed. *)
Definition saveStored (coll : list t) (d : t) : Saved t :=
  match validate d with
  | (_ :: _) as paths => Threw (ValidationError paths)
  | [] =>
      match preSave d with
      | Some e => Threw e
      | None =>
          let dateModified :=
            match findById (_id d) coll with
            | Some stored => negb (date stored =? date d)%string
            | None => false
            end in
          if dateModified
             && existsb (fun x => (date x =? date d)%string
                                  && negb (Nat.eqb (_id x) (_id d))) coll
          then Threw (DuplicateKey [("date"%string, date d)])
          else Stored (replaceDoc coll d) d
      end
  end.

(** [findByIdAndDelete(id)] *)
Definition deleteById (id : nat) (coll : list t) : list t :=
  filter (fun x => negb (Nat.eqb (_id x) id)) coll.

End AvailableDate.

(* ------------------------------------------------------------------ *)
(** ** Collaborators outside the scheduling core *)
(* ------------------------------------------------------------------ *)

Module Customer.
Record t := mk {
  name : string;
  email : string;
  phone : string;
  notes : string
}.
End Customer.

(** The input-validation layer and the deployment setting, which the
    scheduling core only calls.  [validateCustomer] is
    [Validators.validateCustomer] (the sanitised customer when [isValid]),
    [validateEmail] and [validatePhone] likewise; [validateNotes] answers
    its error message on the left and the cleaned notes on the right;
    [customerPaths] lists the [customer.*] paths that fail the validators of
    the booking schema; [production] is [config.env === 'production']. *)
Record Host := mkHost {
  validateCustomer : Customer.t -> option Customer.t;
  validateEmail : string -> option string;
  validatePhone : string -> option string;
  validateNotes : string -> string + string;
  customerPaths : Customer.t -> list string;
  production : bool
}.

(* ------------------------------------------------------------------ *)
(** ** The [Booking] model *)
(* ------------------------------------------------------------------ *)

Module Booking.

Record t := mk {
  _id : nat;
  date : string;
  timeSlot : string;
  customer : Customer.t;
  status : string;
  bookingReference : string;
  source : string;
  paymentStatus : string;
  checkedInAt : option Z;
  cancelledAt : option Z;
  cancellationReason : option string;
  createdBy : option nat
}.

(** Field updates of a document held in memory. *)
Definition setSlot (b : t) (d ts : string) : t :=
  mk (_id b) d ts (customer b) (status b) (bookingReference b) (source b)
     (paymentStatus b) (checkedInAt b) (cancelledAt b) (cancellationReason b)
     (createdBy b).
Definition setCustomer (b : t) (c : Customer.t) : t :=
  mk (_id b) (date b) (timeSlot b) c (status b) (bookingReference b) (source b)
     (paymentStatus b) (checkedInAt b) (cancelledAt b) (cancellationReason b)
     (createdBy b).
Definition setStatus (b : t) (s : string) : t :=
  mk (_id b) (date b) (timeSlot b) (customer b) s (bookingReference b) (source b)
     (paymentStatus b) (checkedInAt b) (cancelledAt b) (cancellationReason b)
     (createdBy b).
Definition setBookingReference (b : t) (r : string) : t :=
  mk (_id b) (date b) (timeSlot b) (customer b) (status b) r (source b)
     (paymentStatus b) (checkedInAt b) (cancelledAt b) (cancellationReason b)
     (createdBy b).
Definition setCheckedInAt (b : t) (i : option Z) : t :=
  mk (_id b) (date b) (timeSlot b) (customer b) (status b) (bookingReference b)
     (source b) (paymentStatus b) i (cancelledAt b) (cancellationReason b)
     (createdBy b).
Definition setCancelledAt (b : t) (i : option Z) : t :=
  mk (_id b) (date b) (timeSlot b) (customer b) (status b) (bookingReference b)
     (source b) (paymentStatus b) (checkedInAt b) i (cancellationReason b)
     (createdBy b).
Definition setCancellationReason (b : t) (r : option string) : t :=
  mk (_id b) (date b) (timeSlot b) (customer b) (status b) (bookingReference b)
     (source b) (paymentStatus b) (checkedInAt b) (cancelledAt b) r
     (createdBy b).

(** [new Booking({...})]: the schema defaults fill what the caller leaves
    out; the reference stays empty until the first save. *)
Definition create (id : nat) (d ts : string) (c : Customer.t)
  (st src pay : string) (by_ : option nat) : t :=
  mk id d ts c st EmptyString src pay None None None by_.

(** Schema validators; the answer lists the failing paths. *)
Definition validate (H : Host) (b : t) : list string :=
  (if Patterns.requiredValidator (date b) && Patterns.matchValidator Patterns.date (date b)
   then [] else ["date"%string]) ++
  (if Patterns.requiredValidator (timeSlot b) && Patterns.matchValidator Patterns.time (timeSlot b)
   then [] else ["timeSlot"%string]) ++
  customerPaths H (customer b) ++
  (if Js.arrayIncludes (status b) ["pending"; "confirmed"; "cancelled"; "completed"; "no-show"]%string
   then [] else ["status"%string]) ++
  (if Js.arrayIncludes (source b) ["online"; "phone"; "walk-in"; "admin"]%string
   then [] else ["source"%string]) ++
  (if Js.arrayIncludes (paymentStatus b) ["pending"; "paid"; "refunded"; "not-required"]%string
   then [] else ["paymentStatus"%string]) ++
  (match cancellationReason b with
   | Some r => if (String.length r <=? 500)%nat then [] else ["cancellationReason"%string]
   | None => []
   end).

(** Query predicates. *)
Definition atSlot (d ts : string) (b : t) : bool :=
  (date b =? d)%string && (timeSlot b =? ts)%string.
Definition notCancelled (b : t) : bool :=
  negb (Js.arrayIncludes (status b) ["cancelled"%string]).
Definition hasReference (r : string) (b : t) : bool :=
  (bookingReference b =? r)%string.
Definition hasId (id : nat) (b : t) : bool := Nat.eqb (_id b) id.

Definition findOne (q : t -> bool) (coll : list t) : option t := find q coll.
Definition findById (id : nat) (coll : list t) : option t := find (hasId id) coll.

(** The [do { ... } while (counter <= 999)] search of
    [statics.generateBookingReference].  [remaining] is [999 - counter]: the
    number of increments the loop condition still allows.  When the last
    candidate is taken too the loop ends and that candidate is returned. *)
Fixpoint referenceLoop (coll : list t) (stem : string) (counter : Z)
  (remaining : nat) : string :=
  let reference := stem ++ Js.toString counter in
  match findOne (hasReference reference) coll with
  | None => reference
  | Some _ =>
      match remaining with
      | O => reference
      | S remaining' => referenceLoop coll stem (counter + 1) remaining'
      end
  end.

Definition referenceStem (clk : Clock) : string :=
  let prefix := Config.bookingReferencePrefix in
  let dateStr := Js.removeChar "-" (currentDate clk) in
  let timeStr := Js.removeFirstChar ":" (currentTime clk) in
  prefix ++ dateStr ++ timeStr.

Definition generateBookingReference (clk : Clock) (coll : list t) : string :=
  referenceLoop coll (referenceStem clk) 1 998.

(** [isNew] and [isModified(path)]: a document is new when the collection
    holds none with its [_id]; a path is modified when its value differs
    from the stored one. *)
Definition isNew (coll : list t) (b : t) : bool :=
  match findById (_id b) coll with
  | None => true
  | Some _ => false
  end.

Definition isModified {A} (eqb : A -> A -> bool) (path : t -> A)
  (coll : list t) (b : t) : bool :=
  match findById (_id b) coll with
  | None => false
  | Some stored => negb (eqb (path stored) (path b))
  end.

(** First [pre('save')] hook: a missing reference is generated. *)
Definition preSaveReference (clk : Clock) (coll : list t) (b : t) : t :=
  if negb (Js.truthy (bookingReference b))
  then setBookingReference b (generateBookingReference clk coll)
  else b.

(** Second [pre('save')] hook: the double-booking check. *)
Definition preSaveDoubleBooking (coll : list t) (b : t) : option Exception :=
  if isNew coll b || isModified String.eqb date coll b
     || isModified String.eqb timeSlot coll b
  then
    match findOne (fun x => atSlot (date b) (timeSlot b) x && notCancelled x
                            && negb (hasId (_id b) x)) coll with
    | Some _ => Some (Error "This time slot is already booked")
    | None => None
    end
  else None.

(** The unique indexes, checked against the other stored documents:
    [bookingReference_1] and [date_1_timeSlot_1]. *)
Definition referenceTaken (coll : list t) (b : t) : bool :=
  existsb (fun x => hasReference (bookingReference b) x && negb (hasId (_id b) x)) coll.
Definition slotTaken (coll : list t) (b : t) : bool :=
  existsb (fun x => atSlot (date b) (timeSlot b) x && negb (hasId (_id b) x)) coll.

Definition replaceDoc (coll : list t) (b : t) : list t :=
  map (fun x => if hasId (_id b) x then b else x) coll.

(** The write that ends a [save()].  A new document is inserted and both
    unique indexes are checked; for a stored document only the modified
    paths are sent, so an index is checked when one of its keys changed.
    Should both indexes refuse a document, the exception names
    [bookingReference_1], the index declared first; nothing below depends on
    which of the two is named. *)
Definition write (coll : list t) (b : t) : Saved t :=
  if isNew coll b then
    if referenceTaken coll b then
      Threw (DuplicateKey [("bookingReference"%string, bookingReference b)])
    else if slotTaken coll b then
      Threw (DuplicateKey [("date"%string, date b); ("timeSlot"%string, timeSlot b)])
    else Stored (coll ++ [b]) b
  else
    if isModified String.eqb bookingReference coll b && referenceTaken coll b then
      Threw (DuplicateKey [("bookingReference"%string, bookingReference b)])
    else if (isModified String.eqb date coll b || isModified String.eqb timeSlot coll b)
            && slotTaken coll b then
      Threw (DuplicateKey [("date"%string, date b); ("timeSlot"%string, timeSlot b)])
    else Stored (replaceDoc coll b) b.

(** [doc.save()]: schema validation, the two pre-save hooks in the order
    they are registered, then the write. *)
Definition save (H : Host) (clk : Clock) (coll : list t) (b : t) : Saved t :=
  match validate H b with
  | (_ :: _) as paths => Threw (ValidationError paths)
  | [] =>
      let b1 := preSaveReference clk coll b in
      match preSaveDoubleBooking coll b1 with
      | Some e => Threw e
      | None => write coll b1
      end
  end.

(** [methods.cancel(reason)]: the three assignments, then [this.save()]. *)
Definition markCancelled (clk : Clock) (b : t) (reason : option string) : t :=
  let b1 := setStatus b "cancelled" in
  let b2 := setCancelledAt b1 (Some (now clk)) in
  if Js.given reason then setCancellationReason b2 reason else b2.

Definition cancel (H : Host) (clk : Clock) (coll : list t) (b : t)
  (reason : option string) : Saved t :=
  save H clk coll (markCancelled clk b reason).

(** [methods.checkIn()] *)
Definition checkIn (H : Host) (clk : Clock) (coll : list t) (b : t) : Saved t :=
  save H clk coll (setCheckedInAt b (Some (now clk))).

(** [Booking.updateMany({ _id: { $in: ids } }, update)] with an update that
    sets the status and, optionally, the cancellation fields.  No hook and no
    schema validator runs. *)
Record StatusUpdate := mkUpdate {
  newStatus : option string;
  newCancelledAt : option Z;
  newCancellationReason : option string
}.

Definition applyUpdate (u : StatusUpdate) (b : t) : t :=
  let b1 := match newStatus u with Some s => setStatus b s | None => b end in
  let b2 := match newCancelledAt u with
            | Some i => setCancelledAt b1 (Some i) | None => b1 end in
  match newCancellationReason u with
  | Some r => setCancellationReason b2 (Some r)
  | None => b2
  end.

Definition updateMany (ids : list nat) (u : StatusUpdate) (coll : list t) : list t :=
  map (fun x => if existsb (Nat.eqb (_id x)) ids then applyUpdate u x else x) coll.

(** [statics.getStats(startDate, endDate)]: the [$match] on the date range
    and the [$group] that counts per status.  With no matching document the
    aggregation is empty and the zero record is returned, which is what the
    counts give. *)
Record Stats := mkStats {
  totalBookings : nat;
  confirmedBookings : nat;
  pendingBookings : nat;
  cancelledBookings : nat;
  completedBookings : nat;
  noShowBookings : nat
}.

Definition matchDateRange (startDate endDate : option string) (b : t) : bool :=
  match startDate with
  | Some s => if Js.truthy s then Js.le s (date b) else true
  | None => true
  end
  &&
  match endDate with
  | Some e => if Js.truthy e then Js.le (date b) e else true
  | None => true
  end.

Definition countStatus (s : string) (coll : list t) : nat :=
  List.length (filter (fun b => (status b =? s)%string) coll).

Definition getStats (startDate endDate : option string) (coll : list t) : Stats :=
  let matched := filter (matchDateRange startDate endDate) coll in
  mkStats (List.length matched)
    (countStatus "confirmed" matched) (countStatus "pending" matched)
    (countStatus "cancelled" matched) (countStatus "completed" matched)
    (countStatus "no-show" matched).

End Booking.

(* ------------------------------------------------------------------ *)
(** ** The database and the error middleware *)
(* ------------------------------------------------------------------ *)

Record Db := mkDb {
  bookings : list Booking.t;
  availableDates : list AvailableDate.t
}.

Definition withBookings (db : Db) (coll : list Booking.t) : Db :=
  mkDb coll (availableDates db).
Definition withAvailableDates (db : Db) (coll : list AvailableDate.t) : Db :=
  mkDb (bookings db) coll.

Module ErrorHandler.

Fixpoint lookup (k : string) (kv : list (string * string)) : option string :=
  match kv with
  | [] => None
  | (k', v) :: rest => if (k' =? k)%string then Some v else lookup k rest
  end.

(** [errorHandler(err, req, res, next)], on the exceptions a [save()] can
    throw; [asyncHandler] routes every rejected handler here. *)
Definition errorHandler {A} (H : Host) (err : Exception) : Reply A :=
  match err with
  | DuplicateKey keyValue =>
      let field := match keyValue with
                   | (k, _) :: _ => k
                   | [] => "undefined"%string
                   end in
      let message :=
        if (field =? "email")%string then "Email address is already registered"%string
        else if (field =? "username")%string then "Username is already taken"%string
        else if (field =? "bookingReference")%string then "Booking reference already exists"%string
        else if Js.given (lookup "date" keyValue) && Js.given (lookup "timeSlot" keyValue)
             then "This time slot is already booked"%string
        else ("Duplicate field value: " ++ field)%string in
      respondWithError message 400
  | ValidationError _ => respondWithError "Validation Error" 400
  | Error message =>
      if Js.includes "already booked" message then
        respondWithError "This time slot is already booked" 409
      else if Js.includes "not available" message then
        respondWithError "Selected time slot is not available" 400
      else if Js.includes "past date" message then
        respondWithError "Cannot book dates in the past" 400
      else
        let statusCode := 500 in
        let message' := if Js.truthy message then message
                        else "Internal Server Error"%string in
        let finalMessage := if production H then "Something went wrong"%string
                            else message' in
        respondWithError finalMessage statusCode
  end.

End ErrorHandler.

(* ------------------------------------------------------------------ *)
(** ** [BookingController] *)
(* ------------------------------------------------------------------ *)

Module BookingController.

Definition newline : string := String (ascii_of_nat 10) EmptyString.

(** [AvailableDate.findOne({ date, isActive: true })] *)
Definition findActiveDate (db : Db) (date : string) : option AvailableDate.t :=
  find (fun a => (AvailableDate.date a =? date)%string && AvailableDate.isActive a)
       (availableDates db).

(** [Booking.findOne({ date, timeSlot, status: { $nin: ['cancelled'] } })] *)
Definition findLiveBooking (db : Db) (date timeSlot : string) : option Booking.t :=
  Booking.findOne (fun b => Booking.atSlot date timeSlot b && Booking.notCancelled b)
                  (bookings db).

(** The tail shared by both creation handlers: [await booking.save()] and
    the 201 reply, or the error middleware. *)
Definition saveAndReply (H : Host) (clk : Clock) (db : Db) (booking : Booking.t)
  (reply : Booking.t -> Reply Booking.t) : Db * Reply Booking.t :=
  match Booking.save H clk (bookings db) booking with
  | Stored coll doc => (withBookings db coll, reply doc)
  | Threw e => (db, ErrorHandler.errorHandler H e)
  end.

Definition createBooking (H : Host) (clk : Clock) (db : Db)
  (date timeSlot : string) (customer : Customer.t) (user : option nat)
  : Db * Reply Booking.t :=
  match validateCustomer H customer with
  | None => (db, respondWithError "Customer validation failed" 400)
  | Some validCustomer =>
    if DateUtils.isPastDate clk date then
      (db, respondWithError "Cannot book dates in the past" 400)
    else if DateUtils.isPastTimeSlot clk date timeSlot then
      (db, respondWithError "Cannot book past time slots" 400)
    else if negb (DateUtils.isWithinBookingLimit clk date) then
      (db, respondWithError "Date is beyond the maximum advance booking period" 400)
    else
      match findActiveDate db date with
      | None => (db, respondWithError "Selected date is not available for booking" 400)
      | Some availableDate =>
        match AvailableDate.isValidTimeSlot availableDate timeSlot with
        | None => (db, NoReply)
        | Some false => (db, respondWithError "Invalid time slot for the selected date" 400)
        | Some true =>
          match findLiveBooking db date timeSlot with
          | Some _ => (db, respondWithError "This time slot is already booked" 409)
          | None =>
            let booking :=
              Booking.create (freshId (map Booking._id (bookings db)))
                date timeSlot validCustomer "confirmed" "online" "not-required" user in
            saveAndReply H clk db booking
              (fun doc => respondWithCreated doc "Booking created successfully")
          end
        end
      end
  end.

Definition cancelBooking (H : Host) (clk : Clock) (db : Db)
  (ref : string) (reason : option string) : Db * Reply Booking.t :=
  match Booking.findOne (Booking.hasReference ref) (bookings db) with
  | None => (db, respondWithError "Booking not found" 404)
  | Some booking =>
    if (Booking.status booking =? "cancelled")%string then
      (db, respondWithError "Booking is already cancelled" 400)
    else if (Booking.status booking =? "completed")%string then
      (db, respondWithError "Cannot cancel completed booking" 400)
    else
      (* [hoursUntilBooking = (bookingDateTime - now) / (1000 * 60 * 60)];
         the tests [< 2] and [> 0] are taken on the millisecond difference.
         With an invalid date the difference is [NaN] and both are false. *)
      let tooLate :=
        match localDateTime clk (Booking.date booking) (Booking.timeSlot booking) with
        | Some bookingDateTime =>
            let msUntilBooking := bookingDateTime - now clk in
            (msUntilBooking <? 2 * (1000 * 60 * 60)) && (msUntilBooking >? 0)
        | None => false
        end in
      if tooLate then
        (db, respondWithError "Cannot cancel booking within 2 hours of appointment time" 400)
      else
        match Booking.cancel H clk (bookings db) booking reason with
        | Stored coll doc =>
            (withBookings db coll, respondWithSuccess "Booking cancelled successfully" (Some doc))
        | Threw e => (db, ErrorHandler.errorHandler H e)
        end
  end.

(** The [if (reason) { booking.customer.notes = ... }] step of
    [rescheduleBooking]: the reason is appended to the customer notes. *)
Definition appendRescheduleNote (booking : Booking.t) (oldDate oldTimeSlot : string)
  (reason : option string) : Booking.t :=
  match reason with
  | Some r =>
    if Js.truthy r then
      let c := Booking.customer booking in
      let line := ("Rescheduled from " ++ oldDate ++ " " ++ oldTimeSlot
                   ++ ": " ++ r)%string in
      let notes' := if Js.truthy (Customer.notes c)
                    then (Customer.notes c ++ newline ++ newline ++ line)%string
                    else line in
      Booking.setCustomer booking
        (Customer.mk (Customer.name c) (Customer.email c) (Customer.phone c) notes')
    else booking
  | None => booking
  end.

Definition rescheduleBooking (H : Host) (clk : Clock) (db : Db)
  (ref newDate newTimeSlot : string) (reason : option string)
  : Db * Reply Booking.t :=
  match Booking.findOne (Booking.hasReference ref) (bookings db) with
  | None => (db, respondWithError "Booking not found" 404)
  | Some booking =>
    if (Booking.status booking =? "cancelled")%string then
      (db, respondWithError "Cannot reschedule cancelled booking" 400)
    else if (Booking.status booking =? "completed")%string then
      (db, respondWithError "Cannot reschedule completed booking" 400)
    else if DateUtils.isPastDate clk newDate then
      (db, respondWithError "Cannot reschedule to a past date" 400)
    else if DateUtils.isPastTimeSlot clk newDate newTimeSlot then
      (db, respondWithError "Cannot reschedule to a past time slot" 400)
    else
      match findActiveDate db newDate with
      | None => (db, respondWithError "New date is not available for booking" 400)
      | Some newAvailableDate =>
        match AvailableDate.isValidTimeSlot newAvailableDate newTimeSlot with
        | None => (db, NoReply)
        | Some false => (db, respondWithError "Invalid time slot for the new date" 400)
        | Some true =>
          match Booking.findOne
                  (fun b => Booking.atSlot newDate newTimeSlot b && Booking.notCancelled b
                            && negb (Booking.hasId (Booking._id booking) b))
                  (bookings db) with
          | Some _ => (db, respondWithError "New time slot is already booked" 409)
          | None =>
            let oldDate := Booking.date booking in
            let oldTimeSlot := Booking.timeSlot booking in
            let moved := Booking.setSlot booking newDate newTimeSlot in
            let noted := appendRescheduleNote moved oldDate oldTimeSlot reason in
            saveAndReply H clk db noted
              (fun doc => respondWithUpdated doc
                 ("Booking rescheduled from " ++ oldDate ++ " " ++ oldTimeSlot ++ " to "
                  ++ newDate ++ " " ++ newTimeSlot)%string)
          end
        end
      end
  end.

Definition updateBooking (H : Host) (clk : Clock) (db : Db)
  (ref : string) (customer : option Customer.t) (notes : option string)
  : Db * Reply Booking.t :=
  match Booking.findOne (Booking.hasReference ref) (bookings db) with
  | None => (db, respondWithError "Booking not found" 404)
  | Some booking =>
    if (Booking.status booking =? "cancelled")%string then
      (db, respondWithError "Cannot modify cancelled booking" 400)
    else if (Booking.status booking =? "completed")%string then
      (db, respondWithError "Cannot modify completed booking" 400)
    else if DateUtils.isPastTimeSlot clk (Booking.date booking) (Booking.timeSlot booking) then
      (db, respondWithError "Cannot modify past bookings" 400)
    else
      let withCustomer :=
        match customer with
        | Some c =>
            match validateCustomer H c with
            | None => inl (respondWithError "Customer validation failed" 400)
            | Some validCustomer => inr (Booking.setCustomer booking validCustomer)
            end
        | None => inr booking
        end in
      match withCustomer with
      | inl reply => (db, reply)
      | inr booking1 =>
        let withNotes :=
          match notes with
          | Some n =>
              match validateNotes H n with
              | inl message => inl (respondWithError message 400)
              | inr validNotes =>
                  let c := Booking.customer booking1 in
                  inr (Booking.setCustomer booking1
                         (Customer.mk (Customer.name c) (Customer.email c)
                                      (Customer.phone c) validNotes))
              end
          | None => inr booking1
          end in
        match withNotes with
        | inl reply => (db, reply)
        | inr booking2 =>
            saveAndReply H clk db booking2
              (fun doc => respondWithUpdated doc "Booking updated successfully")
        end
      end
  end.

(** [t.split(':').reduce((acc, time) => acc * 60 + parseInt(time), 0)] *)
Definition reduceMinutes (t : string) : option Z :=
  fold_left (fun acc time =>
               match acc, Js.parseInt time with
               | Some a, Some v => Some (a * 60 + v)
               | _, _ => None
               end)
            (Js.split ":" t) (Some 0).

Definition checkInBooking (H : Host) (clk : Clock) (db : Db) (ref : string)
  : Db * Reply Booking.t :=
  match Booking.findOne (Booking.hasReference ref) (bookings db) with
  | None => (db, respondWithError "Booking not found" 404)
  | Some booking =>
    if negb (Booking.status booking =? "confirmed")%string then
      (db, respondWithError "Only confirmed bookings can be checked in" 400)
    else
      let today := DateUtils.getCurrentDate clk in
      if negb (Booking.date booking =? today)%string then
        (db, respondWithError "Can only check in for today's bookings" 400)
      else
        let currentTime := DateUtils.getCurrentTime clk in
        let bookingTime := Booking.timeSlot booking in
        let tooFar :=
          match reduceMinutes currentTime, reduceMinutes bookingTime with
          | Some currentMinutes, Some bookingMinutes =>
              Z.abs (currentMinutes - bookingMinutes) >? 30
          | _, _ => false
          end in
        if tooFar then
          (db, respondWithError "Can only check in within 30 minutes of booking time" 400)
        else
          match Booking.checkIn H clk (bookings db) booking with
          | Stored coll doc =>
              (withBookings db coll, respondWithSuccess "Checked in successfully" (Some doc))
          | Threw e => (db, ErrorHandler.errorHandler H e)
          end
  end.

Definition createSimpleBooking (H : Host) (clk : Clock) (db : Db)
  (username email phone : string) (notes : option string) (date time : string)
  : Db * Reply Booking.t :=
  if negb (Js.truthy username) || negb (Js.truthy email) || negb (Js.truthy phone)
     || negb (Js.truthy date) || negb (Js.truthy time) then
    (db, respondWithError "Username, email, phone, date, and time are required" 400)
  else
    match validateEmail H email with
    | None => (db, respondWithError "Invalid email format" 400)
    | Some validEmail =>
      match validatePhone H phone with
      | None => (db, respondWithError "Invalid phone number format" 400)
      | Some validPhone =>
        if negb (Patterns.date date) then
          (db, respondWithError "Date must be in YYYY-MM-DD format" 400)
        else if negb (Patterns.time time) then
          (db, respondWithError "Time must be in HH:MM format" 400)
        else if DateUtils.isPastDate clk date then
          (db, respondWithError "Cannot book dates in the past" 400)
        else if DateUtils.isPastTimeSlot clk date time then
          (db, respondWithError "Cannot book past time slots" 400)
        else if negb (DateUtils.isWithinBookingLimit clk date) then
          (db, respondWithError "Date is beyond the maximum advance booking period" 400)
        else
          match findActiveDate db date with
          | None => (db, respondWithError "Selected date is not available for booking" 400)
          | Some availableDate =>
            match AvailableDate.isValidTimeSlot availableDate time with
            | None => (db, NoReply)
            | Some false => (db, respondWithError "Invalid time slot for the selected date" 400)
            | Some true =>
              match findLiveBooking db date time with
              | Some _ => (db, respondWithError "This time slot is already booked" 409)
              | None =>
                let customer :=
                  Customer.mk (Js.trim username) validEmail validPhone
                    (if Js.given notes
                     then match notes with Some n => Js.trim n | None => EmptyString end
                     else EmptyString) in
                let booking :=
                  Booking.create (freshId (map Booking._id (bookings db)))
                    date time customer "confirmed" "admin" "not-required" None in
                saveAndReply H clk db booking
                  (fun doc => respondWithCreated doc "Booking created successfully")
              end
            end
          end
      end
    end.

Definition getBookingByReference (db : Db) (ref : string) : Reply Booking.t :=
  match Booking.findOne (Booking.hasReference ref) (bookings db) with
  | None => respondWithError "Booking not found" 404
  | Some booking => respondWithSuccess "Booking retrieved successfully" (Some booking)
  end.

(** [validateBookingData].  The payload is [(isValid, errors)], an error
    being a (field, message) pair.  [customerErrors] gives the errors of
    [Validators.validateCustomer] on a customer it finds invalid, of which
    there is at least one; [isValidDateFormat] is
    [DateUtils.isValidDateFormat], whose calendar test goes through the
    date parser of the host. *)
Definition validateBookingData (isValidDateFormat : string -> bool)
  (customerErrors : Customer.t -> (string * string) * list (string * string))
  (H : Host) (clk : Clock) (db : Db)
  (date timeSlot : string) (customer : option Customer.t)
  : Reply (bool * list (string * string)) :=
  let reply (errors : list (string * string)) : Reply (bool * list (string * string)) :=
    let isValid := match errors with [] => true | _ :: _ => false end in
    respondWithSuccess "Booking validation completed"
      (Some (isValid, if isValid then [] else errors)) in
  let dateErrors :=
    if negb (isValidDateFormat date) then
      [("date", "Invalid date format. Use YYYY-MM-DD")]%string
    else
      ((if DateUtils.isPastDate clk date
        then [("date", "Cannot book dates in the past")]%string else [])
       ++ (if negb (DateUtils.isWithinBookingLimit clk date)
           then [("date", "Date is beyond the maximum advance booking period")]%string
           else []))%list in
  let timeErrors :=
    if negb (Patterns.time timeSlot) then
      [("timeSlot", "Invalid time format. Use HH:MM")]%string
    else if DateUtils.isPastTimeSlot clk date timeSlot then
      [("timeSlot", "Cannot book past time slots")]%string
    else [] in
  let customerErrors' :=
    match customer with
    | Some c =>
        match validateCustomer H c with
        | Some _ => []
        | None => let '(e, es) := customerErrors c in e :: es
        end
    | None => []
    end in
  match (dateErrors ++ timeErrors ++ customerErrors')%list with
  | [] =>
      match findActiveDate db date with
      | None => reply [("date", "Selected date is not available for booking")]%string
      | Some availableDate =>
          match AvailableDate.isValidTimeSlot availableDate timeSlot with
          | None => NoReply
          | Some valid =>
              reply
                ((if negb valid
                  then [("timeSlot", "Invalid time slot for the selected date")]%string
                  else [])
                 ++ match findLiveBooking db date timeSlot with
                    | Some _ => [("timeSlot", "This time slot is already booked")]%string
                    | None => []
                    end)%list
          end
      end
  | errors => reply errors
  end.

End BookingController.

(* ------------------------------------------------------------------ *)
(** ** Sorted queries *)
(* ------------------------------------------------------------------ *)

Module Mongo.

(** [.sort({ key: 1 })]: a stable ascending sort, by insertion. *)
Fixpoint insertBy {A} (le : A -> A -> bool) (x : A) (l : list A) : list A :=
  match l with
  | [] => [x]
  | y :: rest => if le x y then x :: l else y :: insertBy le x rest
  end.

Fixpoint sortBy {A} (le : A -> A -> bool) (l : list A) : list A :=
  match l with
  | [] => []
  | x :: rest => insertBy le x (sortBy le rest)
  end.

End Mongo.

(* ------------------------------------------------------------------ *)
(** ** [CustomerController]: the two slot totals *)
(* ------------------------------------------------------------------ *)

Module CustomerController.

(** [getAvailableSlots]: [totalSlots: allSlots.length] with
    [allSlots = availableDate.generateTimeSlots()]. *)
Definition slotListingTotal (availableDate : AvailableDate.t) : option Z :=
  option_map (fun allSlots => Z.of_nat (List.length allSlots))
             (AvailableDate.generateTimeSlots availableDate).

(** [getCalendar]: [const totalSlots = availableDate.totalSlots], with the
    derived [availableSlots] and [isFullyBooked] of the day entry. *)
Definition calendarTotal (availableDate : AvailableDate.t) : option Z :=
  AvailableDate.totalSlots availableDate.

Definition calendarAvailableSlots (availableDate : AvailableDate.t) (bookedSlots : Z)
  : option Z :=
  option_map (fun totalSlots => totalSlots - bookedSlots) (calendarTotal availableDate).

Definition calendarIsFullyBooked (availableDate : AvailableDate.t) (bookedSlots : Z)
  : option bool :=
  option_map (fun totalSlots => bookedSlots >=? totalSlots) (calendarTotal availableDate).

(** One entry of the [slots] array of [getAvailableSlots]. *)
Record SlotInfo := mkSlotInfo {
  time : string;
  available : bool;
  isBooked : bool;
  isPast : bool
}.

(** The payload of [getAvailableSlots], without the two display strings
    [dayName] and [formattedDate]. *)
Record SlotsResponse := mkSlotsResponse {
  date : string;
  businessHoursStart : string;
  businessHoursEnd : string;
  slotDuration : Z;
  totalSlots : nat;
  availableSlots : nat;
  bookedSlots : nat;
  slots : list SlotInfo
}.

(** [Booking.find({ date, status: { $nin: ['cancelled'] } })], then
    [.map(booking => booking.timeSlot)]. *)
Definition bookedTimes (db : Db) (date : string) : list string :=
  map Booking.timeSlot
    (filter (fun b => (Booking.date b =? date)%string && Booking.notCancelled b)
            (bookings db)).

(** [getAvailableSlots].  [isValidDateFormat] is
    [DateUtils.isValidDateFormat], whose calendar test goes through the
    date parser of the host. *)
Definition getAvailableSlots (isValidDateFormat : string -> bool)
  (clk : Clock) (db : Db) (date : string) : Reply SlotsResponse :=
  if negb (isValidDateFormat date) then
    respondWithError "Invalid date format. Use YYYY-MM-DD" 400
  else if DateUtils.isPastDate clk date then
    respondWithError "Cannot book slots for past dates" 400
  else if negb (DateUtils.isWithinBookingLimit clk date) then
    respondWithError "Date is beyond the maximum advance booking period" 400
  else
    match BookingController.findActiveDate db date with
    | None => respondWithError "No slots available for this date" 404
    | Some availableDate =>
      match AvailableDate.generateTimeSlots availableDate with
      | None => NoReply
      | Some allSlots =>
        let bookedSlots := bookedTimes db date in
        let slots :=
          map (fun slot =>
                 mkSlotInfo slot
                   (negb (Js.arrayIncludes slot bookedSlots))
                   (Js.arrayIncludes slot bookedSlots)
                   (if DateUtils.isToday clk date
                    then DateUtils.isPastTimeSlot clk date slot
                    else false))
              allSlots in
        let availableSlots :=
          filter (fun slot => if DateUtils.isToday clk date
                              then negb (isPast slot) else true)
                 slots in
        respondWithSuccess "Time slots retrieved successfully"
          (Some (mkSlotsResponse date
                   (AvailableDate.startTime availableDate)
                   (AvailableDate.endTime availableDate)
                   (AvailableDate.slotDuration availableDate)
                   (List.length allSlots)
                   (List.length (filter available availableSlots))
                   (List.length bookedSlots)
                   availableSlots))
      end
    end.

(** [nextSlots.length >= maxSlots]; [maxSlots] is [parseInt(count)], [None]
    when that is [NaN], against which no comparison holds. *)
Definition reachedCount (maxSlots : option Z) (nextSlots : list (string * string)) : bool :=
  match maxSlots with
  | Some n => Z.of_nat (List.length nextSlots) >=? n
  | None => false
  end.

(** What the scan of [getNextAvailableSlots] ends with: the slots it
    collected, or the exception it raised. *)
Inductive Scan :=
| Collected (nextSlots : list (string * string))
| Raised (e : Exception).

(** The inner loop of [getNextAvailableSlots] over the slots of one date.
    An entry carries [new Date(`${date}T${timeSlot}:00`).toISOString()],
    which raises a [RangeError] on an invalid date. *)
Fixpoint collectSlots (clk : Clock) (maxSlots : option Z) (date : string)
  (bookedTimes : list string) (timeSlots : list string)
  (nextSlots : list (string * string)) : Scan :=
  match timeSlots with
  | [] => Collected nextSlots
  | timeSlot :: rest =>
      if reachedCount maxSlots nextSlots then Collected nextSlots
      else if Js.arrayIncludes timeSlot bookedTimes then
        collectSlots clk maxSlots date bookedTimes rest nextSlots
      else if DateUtils.isPastTimeSlot clk date timeSlot then
        collectSlots clk maxSlots date bookedTimes rest nextSlots
      else
        match localDateTime clk date timeSlot with
        | None => Raised (Error "Invalid time value")
        | Some _ =>
            collectSlots clk maxSlots date bookedTimes rest
              (nextSlots ++ [(date, timeSlot)])
        end
  end.

(** The outer loop over the windows; [None] when a slot loop does not
    terminate. *)
Fixpoint collectDates (clk : Clock) (db : Db) (maxSlots : option Z)
  (availableDates : list AvailableDate.t) (nextSlots : list (string * string))
  : option Scan :=
  match availableDates with
  | [] => Some (Collected nextSlots)
  | availableDate :: rest =>
      if reachedCount maxSlots nextSlots then Some (Collected nextSlots)
      else
        match AvailableDate.generateTimeSlots availableDate with
        | None => None
        | Some timeSlots =>
            match collectSlots clk maxSlots (AvailableDate.date availableDate)
                    (bookedTimes db (AvailableDate.date availableDate))
                    timeSlots nextSlots with
            | Collected nextSlots' => collectDates clk db maxSlots rest nextSlots'
            | Raised e => Some (Raised e)
            end
        end
  end.

(** The windows [getNextAvailableSlots] scans: active, between [startDate]
    and [endDate], by ascending date. *)
Definition windowsInRange (db : Db) (startDate endDate : string) : list AvailableDate.t :=
  Mongo.sortBy (fun a b => Js.le (AvailableDate.date a) (AvailableDate.date b))
    (filter (fun a => Js.le startDate (AvailableDate.date a)
                      && Js.le (AvailableDate.date a) endDate
                      && AvailableDate.isActive a)
            (availableDates db)).

(** [getNextAvailableSlots]; the payload is the list of (date, timeSlot)
    pairs with the search range, without the display fields of an entry. *)
Definition getNextAvailableSlots (H : Host) (clk : Clock) (db : Db)
  (maxSlots : option Z) (fromDate : option string)
  : Reply (list (string * string) * (string * string)) :=
  let startDate := if Js.given fromDate
                   then match fromDate with Some d => d | None => EmptyString end
                   else DateUtils.getCurrentDate clk in
  let endDate := DateUtils.getDateAfterDays clk 30 in
  match collectDates clk db maxSlots (windowsInRange db startDate endDate) [] with
  | None => NoReply
  | Some (Raised e) => ErrorHandler.errorHandler H e
  | Some (Collected nextSlots) =>
      respondWithSuccess "Next available slots retrieved successfully"
        (Some (nextSlots, (startDate, endDate)))
  end.

(** The payload of [checkSlotAvailability]; [businessHours] is present in
    the last reply only. *)
Record Availability := mkAvailability {
  checkedDate : string;
  checkedTimeSlot : string;
  slotAvailable : bool;
  reason : option string;
  businessHours : option (string * string)
}.

(** [checkSlotAvailability]; the query parameters may be missing.
    [isValidDateFormat] is [DateUtils.isValidDateFormat], as above, and
    [DateUtils.isValidTimeFormat] tests the HH:MM pattern. *)
Definition checkSlotAvailability (isValidDateFormat : string -> bool)
  (clk : Clock) (db : Db) (date timeSlot : option string) : Reply Availability :=
  match date, timeSlot with
  | Some date, Some timeSlot =>
    if negb (Js.truthy date) || negb (Js.truthy timeSlot) then
      respondWithError "Date and timeSlot are required" 400
    else if negb (isValidDateFormat date) then
      respondWithError "Invalid date format. Use YYYY-MM-DD" 400
    else if negb (Patterns.time timeSlot) then
      respondWithError "Invalid time format. Use HH:MM" 400
    else if DateUtils.isPastDate clk date then
      respondWithSuccess "Slot availability checked"
        (Some (mkAvailability date timeSlot false (Some "Date is in the past"%string) None))
    else if DateUtils.isPastTimeSlot clk date timeSlot then
      respondWithSuccess "Slot availability checked"
        (Some (mkAvailability date timeSlot false
                 (Some "Time slot is in the past"%string) None))
    else
      match BookingController.findActiveDate db date with
      | None =>
          respondWithSuccess "Slot availability checked"
            (Some (mkAvailability date timeSlot false
                     (Some "Date is not available for booking"%string) None))
      | Some availableDate =>
        match AvailableDate.isValidTimeSlot availableDate timeSlot with
        | None => NoReply
        | Some false =>
            respondWithSuccess "Slot availability checked"
              (Some (mkAvailability date timeSlot false
                       (Some "Time slot is not valid for this date"%string) None))
        | Some true =>
            let isAvailable :=
              match BookingController.findLiveBooking db date timeSlot with
              | Some _ => false
              | None => true
              end in
            respondWithSuccess "Slot availability checked"
              (Some (mkAvailability date timeSlot isAvailable
                       (if isAvailable then None
                        else Some "Time slot is already booked"%string)
                       (Some (AvailableDate.startTime availableDate,
                              AvailableDate.endTime availableDate))))
        end
      end
  | _, _ => respondWithError "Date and timeSlot are required" 400
  end.

End CustomerController.

(* ------------------------------------------------------------------ *)
(** ** [AdminController] *)
(* ------------------------------------------------------------------ *)

Module AdminController.

Definition quoted (s : string) : string :=
  (String (ascii_of_nat 34) EmptyString ++ s ++ String (ascii_of_nat 34) EmptyString)%string.

Definition updateBookingStatus (H : Host) (clk : Clock) (db : Db)
  (id : nat) (status : string) (cancellationReason : option string)
  : Db * Reply Booking.t :=
  match Booking.findById id (bookings db) with
  | None => (db, respondWithError "Booking not found" 404)
  | Some booking =>
    let oldStatus := Booking.status booking in
    let booking1 := Booking.setStatus booking status in
    let booking2 :=
      if (status =? "cancelled")%string && Js.given cancellationReason then
        Booking.setCancelledAt
          (Booking.setCancellationReason booking1 cancellationReason)
          (Some (now clk))
      else booking1 in
    BookingController.saveAndReply H clk db booking2
      (fun doc => respondWithUpdated doc
         ("Booking status updated from " ++ oldStatus ++ " to " ++ status)%string)
  end.

Definition deleteBooking (H : Host) (clk : Clock) (db : Db)
  (id : nat) (reason : option string) : Db * Reply Booking.t :=
  match Booking.findById id (bookings db) with
  | None => (db, respondWithError "Booking not found" 404)
  | Some booking =>
    let booking1 := Booking.setStatus booking "cancelled" in
    let booking2 := Booking.setCancelledAt booking1 (Some (now clk)) in
    let booking3 := if Js.given reason
                    then Booking.setCancellationReason booking2 reason
                    else booking2 in
    match Booking.save H clk (bookings db) booking3 with
    | Stored coll _ =>
        (withBookings db coll, respondWithSuccess "Booking cancelled successfully" None)
    | Threw e => (db, ErrorHandler.errorHandler H e)
    end
  end.

(** The [updateData] object of [bulkUpdateBookings]. *)
Definition bulkUpdateData (clk : Clock) (action : string) (status reason : option string)
  : Booking.StatusUpdate :=
  if (action =? "update_status")%string && Js.given status then
    if match status with Some s => (s =? "cancelled")%string | None => false end then
      Booking.mkUpdate status (Some (now clk))
        (if Js.given reason then reason else None)
    else Booking.mkUpdate status None None
  else if (action =? "cancel")%string then
    Booking.mkUpdate (Some "cancelled"%string) (Some (now clk))
      (if Js.given reason then reason else None)
  else Booking.mkUpdate None None None.

(** The payload is [(modifiedCount, matchedCount)].  The first component
    counts the matched documents whose status or cancellation fields change;
    the [updatedAt] stamp that the schema's timestamps add to every matched
    document is not modelled. *)
Definition bulkUpdateBookings (clk : Clock) (db : Db)
  (bookingIds : list nat) (action : string) (status reason : option string)
  : Db * Reply (nat * nat) :=
  match bookingIds with
  | [] => (db, respondWithError "Booking IDs array is required" 400)
  | _ :: _ =>
    if negb (Js.truthy action)
       || negb (Js.arrayIncludes action ["update_status"; "cancel"]%string) then
      (db, respondWithError
             ("Invalid action. Use " ++ quoted "update_status" ++ " or "
              ++ quoted "cancel")%string 400)
    else
      let updateData := bulkUpdateData clk action status reason in
      let coll := Booking.updateMany bookingIds updateData (bookings db) in
      let matched := filter (fun b => existsb (Nat.eqb (Booking._id b)) bookingIds)
                            (bookings db) in
      let modified :=
        filter (fun b =>
                  let b' := Booking.applyUpdate updateData b in
                  negb ((Booking.status b =? Booking.status b')%string
                        && match Booking.cancelledAt b, Booking.cancelledAt b' with
                           | Some x, Some y => x =? y
                           | None, None => true
                           | _, _ => false
                           end
                        && match Booking.cancellationReason b, Booking.cancellationReason b' with
                           | Some x, Some y => (x =? y)%string
                           | None, None => true
                           | _, _ => false
                           end))
               matched in
      (withBookings db coll,
       respondWithSuccess
         ("Bulk operation completed. "
          ++ Js.toString (Z.of_nat (List.length modified)) ++ " bookings updated.")%string
         (Some (List.length modified, List.length matched)))
  end.

(** One entry of the [dates] array of a bulk request. *)
Record DateConfig := mkDateConfig {
  date : string;
  startTime : string;
  endTime : string;
  slotDuration : option Z;
  notes : option string
}.

(** The [results] object: the created documents and, per failed entry, its
    date with the exception whose message is the reported reason. *)
Record BulkResults := mkResults {
  created : list AvailableDate.t;
  errors : list (string * Exception)
}.

Inductive BulkPayload :=
| ExistingDates (existingDates : list string)
| Report (totalRequested : nat) (results : BulkResults).

(** [new AvailableDate({ date, startTime, endTime,
    slotDuration: slotDuration || 30, notes: notes || '', createdBy })] *)
Definition newAvailableDate (createdBy : option nat) (id : nat)
  (dateConfig : DateConfig) : AvailableDate.t :=
  AvailableDate.mk id
    (date dateConfig) (startTime dateConfig) (endTime dateConfig)
    (match slotDuration dateConfig with
     | Some n => if n =? 0 then 30 else n
     | None => 30
     end)
    true
    (match notes dateConfig with
     | Some n => if Js.truthy n then n else EmptyString
     | None => EmptyString
     end)
    createdBy.

(** The [for (const dateConfig of dates) { try { ... } catch { ... } }] loop. *)
Fixpoint bulkLoop (createdBy : option nat) (dates : list DateConfig)
  (coll : list AvailableDate.t) (results : BulkResults)
  : list AvailableDate.t * BulkResults :=
  match dates with
  | [] => (coll, results)
  | dateConfig :: rest =>
      let availableDate :=
        newAvailableDate createdBy (freshId (map AvailableDate._id coll)) dateConfig in
      match AvailableDate.save coll availableDate with
      | Stored coll' doc =>
          bulkLoop createdBy rest coll'
            (mkResults (created results ++ [doc]) (errors results))
      | Threw error =>
          bulkLoop createdBy rest coll
            (mkResults (created results) (errors results ++ [(date dateConfig, error)]))
      end
  end.

Definition createBulkAvailableDates (db : Db) (user : option nat)
  (dates : list DateConfig) : Db * Reply BulkPayload :=
  let createdBy := user in
  let dateStrings := map date dates in
  let existingDates :=
    filter (fun a => Js.arrayIncludes (AvailableDate.date a) dateStrings)
           (availableDates db) in
  match existingDates with
  | _ :: _ =>
      (db, Respond 409 "Please select another date"
             (Some (ExistingDates (map AvailableDate.date existingDates))))
  | [] =>
      let '(coll, results) :=
        bulkLoop createdBy dates (availableDates db) (mkResults [] []) in
      (withAvailableDates db coll,
       respondWithSuccess
         ("Successfully created "
          ++ Js.toString (Z.of_nat (List.length (created results))) ++ " dates")%string
         (Some (Report (List.length dates) results)))
  end.

(** [Booking.countDocuments({ date, status: { $nin: ['cancelled'] } })] *)
Definition liveBookingsOn (db : Db) (date : string) : nat :=
  List.length (filter (fun b => (Booking.date b =? date)%string && Booking.notCancelled b)
                      (bookings db)).

(** [createAvailableDate].  The record keeps unset notes as the empty
    string, so the document is the one [newAvailableDate] builds. *)
Definition createAvailableDate (H : Host) (db : Db) (user : option nat)
  (dateConfig : DateConfig) : Db * Reply AvailableDate.t :=
  let createdBy := user in
  match find (fun a => (AvailableDate.date a =? date dateConfig)%string)
             (availableDates db) with
  | Some _ => (db, respondWithError "Please select another date to continue" 409)
  | None =>
      let availableDate :=
        newAvailableDate createdBy
          (freshId (map AvailableDate._id (availableDates db))) dateConfig in
      match AvailableDate.save (availableDates db) availableDate with
      | Stored coll doc =>
          (withAvailableDates db coll,
           respondWithCreated doc "Available date created successfully")
      | Threw e => (db, ErrorHandler.errorHandler H e)
      end
  end.

(** The body of an update request; an absent field is [undefined].  A
    [slotDuration] that is present is a whole number, as in the record of
    the window. *)
Record DatePatch := mkDatePatch {
  patchStartTime : option string;
  patchEndTime : option string;
  patchSlotDuration : option Z;
  patchIsActive : option bool;
  patchNotes : option string
}.

(** The five conditional assignments of [updateAvailableDate]. *)
Definition applyPatch (p : DatePatch) (a : AvailableDate.t) : AvailableDate.t :=
  AvailableDate.mk (AvailableDate._id a) (AvailableDate.date a)
    (match patchStartTime p with
     | Some s => if Js.truthy s then s else AvailableDate.startTime a
     | None => AvailableDate.startTime a
     end)
    (match patchEndTime p with
     | Some s => if Js.truthy s then s else AvailableDate.endTime a
     | None => AvailableDate.endTime a
     end)
    (match patchSlotDuration p with
     | Some n => n
     | None => AvailableDate.slotDuration a
     end)
    (match patchIsActive p with
     | Some b => b
     | None => AvailableDate.isActive a
     end)
    (match patchNotes p with
     | Some n => n
     | None => AvailableDate.notes a
     end)
    (AvailableDate.createdBy a).

(** [startTime || endTime || slotDuration !== undefined] *)
Definition touchesTimeSettings (p : DatePatch) : bool :=
  Js.given (patchStartTime p) || Js.given (patchEndTime p)
  || match patchSlotDuration p with Some _ => true | None => false end.

Definition updateAvailableDate (H : Host) (db : Db) (id : nat) (p : DatePatch)
  : Db * Reply AvailableDate.t :=
  match AvailableDate.findById id (availableDates db) with
  | None => (db, respondWithError "Available date not found" 404)
  | Some availableDate =>
    if touchesTimeSettings p
       && (0 <? liveBookingsOn db (AvailableDate.date availableDate))%nat then
      (db, respondWithError
             "Cannot modify time settings when there are existing bookings" 400)
    else
      match AvailableDate.saveStored (availableDates db) (applyPatch p availableDate) with
      | Stored coll doc =>
          (withAvailableDates db coll,
           respondWithUpdated doc "Available date updated successfully")
      | Threw e => (db, ErrorHandler.errorHandler H e)
      end
  end.

Definition deleteAvailableDate (db : Db) (id : nat) : Db * Reply AvailableDate.t :=
  match AvailableDate.findById id (availableDates db) with
  | None => (db, respondWithError "Available date not found" 404)
  | Some availableDate =>
    if (0 <? liveBookingsOn db (AvailableDate.date availableDate))%nat then
      (db, respondWithError
             "Cannot delete date with existing bookings. Cancel bookings first." 400)
    else
      (withAvailableDates db (AvailableDate.deleteById id (availableDates db)),
       respondWithSuccess "Available date deleted successfully" None)
  end.

End AdminController.

(* ------------------------------------------------------------------ *)
(** ** Requests and reachable databases *)
(* ------------------------------------------------------------------ *)

(** The requests that write to the database. *)
Inductive Request :=
| CreateBooking (date timeSlot : string) (customer : Customer.t) (user : option nat)
| CreateSimpleBooking (username email phone : string) (notes : option string)
    (date time : string)
| UpdateBooking (ref : string) (customer : option Customer.t) (notes : option string)
| CancelBooking (ref : string) (reason : option string)
| RescheduleBooking (ref newDate newTimeSlot : string) (reason : option string)
| CheckInBooking (ref : string)
| UpdateBookingStatus (id : nat) (status : string) (cancellationReason : option string)
| DeleteBooking (id : nat) (reason : option string)
| BulkUpdateBookings (bookingIds : list nat) (action : string)
    (status reason : option string)
| CreateBulkAvailableDates (user : option nat) (dates : list AdminController.DateConfig).

(** The database after a request, served at clock reading [clk]. *)
Definition handle (H : Host) (clk : Clock) (db : Db) (r : Request) : Db :=
  match r with
  | CreateBooking date timeSlot customer user =>
      fst (BookingController.createBooking H clk db date timeSlot customer user)
  | CreateSimpleBooking username email phone notes date time =>
      fst (BookingController.createSimpleBooking H clk db username email phone notes date time)
  | UpdateBooking ref customer notes =>
      fst (BookingController.updateBooking H clk db ref customer notes)
  | CancelBooking ref reason =>
      fst (BookingController.cancelBooking H clk db ref reason)
  | RescheduleBooking ref newDate newTimeSlot reason =>
      fst (BookingController.rescheduleBooking H clk db ref newDate newTimeSlot reason)
  | CheckInBooking ref =>
      fst (BookingController.checkInBooking H clk db ref)
  | UpdateBookingStatus id status cancellationReason =>
      fst (AdminController.updateBookingStatus H clk db id status cancellationReason)
  | DeleteBooking id reason =>
      fst (AdminController.deleteBooking H clk db id reason)
  | BulkUpdateBookings bookingIds action status reason =>
      fst (AdminController.bulkUpdateBookings clk db bookingIds action status reason)
  | CreateBulkAvailableDates user dates =>
      fst (AdminController.createBulkAvailableDates db user dates)
  end.

(** The databases the service can reach from an empty one.  The third rule
    stands for the administrator's single-window handlers (create, update,
    delete), which touch the availability collection only. *)
Inductive reachable (H : Host) : Db -> Prop :=
| reachable_empty : reachable H (mkDb [] [])
| reachable_request : forall db clk r,
    reachable H db -> reachable H (handle H clk db r)
| reachable_availability : forall db coll,
    reachable H db -> reachable H (withAvailableDates db coll).

(** The storage guarantees on the booking collection: [_id] is unique and so
    is the key of the [date_1_timeSlot_1] index. *)
Definition slotKey (b : Booking.t) : string * string :=
  (Booking.date b, Booking.timeSlot b).

Definition StorageInvariant (coll : list Booking.t) : Prop :=
  NoDup (map Booking._id coll) /\ NoDup (map slotKey coll).

(** The number of bookings at a slot that are not cancelled. *)
Definition liveCount (coll : list Booking.t) (date timeSlot : string) : nat :=
  List.length (filter (fun b => Booking.atSlot date timeSlot b && Booking.notCancelled b) coll).

(** The number of grid points [s + k * d] below [e]. *)
Definition slotCount (s e d : Z) : nat := Z.to_nat ((e - s + d - 1) / d).

(* ------------------------------------------------------------------ *)
(** ** Worked data *)
(* ------------------------------------------------------------------ *)

(** Concrete hosts, clocks and databases on which the handlers are run in
    the examples below. *)
Module Example.

(** A host whose input validators accept everything as it is. *)
Definition host : Host :=
  mkHost (fun c => Some c) (fun e => Some e) (fun p => Some p)
         (fun n => inr n) (fun _ => []) false.

Definition customer : Customer.t :=
  Customer.mk "Ada Lovelace" "ada@example.org" "15551234567" EmptyString.

Definition otherCustomer : Customer.t :=
  Customer.mk "Grace Hopper" "grace@example.org" "15557654321" EmptyString.

(** 24 September 2025, 10:00; every booking instant lies a day ahead. *)
Definition clock : Clock :=
  mkClock 1758708000000 "2025-09-24" "10:00"
          (fun _ => "2026-09-24"%string)
          (fun _ _ => Some (1758708000000 + 24 * 3600000)).

(** The window of the specification's grid example, whose range is not a
    multiple of the slot duration. *)
Definition window_0900_1015 : AvailableDate.t :=
  AvailableDate.mk 1 "2025-09-25" "09:00" "10:15" 30 true EmptyString None.

Definition window_0900_1700 : AvailableDate.t :=
  AvailableDate.mk 1 "2025-09-25" "09:00" "17:00" 30 true EmptyString None.

Definition db0 : Db := mkDb [] [window_0900_1700].

(** A database whose only window is on the clock's own day. *)
Definition dbToday : Db :=
  mkDb [] [AvailableDate.mk 1 "2025-09-24" "09:00" "17:00" 30 true EmptyString None].

(** 999 bookings made within the minute 2025-09-24 10:00, one per reference
    suffix 1..999, on pairwise distinct slots of October 2025. *)
Definition bookingOfMinute (k : nat) : Booking.t :=
  Booking.mk k
    ("2025-10-" ++ Js.padStart 2 "0" (Js.toString (Z.of_nat (1 + k / 48))))%string
    (DateUtils.timeString (Z.of_nat (k mod 48) * 30))
    customer "confirmed"
    (Booking.referenceStem clock ++ Js.toString (Z.of_nat k))%string
    "online" "not-required" None None None None.

Definition fullMinute : list Booking.t := map bookingOfMinute (seq 1 999).

(** Bulk requests: the window of 1 October 2025, and of the day after. *)
Definition october1 : AdminController.DateConfig :=
  AdminController.mkDateConfig "2025-10-01" "09:00" "17:00" (Some 30) None.
Definition october2 : AdminController.DateConfig :=
  AdminController.mkDateConfig "2025-10-02" "09:00" "17:00" (Some 30) None.

(** A database in which 1 October 2025 is already open. *)
Definition dbOctober1 : Db :=
  mkDb [] [AvailableDate.mk 1 "2025-10-01" "10:00" "12:00" 60 true EmptyString None].

Definition dbFullMinute : Db := mkDb fullMinute [window_0900_1700].

(** Booking A: 25 September 2025, 10:00, as stored by its creation. *)
Definition bookingA : Booking.t :=
  Booking.mk 1 "2025-09-25" "10:00" customer "confirmed" "SM2025092410001"
    "online" "not-required" None None None None.

(** The database after one booking of 25 September 2025, 10:00. *)
Definition dbBooked : Db :=
  handle host clock db0 (CreateBooking "2025-09-25" "10:00" customer None).

(** ... after that booking is cancelled by its customer ... *)
Definition dbCancelled : Db :=
  handle host clock dbBooked (CancelBooking "SM2025092410001" (Some "change of plans"%string)).

End Example.


(** Whether a reference is held by some stored booking. *)
Definition referenceInUse (coll : list Booking.t) (r : string) : bool :=
  existsb (Booking.hasReference r) coll.


(* ------------------------------------------------------------------ *)
(** ** Checks run over finite domains *)
(* ------------------------------------------------------------------ *)

(** What is checked, minute by minute, over a whole day: the formatted
    minute parses back, matches the HH:MM pattern and has five characters. *)
Definition minuteRoundTrips (n : nat) : bool :=
  let t := DateUtils.timeString (Z.of_nat n) in
  match DateUtils.minutesOfDay t with
  | Some m => (m =? Z.of_nat n)
  | None => false
  end
  && Patterns.time t
  && Nat.eqb (String.length t) 5.

(** The ten digit characters. *)
Definition digits : list ascii :=
  ["0"; "1"; "2"; "3"; "4"; "5"; "6"; "7"; "8"; "9"]%char.

(** What is checked on every candidate built from digits: if it matches the
    HH:MM pattern it parses to a minute of the day, and formatting that
    minute gives it back exactly when it has five characters. *)
Definition parsesWithinDay (s : string) : bool :=
  negb (Patterns.time s)
  || match DateUtils.minutesOfDay s with
     | Some m => (0 <=? m) && (m <? 1440)
                 && Bool.eqb (DateUtils.timeString m =? s)%string
                             (Nat.eqb (String.length s) 5)
     | None => false
     end.

Definition five (h1 h2 m1 m2 : ascii) : string :=
  String h1 (String h2 (String ":" (String m1 (String m2 EmptyString)))).
Definition four (h m1 m2 : ascii) : string :=
  String h (String ":" (String m1 (String m2 EmptyString))).


(** The guarantee of the [bookingReference_1] index, with the fact that a
    stored reference is never empty. *)
Definition ReferenceInvariant (coll : list Booking.t) : Prop :=
  NoDup (map Booking.bookingReference coll)
  /\ (forall b, In b coll -> Js.truthy (Booking.bookingReference b) = true).


(** What is checked on every candidate built from digits: if it matches the
    HH:MM pattern, the fold of [checkInBooking] and the idiom of the date
    utilities read the same minute from it. *)
Definition readsAgree (s : string) : bool :=
  negb (Patterns.time s)
  || match BookingController.reduceMinutes s, DateUtils.minutesOfDay s with
     | Some a, Some b => a =? b
     | _, _ => false
     end.


(** The clock's own day, an hour earlier, and the database after a booking
    of 10:00 made at 09:00 on that day. *)
Module Today.

Definition clock0900 : Clock :=
  mkClock 1758704400000 "2025-09-24" "09:00"
          (fun _ => "2026-09-24"%string)
          (fun _ _ => Some 1758708000000).

Definition dbBooked : Db :=
  handle Example.host clock0900 Example.dbToday
    (CreateBooking "2025-09-24" "10:00" Example.customer None).

Definition booking : Booking.t :=
  Booking.mk 1 "2025-09-24" "10:00" Example.customer "confirmed" "SM2025092409001"
    "online" "not-required" None None None None.

End Today.


(** What the schema, the pre-save hook and the unique index on [date]
    guarantee of the stored windows: distinct identifiers, one window per
    date, each accepted by the validators and the hook. *)
Definition WindowInvariant (coll : list AvailableDate.t) : Prop :=
  NoDup (map AvailableDate._id coll)
  /\ NoDup (map AvailableDate.date coll)
  /\ (forall d, In d coll ->
        AvailableDate.validate d = [] /\ AvailableDate.preSave d = None).


(** The time of day HH:MM of minute [m], written out digit by digit: two
    digits of hours, a colon, two digits of minutes.  It is the reference
    against which the template of the slot loop is compared. *)
Definition digitChar (n : Z) : ascii := ascii_of_nat (48 + Z.to_nat n).

Definition hhmm (m : Z) : string :=
  String (digitChar (m / 600))
    (String (digitChar ((m / 60) mod 10))
       (String ":"
          (String (digitChar ((m mod 60) / 10))
             (String (digitChar (m mod 10)) EmptyString)))).

(** What is checked, minute by minute, over a whole day: the template
    prints the minute as [hhmm] writes it. *)
Definition printsHhmm (n : nat) : bool :=
  (DateUtils.timeString (Z.of_nat n) =? hhmm (Z.of_nat n))%string.

(** The requests that assign a booking's status from the request body: the
    administrator's status update and bulk update. *)
Definition assignsStatus (r : Request) : bool :=
  match r with
  | UpdateBookingStatus _ _ _ => true
  | BulkUpdateBookings _ _ _ _ => true
  | _ => false
  end.

(** A sequence of requests, each served at its own clock reading. *)
Fixpoint run (H : Host) (db : Db) (trace : list (Clock * Request)) : Db :=
  match trace with
  | [] => db
  | (clk, r) :: rest => run H (handle H clk db r) rest
  end.


(** Inputs at the edge of the schema: a text of 501 characters, one more
    than [maxlength] allows, and the database after the administrator's
    bulk update has written the status [archived], which is not in the
    schema's list, into booking A. *)
Module Edge.

Definition longText : string := Js.repeatChar "x" 501.



End Edge.


(* ================================================================== *)
(** * Properties *)
(* ================================================================== *)

(* ------------------------------------------------------------------ *)
(** ** The time grid *)
(* ------------------------------------------------------------------ *)

Section TimeGrid.

Variables (s e d : Z).
Hypothesis d_pos : 0 < d.

Lemma slotCount_spec (k : nat) :
  (k < slotCount s e d)%nat <-> s + Z.of_nat k * d < e.
Proof.
  unfold slotCount.
  set (a := e - s + d - 1).
  pose proof (Z.div_mod a d ltac:(lia)) as Hdm.
  pose proof (Z.mod_pos_bound a d d_pos) as Hb.
  split; intros Hk.
  - assert (Z.of_nat k < a / d) by lia. subst a. nia.
  - assert (Z.of_nat k < a / d) by (subst a; nia). lia.
Qed.

Lemma slotCount_empty : e <= s -> slotCount s e d = O.
Proof.
  intros Hle.
  destruct (slotCount s e d) eqn:Hn; [reflexivity|].
  assert (Hlt : (0 < slotCount s e d)%nat) by lia.
  apply slotCount_spec in Hlt. lia.
Qed.

End TimeGrid.

Lemma slotCount_step (s e d : Z) :
  0 < d -> s < e -> slotCount s e d = S (slotCount (s + d) e d).
Proof.
  intros Hd Hlt. unfold slotCount.
  replace (e - s + d - 1) with ((e - (s + d) + d - 1) + 1 * d) by ring.
  rewrite Z.div_add by lia.
  assert (0 <= (e - (s + d) + d - 1) / d) by (apply Z.div_pos; lia).
  rewrite Z2Nat.inj_add by lia. simpl. lia.
Qed.

(** The loop, given enough fuel, emits the grid points below the end. *)
Lemma slotLoop_grid (fuel : nat) :
  forall cur e d,
    0 < d -> (Z.to_nat (e - cur) <= fuel)%nat ->
    DateUtils.slotLoop fuel cur e d
    = Some (map (fun k => DateUtils.timeString (cur + Z.of_nat k * d))
                (seq 0 (slotCount cur e d))).
Proof.
  induction fuel as [|fuel IH]; intros cur e d Hd Hfuel.
  - simpl. destruct (cur <? e) eqn:Hc.
    + apply Z.ltb_lt in Hc. lia.
    + apply Z.ltb_ge in Hc. rewrite slotCount_empty by lia. reflexivity.
  - simpl. destruct (cur <? e) eqn:Hc.
    + apply Z.ltb_lt in Hc.
      rewrite IH by lia.
      rewrite (slotCount_step cur e d) by lia.
      simpl. rewrite <- seq_shift, map_map.
      f_equal. f_equal.
      * f_equal. lia.
      * apply map_ext. intros k. f_equal. lia.
    + apply Z.ltb_ge in Hc. rewrite slotCount_empty by lia. reflexivity.
Qed.

(** With a duration that is not positive the loop never leaves a non-empty
    range: no amount of fuel yields a list. *)
Lemma slotLoop_diverges (fuel : nat) :
  forall cur e d, d <= 0 -> cur < e -> DateUtils.slotLoop fuel cur e d = None.
Proof.
  induction fuel as [|fuel IH]; intros cur e d Hd Hlt; simpl;
    (replace (cur <? e) with true by (symmetry; apply Z.ltb_lt; lia));
    [reflexivity|].
  rewrite IH by lia. reflexivity.
Qed.

(** The instance method of the model and the static helper of [DateUtils]
    are the same function of the window's fields. *)
Lemma AvailableDate_generateTimeSlots_static (a : AvailableDate.t) :
  AvailableDate.generateTimeSlots a
  = DateUtils.generateTimeSlots (AvailableDate.startTime a) (AvailableDate.endTime a)
      (AvailableDate.slotDuration a).
Proof. reflexivity. Qed.

Example minutesOfDay_0900 : DateUtils.minutesOfDay "09:00" = Some 540.
Proof. reflexivity. Qed.

Example timeString_630 : DateUtils.timeString 630 = "10:30"%string.
Proof. reflexivity. Qed.

(** The grid example of the specification. *)
Example generateTimeSlots_partial_remainder :
  DateUtils.generateTimeSlots "09:00" "10:15" 30
  = Some ["09:00"; "09:30"; "10:00"]%string.
Proof. reflexivity. Qed.

(** A zero-length range has no slot, whatever the duration. *)
Lemma generateTimeSlots_zero_length (t : string) (d : Z) :
  DateUtils.generateTimeSlots t t d = Some [].
Proof.
  unfold DateUtils.generateTimeSlots.
  destruct (DateUtils.minutesOfDay t) as [m|]; [|reflexivity].
  rewrite Z.sub_diag. simpl. now rewrite Z.ltb_irrefl.
Qed.

(* ------------------------------------------------------------------ *)
(** ** The two slot totals *)
(* ------------------------------------------------------------------ *)

Section SlotTotals.

Variables (w : AvailableDate.t) (s e : Z).
Hypothesis start_parsed : DateUtils.minutesOfDay (AvailableDate.startTime w) = Some s.
Hypothesis end_parsed : DateUtils.minutesOfDay (AvailableDate.endTime w) = Some e.
Hypothesis duration_pos : 0 < AvailableDate.slotDuration w.

Let d := AvailableDate.slotDuration w.

(** The calendar total is the floor of the quotient. *)
Lemma calendarTotal_floor :
  CustomerController.calendarTotal w = Some ((e - s) / d).
Proof.
  unfold CustomerController.calendarTotal, AvailableDate.totalSlots.
  rewrite start_parsed, end_parsed.
  destruct (AvailableDate.slotDuration w =? 0) eqn:Hz; [|reflexivity].
  apply Z.eqb_eq in Hz. lia.
Qed.

(** The listing total is the number of grid points. *)
Lemma slotListingTotal_count :
  CustomerController.slotListingTotal w = Some (Z.of_nat (slotCount s e d)).
Proof.
  unfold CustomerController.slotListingTotal, AvailableDate.generateTimeSlots.
  rewrite start_parsed, end_parsed.
  rewrite slotLoop_grid by (fold d; lia).
  simpl. now rewrite length_map, length_seq.
Qed.

(** The two totals agree exactly when the duration divides the range. *)
Lemma totals_agree_iff :
  s <= e ->
  (CustomerController.calendarTotal w = CustomerController.slotListingTotal w
   <-> (e - s) mod d = 0).
Proof.
  intros Hle. rewrite calendarTotal_floor, slotListingTotal_count.
  unfold slotCount.
  assert (Hd : 0 < d) by exact duration_pos.
  pose proof (Z.div_mod (e - s) d ltac:(lia)) as H1.
  pose proof (Z.mod_pos_bound (e - s) d Hd) as B1.
  pose proof (Z.div_mod (e - s + d - 1) d ltac:(lia)) as H2.
  pose proof (Z.mod_pos_bound (e - s + d - 1) d Hd) as B2.
  assert (0 <= (e - s + d - 1) / d) by (apply Z.div_pos; lia).
  rewrite Z2Nat.id by lia.
  split; intros Heq.
  - injection Heq as Heq. nia.
  - f_equal. nia.
Qed.

End SlotTotals.

(** C10 (the code departs from the property).  On the window 09:00-10:15
    with 30-minute slots, which passes the schema validators and the
    pre-save hook, the calendar reports [totalSlots = 2] while the slot
    listing holds 3 slots, all three bookable; with two of them booked the
    calendar already shows the day as fully booked, and with three booked
    its [availableSlots] is negative. *)
Theorem C10_totalSlots_differs_from_slot_list :
  AvailableDate.validate Example.window_0900_1015 = []
  /\ AvailableDate.preSave Example.window_0900_1015 = None
  /\ CustomerController.calendarTotal Example.window_0900_1015 = Some 2
  /\ CustomerController.slotListingTotal Example.window_0900_1015 = Some 3
  /\ AvailableDate.isValidTimeSlot Example.window_0900_1015 "10:00" = Some true
  /\ CustomerController.calendarIsFullyBooked Example.window_0900_1015 2 = Some true
  /\ CustomerController.calendarAvailableSlots Example.window_0900_1015 3 = Some (-1).
Proof. repeat split; reflexivity. Qed.

(* ------------------------------------------------------------------ *)
(** ** Booking references *)
(* ------------------------------------------------------------------ *)

Lemma toString_inj (a b : Z) : Js.toString a = Js.toString b -> a = b.
Proof.
  unfold Js.toString. intros Heq.
  assert (Hi : forall z, NilZero.int_of_string (NilZero.string_of_int (Z.to_int z))
                         = Some (Z.to_int z)).
  { intros z. apply NilZero.isi; destruct z; simpl; try discriminate;
      intros Hc; injection Hc as Hc; now apply Unsigned.to_uint_nonnil in Hc. }
  pose proof (Hi a) as Ha. rewrite Heq, Hi in Ha. injection Ha as Ha.
  rewrite <- (DecimalZ.of_to a), <- (DecimalZ.of_to b). now rewrite Ha.
Qed.

Lemma append_inj_l (p a b : string) : (p ++ a = p ++ b)%string -> a = b.
Proof.
  induction p as [|c p IH]; simpl; intros Heq; [exact Heq|].
  injection Heq as Heq. now apply IH.
Qed.

Lemma findOne_reference (coll : list Booking.t) (r : string) :
  Booking.findOne (Booking.hasReference r) coll = None
  <-> referenceInUse coll r = false.
Proof.
  unfold Booking.findOne, referenceInUse.
  induction coll as [|b coll IH]; simpl; [tauto|].
  destruct (Booking.hasReference r b); simpl; [split; discriminate | exact IH].
Qed.

Section ReferenceSearch.

Variables (coll : list Booking.t) (stem : string).

Let candidate (n : Z) : string := (stem ++ Js.toString n)%string.

(** The loop stops at the first candidate that is not in use. *)
Lemma referenceLoop_smallest_unused (remaining : nat) :
  forall counter n,
    counter <= n <= counter + Z.of_nat remaining ->
    (forall m, counter <= m < n -> referenceInUse coll (candidate m) = true) ->
    referenceInUse coll (candidate n) = false ->
    Booking.referenceLoop coll stem counter remaining = candidate n.
Proof.
  induction remaining as [|remaining IH]; intros counter n Hn Hbelow Hfree.
  - assert (n = counter) by lia. subst n. simpl.
    apply findOne_reference in Hfree. fold (candidate counter).
    now rewrite Hfree.
  - simpl. fold (candidate counter).
    destruct (Z.eq_dec counter n) as [->|Hne].
    + apply findOne_reference in Hfree. now rewrite Hfree.
    + destruct (Booking.findOne (Booking.hasReference (candidate counter)) coll) eqn:Hf.
      * apply IH; [lia | intros m Hm; apply Hbelow; lia | exact Hfree].
      * apply findOne_reference in Hf. rewrite Hbelow in Hf by lia. discriminate.
Qed.

(** With every candidate in use the loop hands back the last one. *)
Lemma referenceLoop_exhausted (remaining : nat) :
  forall counter,
    (forall m, counter <= m <= counter + Z.of_nat remaining ->
               referenceInUse coll (candidate m) = true) ->
    Booking.referenceLoop coll stem counter remaining
    = candidate (counter + Z.of_nat remaining).
Proof.
  induction remaining as [|remaining IH]; intros counter Hall; simpl;
    fold (candidate counter);
    destruct (Booking.findOne (Booking.hasReference (candidate counter)) coll) eqn:Hf.
  - now rewrite Z.add_0_r.
  - apply findOne_reference in Hf. rewrite Hall in Hf by lia. discriminate.
  - rewrite IH by (intros m Hm; apply Hall; lia). f_equal. lia.
  - apply findOne_reference in Hf. rewrite Hall in Hf by lia. discriminate.
Qed.

(** The loop's answer is unused unless every candidate was in use. *)
Lemma referenceLoop_unused_or_exhausted (remaining : nat) :
  forall counter,
    referenceInUse coll (Booking.referenceLoop coll stem counter remaining) = false
    \/ (forall m, counter <= m <= counter + Z.of_nat remaining ->
                  referenceInUse coll (candidate m) = true).
Proof.
  induction remaining as [|remaining IH]; intros counter; simpl;
    fold (candidate counter);
    destruct (Booking.findOne (Booking.hasReference (candidate counter)) coll) eqn:Hf.
  - right. intros m Hm. assert (m = counter) by lia. subst m.
    destruct (referenceInUse coll (candidate counter)) eqn:Hu; [reflexivity|].
    apply findOne_reference in Hu. congruence.
  - left. now apply findOne_reference.
  - destruct (IH (counter + 1)) as [Hfree | Hall]; [now left | right].
    intros m Hm. destruct (Z.eq_dec m counter) as [->|Hne].
    + destruct (referenceInUse coll (candidate counter)) eqn:Hu; [reflexivity|].
      apply findOne_reference in Hu. congruence.
    + apply Hall. lia.
  - left. now apply findOne_reference.
Qed.

End ReferenceSearch.

(** The reference has the shape prefix, date, time, [n], with [n] the
    smallest of 1..999 whose reference is not in use, when there is one. *)
Lemma generateBookingReference_smallest_unused (clk : Clock) (coll : list Booking.t) (n : Z) :
  1 <= n <= 999 ->
  (forall m, 1 <= m < n ->
     referenceInUse coll (Booking.referenceStem clk ++ Js.toString m) = true) ->
  referenceInUse coll (Booking.referenceStem clk ++ Js.toString n) = false ->
  Booking.generateBookingReference clk coll
  = (Booking.referenceStem clk ++ Js.toString n)%string.
Proof.
  intros Hn Hbelow Hfree. unfold Booking.generateBookingReference.
  apply referenceLoop_smallest_unused; [lia | exact Hbelow | exact Hfree].
Qed.

(** Successive references of one minute differ: a generated reference that
    was free is stored with its booking, and the next generation, if free
    in turn, cannot be that reference. *)
Lemma successive_references_distinct (clk : Clock) (coll : list Booking.t) (b : Booking.t) :
  Booking.bookingReference b = Booking.generateBookingReference clk coll ->
  referenceInUse (coll ++ [b]) (Booking.generateBookingReference clk (coll ++ [b])) = false ->
  Booking.generateBookingReference clk (coll ++ [b])
  <> Booking.generateBookingReference clk coll.
Proof.
  intros Hb Hfree Heq. rewrite Heq, <- Hb in Hfree.
  unfold referenceInUse in Hfree. rewrite existsb_app in Hfree.
  simpl in Hfree. unfold Booking.hasReference in Hfree.
  rewrite String.eqb_refl in Hfree. simpl in Hfree.
  now rewrite orb_true_r in Hfree.
Qed.

(** With all 999 suffixes of the minute in use, generation does not fail:
    it returns the reference with suffix 999, which is in use. *)
Lemma generateBookingReference_exhausted (clk : Clock) (coll : list Booking.t) :
  (forall m, 1 <= m <= 999 ->
     referenceInUse coll (Booking.referenceStem clk ++ Js.toString m) = true) ->
  Booking.generateBookingReference clk coll
  = (Booking.referenceStem clk ++ "999")%string
  /\ referenceInUse coll (Booking.generateBookingReference clk coll) = true.
Proof.
  intros Hall. unfold Booking.generateBookingReference.
  rewrite referenceLoop_exhausted by (intros m Hm; apply Hall; lia).
  split; [reflexivity | apply Hall; lia].
Qed.

(** C4 (the code departs from the property).  In a store holding the 999
    references of the minute 2025-09-24 10:00, generation returns
    [SM202509241000999], a reference already in use, instead of failing;
    a booking request for a free, legal slot then goes through all checks,
    the insertion is refused by the unique index on [bookingReference], and
    the reply is 400 "Booking reference already exists" with nothing
    stored. *)
Theorem C4_generation_returns_used_reference_when_exhausted :
  Booking.generateBookingReference Example.clock Example.fullMinute
  = "SM202509241000999"%string
  /\ referenceInUse Example.fullMinute
       (Booking.generateBookingReference Example.clock Example.fullMinute) = true
  /\ BookingController.createBooking Example.host Example.clock Example.dbFullMinute
       "2025-09-25" "09:00" Example.customer None
     = (Example.dbFullMinute, Respond 400 "Booking reference already exists" None).
Proof. vm_compute. repeat split; reflexivity. Qed.

(* ------------------------------------------------------------------ *)
(** ** Collections: identifiers, lookups, replacement *)
(* ------------------------------------------------------------------ *)

Lemma find_all_false {A} (q : A -> bool) (l : list A) :
  (forall x, In x l -> q x = false) -> find q l = None.
Proof.
  induction l as [|a l IH]; simpl; intros Hall; [reflexivity|].
  rewrite (Hall a) by now left. apply IH. intros x Hx. apply Hall. now right.
Qed.

Lemma existsb_false {A} (q : A -> bool) (l : list A) :
  existsb q l = false <-> (forall x, In x l -> q x = false).
Proof.
  induction l as [|a l IH]; simpl.
  - split; [intros _ x [] | reflexivity].
  - rewrite orb_false_iff, IH. split.
    + intros [Ha Hl] x [<-|Hx]; auto.
    + intros Hall. split; [apply Hall; now left | intros x Hx; apply Hall; now right].
Qed.

Lemma find_exists {A} (q : A -> bool) (l : list A) (x : A) :
  In x l -> q x = true -> exists y, find q l = Some y.
Proof.
  induction l as [|a l IH]; simpl; intros Hin Hq; [contradiction|].
  destruct (q a) eqn:Hqa; [now exists a|].
  destruct Hin as [->|Hin]; [congruence | now apply IH].
Qed.

Lemma NoDup_map_injective_on {A B} (f : A -> B) (l : list A) (a b : A) :
  NoDup (map f l) -> In a l -> In b l -> f a = f b -> a = b.
Proof.
  induction l as [|x l IH]; simpl; intros Hnd Ha Hb Heq; [contradiction|].
  inversion Hnd as [|? ? Hnotin Hnd']; subst.
  destruct Ha as [->|Ha], Hb as [->|Hb]; auto.
  - exfalso. apply Hnotin. rewrite Heq. now apply in_map.
  - exfalso. apply Hnotin. rewrite <- Heq. now apply in_map.
Qed.

Lemma le_fold_max (ids : list nat) (x : nat) :
  In x ids -> (x <= fold_right Nat.max O ids)%nat.
Proof.
  induction ids as [|a ids IH]; simpl; intros Hin; [contradiction|].
  destruct Hin as [->|Hin]; [lia | specialize (IH Hin); lia].
Qed.

Lemma freshId_fresh (ids : list nat) : ~ In (freshId ids) ids.
Proof.
  intros Hin. apply le_fold_max in Hin. unfold freshId in Hin. lia.
Qed.

Section BookingCollection.

Variable coll : list Booking.t.

Lemma findById_absent (id : nat) :
  ~ In id (map Booking._id coll) -> Booking.findById id coll = None.
Proof.
  intros Hnot. apply find_all_false. intros x Hx.
  unfold Booking.hasId. apply Nat.eqb_neq. intros Heq.
  apply Hnot. rewrite <- Heq. now apply in_map.
Qed.

Lemma findById_None_absent (id : nat) :
  Booking.findById id coll = None -> ~ In id (map Booking._id coll).
Proof.
  intros Hnone Hin. apply in_map_iff in Hin as [x [Hid Hx]].
  pose proof (find_none _ _ Hnone x Hx) as Hq.
  unfold Booking.hasId in Hq. apply Nat.eqb_neq in Hq. contradiction.
Qed.

Lemma findById_stored (b : Booking.t) :
  NoDup (map Booking._id coll) -> In b coll ->
  Booking.findById (Booking._id b) coll = Some b.
Proof.
  intros Hnd Hin.
  destruct (find_exists (Booking.hasId (Booking._id b)) coll b Hin) as [y Hy].
  { unfold Booking.hasId. apply Nat.eqb_refl. }
  unfold Booking.findById. rewrite Hy. f_equal.
  apply find_some in Hy as [Hyin Hyid].
  unfold Booking.hasId in Hyid. apply Nat.eqb_eq in Hyid.
  now apply (NoDup_map_injective_on Booking._id coll y b).
Qed.

Lemma findById_Some (id : nat) (b : Booking.t) :
  Booking.findById id coll = Some b -> In b coll /\ Booking._id b = id.
Proof.
  intros Hf. apply find_some in Hf as [Hin Hid].
  unfold Booking.hasId in Hid. apply Nat.eqb_eq in Hid. now split.
Qed.

Lemma replaceDoc_ids (b : Booking.t) :
  map Booking._id (Booking.replaceDoc coll b) = map Booking._id coll.
Proof.
  unfold Booking.replaceDoc. rewrite map_map. apply map_ext.
  intros x. unfold Booking.hasId.
  destruct (Nat.eqb_spec (Booking._id x) (Booking._id b)); congruence.
Qed.


(** A replacement that keeps the slot of the stored document keeps the keys
    of the slot index. *)
Lemma replaceDoc_keys_same (b stored : Booking.t) :
  Booking.findById (Booking._id b) coll = Some stored ->
  NoDup (map Booking._id coll) ->
  slotKey b = slotKey stored ->
  map slotKey (Booking.replaceDoc coll b) = map slotKey coll.
Proof.
  intros Hf Hnd Hkey. apply findById_Some in Hf as [Hin Hid].
  unfold Booking.replaceDoc. rewrite map_map. apply map_ext_in. intros x Hx.
  unfold Booking.hasId.
  destruct (Nat.eqb_spec (Booking._id x) (Booking._id b)) as [Heq|]; [|reflexivity].
  assert (x = stored)
    by (apply (NoDup_map_injective_on Booking._id coll); auto; congruence).
  congruence.
Qed.

(** A replacement whose slot no other document holds keeps the slot index
    free of duplicates. *)
Lemma replaceDoc_keys_NoDup (b : Booking.t) :
  NoDup (map Booking._id coll) ->
  NoDup (map slotKey coll) ->
  Booking.slotTaken coll b = false ->
  NoDup (map slotKey (Booking.replaceDoc coll b)).
Proof.
  unfold Booking.slotTaken, Booking.replaceDoc.
  induction coll as [|x l IH]; simpl; intros Hids Hkeys Htaken; [constructor|].
  inversion Hids as [|? ? Hidx Hids']; subst.
  inversion Hkeys as [|? ? Hkx Hkeys']; subst.
  apply orb_false_iff in Htaken as [Hx Hrest].
  constructor; [|now apply IH].
  intros Hin. rewrite map_map in Hin. apply in_map_iff in Hin as [y [Hy Hyin]].
  unfold Booking.hasId in *.
  assert (Hother : Booking.atSlot (Booking.date b) (Booking.timeSlot b) y
                   && negb (Booking._id y =? Booking._id b)%nat = false)
    by (rewrite existsb_false in Hrest; now apply Hrest).
  unfold Booking.atSlot in *.
  destruct (Nat.eqb_spec (Booking._id x) (Booking._id b)) as [Hxb|Hxb];
    destruct (Nat.eqb_spec (Booking._id y) (Booking._id b)) as [Hyb|Hyb].
  - apply Hidx. rewrite Hxb, <- Hyb. now apply in_map.
  - simpl in Hother. rewrite andb_true_r in Hother.
    unfold slotKey in Hy. injection Hy as Hd Ht.
    rewrite Hd, Ht, !String.eqb_refl in Hother. discriminate.
  - simpl in Hx. rewrite andb_true_r in Hx.
    unfold slotKey in Hy. injection Hy as Hd Ht.
    rewrite <- Hd, <- Ht, !String.eqb_refl in Hx. discriminate.
  - apply Hkx. rewrite <- Hy. now apply in_map.
Qed.

End BookingCollection.

(* ------------------------------------------------------------------ *)
(** ** [save()] keeps the storage guarantees *)
(* ------------------------------------------------------------------ *)

Lemma preSaveReference_id clk coll b :
  Booking._id (Booking.preSaveReference clk coll b) = Booking._id b.
Proof. unfold Booking.preSaveReference. now destruct (negb _). Qed.

Lemma preSaveReference_slot clk coll b :
  slotKey (Booking.preSaveReference clk coll b) = slotKey b.
Proof. unfold Booking.preSaveReference. now destruct (negb _). Qed.

Lemma preSaveReference_status clk coll b :
  Booking.status (Booking.preSaveReference clk coll b) = Booking.status b.
Proof. unfold Booking.preSaveReference. now destruct (negb _). Qed.

Lemma isNew_absent coll b :
  Booking.isNew coll b = true -> ~ In (Booking._id b) (map Booking._id coll).
Proof.
  unfold Booking.isNew. intros Hnew.
  destruct (Booking.findById (Booking._id b) coll) eqn:Hf; [discriminate|].
  now apply findById_None_absent.
Qed.

Lemma isModified_false_eq coll b stored (path : Booking.t -> string) :
  Booking.findById (Booking._id b) coll = Some stored ->
  Booking.isModified String.eqb path coll b = false ->
  path stored = path b.
Proof.
  unfold Booking.isModified. intros ->. intros Hm.
  apply negb_false_iff in Hm. now apply String.eqb_eq.
Qed.

(** An insertion or update that the indexes let through keeps [_id] and the
    slot key unique. *)
Lemma write_invariant coll b coll' doc :
  StorageInvariant coll ->
  Booking.write coll b = Stored coll' doc ->
  StorageInvariant coll' /\ doc = b.
Proof.
  intros [Hids Hkeys]. unfold Booking.write.
  destruct (Booking.isNew coll b) eqn:Hnew.
  - destruct (Booking.referenceTaken coll b); [discriminate|].
    destruct (Booking.slotTaken coll b) eqn:Htaken; [discriminate|].
    intros Hw. injection Hw as <- <-.
    apply isNew_absent in Hnew.
    split; [|reflexivity]. split; rewrite map_app; simpl.
    + apply NoDup_app; [assumption | repeat constructor; intros [] |].
      intros a Ha [<-|[]]. contradiction.
    + apply NoDup_app; [assumption | repeat constructor; intros [] |].
      intros k Hk [<-|[]].
      apply in_map_iff in Hk as [x [Hkx Hx]].
      unfold Booking.slotTaken in Htaken.
      rewrite existsb_false in Htaken. specialize (Htaken x Hx).
      unfold Booking.hasId, Booking.atSlot in Htaken.
      destruct (Nat.eqb_spec (Booking._id x) (Booking._id b)) as [Heq|Hne].
      * apply Hnew. rewrite <- Heq. now apply in_map.
      * unfold slotKey in Hkx. injection Hkx as Hd Ht.
        rewrite Hd, Ht, !String.eqb_refl in Htaken. discriminate.
  - destruct (Booking.isModified String.eqb Booking.bookingReference coll b
              && Booking.referenceTaken coll b); [discriminate|].
    destruct ((Booking.isModified String.eqb Booking.date coll b
               || Booking.isModified String.eqb Booking.timeSlot coll b)
              && Booking.slotTaken coll b) eqn:Hc; [discriminate|].
    intros Hw. injection Hw as <- <-.
    split; [|reflexivity]. split; [now rewrite replaceDoc_ids|].
    apply andb_false_iff in Hc as [Hunmod | Hfree].
    + apply orb_false_iff in Hunmod as [Hd Ht].
      unfold Booking.isNew in Hnew.
      destruct (Booking.findById (Booking._id b) coll) as [stored|] eqn:Hf;
        [|discriminate].
      rewrite (replaceDoc_keys_same coll b stored); auto.
      unfold slotKey.
      now rewrite (isModified_false_eq coll b stored Booking.date),
                  (isModified_false_eq coll b stored Booking.timeSlot).
    + now apply replaceDoc_keys_NoDup.
Qed.

Lemma save_invariant H clk coll b coll' doc :
  StorageInvariant coll ->
  Booking.save H clk coll b = Stored coll' doc ->
  StorageInvariant coll'.
Proof.
  intros Hinv. unfold Booking.save.
  destruct (Booking.validate H b); [|discriminate].
  destruct (Booking.preSaveDoubleBooking coll _); [discriminate|].
  intros Hw. now apply write_invariant in Hw.
Qed.

Lemma applyUpdate_id u b : Booking._id (Booking.applyUpdate u b) = Booking._id b.
Proof.
  unfold Booking.applyUpdate.
  destruct (Booking.newStatus u), (Booking.newCancelledAt u),
    (Booking.newCancellationReason u); reflexivity.
Qed.

Lemma applyUpdate_slot u b : slotKey (Booking.applyUpdate u b) = slotKey b.
Proof.
  unfold Booking.applyUpdate.
  destruct (Booking.newStatus u), (Booking.newCancelledAt u),
    (Booking.newCancellationReason u); reflexivity.
Qed.

(** [updateMany] rewrites status fields only. *)
Lemma updateMany_invariant ids u coll :
  StorageInvariant coll -> StorageInvariant (Booking.updateMany ids u coll).
Proof.
  intros [Hids Hkeys]. unfold Booking.updateMany. split; rewrite map_map.
  - erewrite map_ext; [exact Hids|].
    intros x. simpl. destruct (existsb _ ids); [apply applyUpdate_id | reflexivity].
  - erewrite map_ext; [exact Hkeys|].
    intros x. simpl. destruct (existsb _ ids); [apply applyUpdate_slot | reflexivity].
Qed.

Ltac break_match :=
  match goal with
  | |- context [match ?x with _ => _ end] => destruct x eqn:?
  end.

Ltac saved_invariant :=
  match goal with
  | Hs : Booking.save _ _ _ _ = Stored _ _ |- _ =>
      eapply save_invariant; [|exact Hs]; assumption
  | Hs : Booking.cancel _ _ _ _ _ = Stored _ _ |- _ =>
      eapply save_invariant; [|exact Hs]; assumption
  | Hs : Booking.checkIn _ _ _ _ = Stored _ _ |- _ =>
      eapply save_invariant; [|exact Hs]; assumption
  end.

(** Every request leaves the storage guarantees in place. *)
Lemma handle_invariant H clk db r :
  StorageInvariant (bookings db) -> StorageInvariant (bookings (handle H clk db r)).
Proof.
  intros Hinv.
  destruct r; unfold handle;
    unfold BookingController.createBooking, BookingController.createSimpleBooking,
      BookingController.updateBooking, BookingController.cancelBooking,
      BookingController.rescheduleBooking, BookingController.checkInBooking,
      AdminController.updateBookingStatus, AdminController.deleteBooking,
      AdminController.bulkUpdateBookings, AdminController.createBulkAvailableDates,
      BookingController.saveAndReply;
    repeat break_match; cbn [fst bookings withBookings withAvailableDates];
    try assumption; try saved_invariant.
  all: try (now apply updateMany_invariant).
Qed.

Lemma reachable_invariant H db : reachable H db -> StorageInvariant (bookings db).
Proof.
  induction 1 as [|db clk r _ IH|db coll _ IH].
  - split; constructor.
  - now apply handle_invariant.
  - exact IH.
Qed.

Lemma filter_all_false {A} (q : A -> bool) (l : list A) :
  (forall x, In x l -> q x = false) -> filter q l = [].
Proof.
  induction l as [|a l IH]; simpl; intros Hall; [reflexivity|].
  rewrite (Hall a) by now left. apply IH. intros x Hx. apply Hall. now right.
Qed.

(** With a duplicate-free slot index at most one booking sits at a slot,
    cancelled or not. *)
Lemma liveCount_le_1 coll date timeSlot :
  NoDup (map slotKey coll) -> (liveCount coll date timeSlot <= 1)%nat.
Proof.
  unfold liveCount. induction coll as [|x l IH]; simpl; intros Hnd; [lia|].
  inversion Hnd as [|? ? Hx Hl]; subst.
  destruct (Booking.atSlot date timeSlot x && Booking.notCancelled x) eqn:Hq;
    [|now apply IH].
  apply andb_true_iff in Hq as [Hat _].
  rewrite filter_all_false; [simpl; lia|].
  intros y Hy. destruct (Booking.atSlot date timeSlot y) eqn:Hyat; [|reflexivity].
  exfalso. apply Hx.
  unfold Booking.atSlot in Hat, Hyat.
  apply andb_true_iff in Hat as [Hd Ht]. apply andb_true_iff in Hyat as [Hd' Ht'].
  apply String.eqb_eq in Hd, Ht, Hd', Ht'.
  replace (slotKey x) with (slotKey y) by (unfold slotKey; congruence).
  now apply in_map.
Qed.

(** C1. In every database reachable from the empty one through the
    handlers (booking creation, simple creation, customer update,
    cancellation, rescheduling, check-in, administrator status update and
    deletion, bulk status update), and in the database any further request
    leaves behind, each (date, timeSlot) pair has at most one booking whose
    status is not 'cancelled'. *)
Theorem C1_at_most_one_live_booking_per_slot :
  forall (H : Host) (db : Db),
    reachable H db ->
    (forall date timeSlot, (liveCount (bookings db) date timeSlot <= 1)%nat)
    /\ (forall clk r date timeSlot,
          (liveCount (bookings (handle H clk db r)) date timeSlot <= 1)%nat).
Proof.
  intros H db Hreach. split.
  - intros date timeSlot. apply liveCount_le_1.
    now apply (reachable_invariant H db).
  - intros clk r date timeSlot. apply liveCount_le_1.
    apply (reachable_invariant H). now constructor.
Qed.

Lemma C1_at_most_one_live_booking_per_slot_witness :
  reachable Example.host Example.dbBooked
  /\ liveCount (bookings Example.dbBooked) "2025-09-25" "10:00" = 1%nat
  /\ (forall date timeSlot,
        (liveCount (bookings Example.dbBooked) date timeSlot <= 1)%nat).
Proof.
  assert (Hr : reachable Example.host Example.dbBooked).
  { unfold Example.dbBooked.
    apply (reachable_request Example.host Example.db0 Example.clock
             (CreateBooking "2025-09-25" "10:00" Example.customer None)).
    apply (reachable_availability Example.host (mkDb [] []) [Example.window_0900_1700]).
    apply reachable_empty. }
  split; [exact Hr | split; [reflexivity|]].
  exact (proj1 (C1_at_most_one_live_booking_per_slot Example.host Example.dbBooked Hr)).
Defined.

(* ------------------------------------------------------------------ *)
(** ** Booking creation *)
(* ------------------------------------------------------------------ *)

Lemma errorHandler_not_created {A} H e message (data : option A) :
  ErrorHandler.errorHandler H e <> Respond 201 message data.
Proof.
  unfold ErrorHandler.errorHandler, respondWithError.
  destruct e; repeat break_match; discriminate.
Qed.

(** What a 201 reply of [createBooking] tells: every check passed and the
    new document went through [save()]. *)
Lemma createBooking_created H clk db date timeSlot customer user db1 message data :
  BookingController.createBooking H clk db date timeSlot customer user
  = (db1, Respond 201 message data) ->
  exists validCustomer availableDate coll doc,
    validateCustomer H customer = Some validCustomer
    /\ DateUtils.isPastDate clk date = false
    /\ DateUtils.isPastTimeSlot clk date timeSlot = false
    /\ DateUtils.isWithinBookingLimit clk date = true
    /\ BookingController.findActiveDate db date = Some availableDate
    /\ AvailableDate.isValidTimeSlot availableDate timeSlot = Some true
    /\ BookingController.findLiveBooking db date timeSlot = None
    /\ Booking.save H clk (bookings db)
         (Booking.create (freshId (map Booking._id (bookings db)))
            date timeSlot validCustomer "confirmed" "online" "not-required" user)
       = Stored coll doc
    /\ db1 = withBookings db coll
    /\ data = Some doc.
Proof.
  unfold BookingController.createBooking, BookingController.saveAndReply,
    respondWithError, respondWithCreated.
  repeat break_match; intros Hc; try discriminate.
  - injection Hc as <- <- <-.
    match goal with Hn : negb _ = false |- _ => apply negb_false_iff in Hn end.
    repeat eexists; eauto.
  - injection Hc as _ Hc. now apply errorHandler_not_created in Hc.
Qed.

(** Saving a document whose [_id] is fresh appends it, with the slot and
    status it was built with. *)
Lemma save_new_appends H clk coll b coll' doc :
  ~ In (Booking._id b) (map Booking._id coll) ->
  Booking.save H clk coll b = Stored coll' doc ->
  coll' = (coll ++ [doc])%list
  /\ Booking._id doc = Booking._id b
  /\ slotKey doc = slotKey b
  /\ Booking.status doc = Booking.status b.
Proof.
  intros Hfresh. unfold Booking.save.
  destruct (Booking.validate H b); [|discriminate].
  destruct (Booking.preSaveDoubleBooking coll _); [discriminate|].
  unfold Booking.write, Booking.isNew.
  rewrite findById_absent by now rewrite preSaveReference_id.
  destruct (Booking.referenceTaken coll _); [discriminate|].
  destruct (Booking.slotTaken coll _); [discriminate|].
  intros Hw. injection Hw as <- <-.
  now rewrite preSaveReference_id, preSaveReference_slot, preSaveReference_status.
Qed.

(** A new document cannot be saved on a slot that any stored document
    holds, cancelled ones included. *)
Lemma save_new_blocked H clk coll b x :
  ~ In (Booking._id b) (map Booking._id coll) ->
  In x coll -> slotKey x = slotKey b ->
  exists e, Booking.save H clk coll b = Threw e.
Proof.
  intros Hfresh Hx Hkey. unfold Booking.save.
  destruct (Booking.validate H b); [|eexists; reflexivity].
  destruct (Booking.preSaveDoubleBooking coll _); [eexists; reflexivity|].
  unfold Booking.write, Booking.isNew.
  rewrite findById_absent by now rewrite preSaveReference_id.
  destruct (Booking.referenceTaken coll _); [eexists; reflexivity|].
  replace (Booking.slotTaken coll _) with true; [eexists; reflexivity|].
  symmetry. unfold Booking.slotTaken. apply existsb_exists. exists x.
  split; [exact Hx|].
  pose proof (preSaveReference_slot clk coll b) as Hs.
  rewrite <- Hkey in Hs. unfold slotKey in Hs. injection Hs as Hd Ht.
  unfold Booking.atSlot, Booking.hasId. rewrite Hd, Ht, !String.eqb_refl.
  rewrite preSaveReference_id. simpl. apply negb_true_iff, Nat.eqb_neq.
  intros Heq. apply Hfresh. rewrite <- Heq. now apply in_map.
Qed.

(** C3. After a create at (date, timeSlot) answered 201, every further
    create for the same pair that gets past input validation (a customer
    that validates, a date and slot still bookable at the time of the second
    request) is answered 409 "This time slot is already booked", and the
    database is the one the first create left. *)
Theorem C3_second_create_conflicts :
  forall (H : Host) (clk : Clock) (db : Db) (date timeSlot : string)
         (customer : Customer.t) (user : option nat)
         (db1 : Db) (message : string) (data : option Booking.t),
    BookingController.createBooking H clk db date timeSlot customer user
    = (db1, Respond 201 message data) ->
    forall (clk' : Clock) (customer' validCustomer : Customer.t) (user' : option nat),
      validateCustomer H customer' = Some validCustomer ->
      DateUtils.isPastDate clk' date = false ->
      DateUtils.isPastTimeSlot clk' date timeSlot = false ->
      DateUtils.isWithinBookingLimit clk' date = true ->
      BookingController.createBooking H clk' db1 date timeSlot customer' user'
      = (db1, Respond 409 "This time slot is already booked" None).
Proof.
  intros H clk db date timeSlot customer user db1 message data Hfirst
         clk' customer' validCustomer user' Hcust Hpast Hslot Hlimit.
  apply createBooking_created in Hfirst
    as (vc & ad & coll & doc & _ & _ & _ & _ & Hdate & Hvalid & _ & Hsave & -> & _).
  apply save_new_appends in Hsave as (-> & _ & Hkey & Hstatus);
    [|apply freshId_fresh].
  unfold BookingController.createBooking.
  rewrite Hcust, Hpast, Hslot, Hlimit. simpl negb. cbv iota.
  unfold BookingController.findActiveDate in *. cbn [availableDates withBookings].
  rewrite Hdate, Hvalid.
  destruct (find_exists
              (fun b => Booking.atSlot date timeSlot b && Booking.notCancelled b)
              (bookings db ++ [doc])%list doc) as [live Hlive].
  { apply in_or_app. right. now left. }
  { unfold slotKey in Hkey. simpl in Hkey. injection Hkey as Hd Ht.
    unfold Booking.atSlot, Booking.notCancelled.
    rewrite Hd, Ht, !String.eqb_refl, Hstatus. reflexivity. }
  unfold BookingController.findLiveBooking, Booking.findOne.
  cbn [bookings withBookings]. rewrite Hlive. reflexivity.
Qed.

Lemma C3_second_create_conflicts_witness :
  BookingController.createBooking Example.host Example.clock Example.dbBooked
    "2025-09-25" "10:00" Example.otherCustomer None
  = (Example.dbBooked, Respond 409 "This time slot is already booked" None).
Proof.
  eapply (C3_second_create_conflicts Example.host Example.clock Example.db0
            "2025-09-25" "10:00" Example.customer None Example.dbBooked);
    reflexivity.
Defined.

(** No create succeeds on a slot that a stored booking holds, whatever the
    status of that booking: the database is left as it is and the reply is
    not 201. *)
Lemma createBooking_blocked_by_stored_slot H clk db date timeSlot customer user x :
  In x (bookings db) -> Booking.atSlot date timeSlot x = true ->
  fst (BookingController.createBooking H clk db date timeSlot customer user) = db
  /\ forall message data,
       snd (BookingController.createBooking H clk db date timeSlot customer user)
       <> Respond 201 message data.
Proof.
  intros Hx Hat.
  unfold BookingController.createBooking, BookingController.saveAndReply,
    respondWithError, respondWithCreated.
  repeat break_match; cbn [fst snd]; (split; [try reflexivity | try discriminate]).
  - exfalso.
    match goal with
    | Hs : Booking.save _ _ _ ?b = Stored _ _ |- _ =>
        destruct (save_new_blocked H clk (bookings db) b x) as [e He];
          [apply freshId_fresh | exact Hx | | congruence]
    end.
    unfold Booking.atSlot in Hat. apply andb_true_iff in Hat as [Hd Ht].
    apply String.eqb_eq in Hd, Ht. unfold slotKey. simpl. congruence.
  - exfalso.
    match goal with
    | Hs : Booking.save _ _ _ ?b = Stored _ _ |- _ =>
        destruct (save_new_blocked H clk (bookings db) b x) as [e He];
          [apply freshId_fresh | exact Hx | | congruence]
    end.
    unfold Booking.atSlot in Hat. apply andb_true_iff in Hat as [Hd Ht].
    apply String.eqb_eq in Hd, Ht. unfold slotKey. simpl. congruence.
  - intros message data. apply errorHandler_not_created.
Qed.

(** C2 (the code departs from the property).  Booking A is created at
    2025-09-25 10:00 (201) and cancelled (200): its row stays, with status
    'cancelled', and no live booking is left at the slot.  The create of
    booking B at the same slot passes the application checks, the insertion
    is refused by the unique index on (date, timeSlot), and the reply is 400
    "This time slot is already booked"; the database is unchanged. *)
Theorem C2_cancelled_row_blocks_rebooking :
  snd (BookingController.createBooking Example.host Example.clock Example.db0
         "2025-09-25" "10:00" Example.customer None)
  = Respond 201 "Booking created successfully"
      (Some (Booking.mk 1 "2025-09-25" "10:00" Example.customer "confirmed"
               "SM2025092410001" "online" "not-required" None None None None))
  /\ BookingController.cancelBooking Example.host Example.clock Example.dbBooked
       "SM2025092410001" (Some "change of plans"%string)
     = (Example.dbCancelled,
        Respond 200 "Booking cancelled successfully"
          (Some (Booking.mk 1 "2025-09-25" "10:00" Example.customer "cancelled"
                   "SM2025092410001" "online" "not-required" None
                   (Some 1758708000000) (Some "change of plans"%string) None)))
  /\ liveCount (bookings Example.dbCancelled) "2025-09-25" "10:00" = 0%nat
  /\ BookingController.findLiveBooking Example.dbCancelled "2025-09-25" "10:00" = None
  /\ Booking.save Example.host Example.clock (bookings Example.dbCancelled)
       (Booking.create 2 "2025-09-25" "10:00" Example.otherCustomer
          "confirmed" "online" "not-required" None)
     = Threw (DuplicateKey [("date", "2025-09-25"); ("timeSlot", "10:00")]%string)
  /\ BookingController.createBooking Example.host Example.clock Example.dbCancelled
       "2025-09-25" "10:00" Example.otherCustomer None
     = (Example.dbCancelled, Respond 400 "This time slot is already booked" None).
Proof. repeat split; reflexivity. Qed.

(** C9, as stated, fails: on 24 September 2025 at 10:00 a booking for today's
    10:00 slot, equal to the current time of day, is a past slot for the
    code and the create is answered 400. *)
Lemma C9_slot_equal_to_current_time_is_rejected :
  currentTime Example.clock = "10:00"%string
  /\ DateUtils.isToday Example.clock "2025-09-24" = true
  /\ DateUtils.isPastTimeSlot Example.clock "2025-09-24" "10:00" = true
  /\ BookingController.createBooking Example.host Example.clock Example.dbToday
       "2025-09-24" "10:00" Example.customer None
     = (Example.dbToday, Respond 400 "Cannot book past time slots" None).
Proof. repeat split; reflexivity. Qed.

(** C9, amended.  A create is answered 400 and stores nothing whenever the
    date is before the current date (whatever the time of day), or beyond
    the advance-booking horizon, or is today with a time slot at or before
    the current time of day; on today's date the past-slot check is exactly
    [timeSlot <= currentTime], so only a slot strictly after the current
    time of day passes it. *)
Theorem C9_create_rejects_unbookable_dates :
  forall (H : Host) (clk : Clock) (db : Db) (date timeSlot : string)
         (customer : Customer.t) (user : option nat),
    (Js.lt date (currentDate clk) = true
     \/ Js.le date (dateAfterDays clk Config.maxAdvanceBookingDays) = false
     \/ (date = currentDate clk /\ Js.le timeSlot (currentTime clk) = true)) ->
    (exists message,
        BookingController.createBooking H clk db date timeSlot customer user
        = (db, Respond 400 message None))
    /\ (date = currentDate clk ->
        DateUtils.isPastTimeSlot clk date timeSlot = Js.le timeSlot (currentTime clk)).
Proof.
  intros H clk db date timeSlot customer user Hbad. split.
  - unfold BookingController.createBooking, respondWithError.
    destruct (validateCustomer H customer); [|eexists; reflexivity].
    destruct (DateUtils.isPastDate clk date) eqn:Hpast; [eexists; reflexivity|].
    destruct (DateUtils.isPastTimeSlot clk date timeSlot) eqn:Hslot;
      [eexists; reflexivity|].
    destruct (DateUtils.isWithinBookingLimit clk date) eqn:Hlimit;
      [|eexists; reflexivity].
    exfalso. destruct Hbad as [Hlt | [Hfar | [Htoday Hle]]].
    + unfold DateUtils.isPastDate, DateUtils.getCurrentDate in Hpast. congruence.
    + unfold DateUtils.isWithinBookingLimit, DateUtils.getDateAfterDays in Hlimit.
      congruence.
    + unfold DateUtils.isPastTimeSlot, DateUtils.isToday, DateUtils.getCurrentDate,
        DateUtils.getCurrentTime in Hslot.
      rewrite Htoday, String.eqb_refl in Hslot. simpl in Hslot. congruence.
  - intros Htoday.
    unfold DateUtils.isPastTimeSlot, DateUtils.isToday, DateUtils.getCurrentDate,
      DateUtils.getCurrentTime.
    now rewrite Htoday, String.eqb_refl.
Qed.

Lemma C9_create_rejects_unbookable_dates_witness :
  (exists message,
      BookingController.createBooking Example.host Example.clock Example.dbToday
        "2025-09-24" "09:30" Example.customer None
      = (Example.dbToday, Respond 400 message None))
  /\ ("2025-09-24"%string = currentDate Example.clock ->
      DateUtils.isPastTimeSlot Example.clock "2025-09-24" "09:30"
      = Js.le "09:30" (currentTime Example.clock)).
Proof.
  apply (C9_create_rejects_unbookable_dates Example.host Example.clock Example.dbToday
           "2025-09-24" "09:30" Example.customer None).
  right. right. split; reflexivity.
Defined.

(* ------------------------------------------------------------------ *)
(** ** Cancellation and rescheduling *)
(* ------------------------------------------------------------------ *)

(** Saving a changed copy of a stored document whose slot and reference are
    those of the stored one: no hook interferes, no index is consulted, and
    the copy takes the place of the stored document. *)
Lemma save_stored_same_keys H clk coll stored b :
  NoDup (map Booking._id coll) ->
  In stored coll ->
  Booking._id b = Booking._id stored ->
  Booking.date b = Booking.date stored ->
  Booking.timeSlot b = Booking.timeSlot stored ->
  Booking.bookingReference b = Booking.bookingReference stored ->
  Js.truthy (Booking.bookingReference b) = true ->
  Booking.validate H b = [] ->
  Booking.save H clk coll b = Stored (Booking.replaceDoc coll b) b.
Proof.
  intros Hids Hin Hid Hd Ht Hr Href Hvalid.
  assert (Hf : Booking.findById (Booking._id b) coll = Some stored)
    by (rewrite Hid; now apply findById_stored).
  unfold Booking.save. rewrite Hvalid.
  unfold Booking.preSaveReference. rewrite Href. simpl negb. cbv iota.
  unfold Booking.preSaveDoubleBooking, Booking.write, Booking.isNew, Booking.isModified.
  rewrite Hf, Hd, Ht, Hr, !String.eqb_refl. reflexivity.
Qed.

Lemma validate_nil_parts H b :
  Booking.validate H b = [] ->
  Patterns.requiredValidator (Booking.date b)
    && Patterns.matchValidator Patterns.date (Booking.date b) = true
  /\ Patterns.requiredValidator (Booking.timeSlot b)
    && Patterns.matchValidator Patterns.time (Booking.timeSlot b) = true
  /\ customerPaths H (Booking.customer b) = []
  /\ Js.arrayIncludes (Booking.source b) ["online"; "phone"; "walk-in"; "admin"]%string = true
  /\ Js.arrayIncludes (Booking.paymentStatus b)
       ["pending"; "paid"; "refunded"; "not-required"]%string = true.
Proof.
  unfold Booking.validate. intros Hv.
  repeat match goal with
         | Hv : (_ ++ _)%list = [] |- _ => apply app_eq_nil in Hv as [? Hv]
         end.
  repeat match goal with
         | Hx : (if ?c then _ else _) = [] |- _ => destruct c; [clear Hx | discriminate Hx]
         end.
  repeat split; assumption.
Qed.

(** A stored document that passes the schema validators still passes them
    once marked cancelled with a reason of at most 500 characters. *)
Lemma validate_markCancelled H clk b reason :
  Booking.validate H b = [] ->
  (forall r, reason = Some r -> (String.length r <= 500)%nat) ->
  Booking.validate H (Booking.markCancelled clk b reason) = [].
Proof.
  intros Hv Hlen.
  pose proof (validate_nil_parts H b Hv) as (Hd & Ht & Hc & Hs & Hp).
  assert (Hold : match Booking.cancellationReason b with
                 | Some r => if (String.length r <=? 500)%nat then []
                             else ["cancellationReason"%string]
                 | None => []
                 end = []).
  { unfold Booking.validate in Hv.
    repeat match goal with
           | Hv : (_ ++ _)%list = [] |- _ => apply app_eq_nil in Hv as [? Hv]
           end.
    exact Hv. }
  unfold Booking.markCancelled, Booking.validate.
  destruct (Js.given reason) eqn:Hg;
    cbn [Booking.date Booking.timeSlot Booking.customer Booking.status
         Booking.source Booking.paymentStatus Booking.cancellationReason
         Booking.setStatus Booking.setCancelledAt Booking.setCancellationReason];
    rewrite Hd, Ht, Hc, Hs, Hp.
  - destruct reason as [r|]; [|discriminate].
    specialize (Hlen r eq_refl). apply Nat.leb_le in Hlen. now rewrite Hlen.
  - rewrite Hold. reflexivity.
Qed.


Lemma appendRescheduleNote_fields b oldDate oldTimeSlot reason :
  let b' := BookingController.appendRescheduleNote b oldDate oldTimeSlot reason in
  Booking._id b' = Booking._id b
  /\ Booking.date b' = Booking.date b
  /\ Booking.timeSlot b' = Booking.timeSlot b
  /\ Booking.bookingReference b' = Booking.bookingReference b.
Proof.
  unfold BookingController.appendRescheduleNote.
  destruct reason as [r|]; [destruct (Js.truthy r)|]; repeat split; reflexivity.
Qed.


(* ------------------------------------------------------------------ *)
(** ** Bulk creation of availability windows *)
(* ------------------------------------------------------------------ *)

Lemma AvailableDate_save_stored coll d coll' doc :
  AvailableDate.save coll d = Stored coll' doc ->
  coll' = (coll ++ [d])%list /\ doc = d.
Proof.
  unfold AvailableDate.save.
  destruct (AvailableDate.validate d); [|discriminate].
  destruct (AvailableDate.preSave d); [discriminate|].
  destruct (existsb _ coll); [discriminate|].
  intros Hs. injection Hs as <- <-. now split.
Qed.

Section BulkLoop.

Variable createdBy : option nat.

(** The loop only appends: to the collection and to [created] what it
    stores, to [errors] what it catches, one entry per item. *)
Lemma bulkLoop_appends (dates : list AdminController.DateConfig) :
  forall coll results,
  exists newCreated newErrors,
    AdminController.bulkLoop createdBy dates coll results
    = ((coll ++ newCreated)%list,
       AdminController.mkResults
         (AdminController.created results ++ newCreated)
         (AdminController.errors results ++ newErrors))
    /\ (List.length newCreated + List.length newErrors = List.length dates)%nat.
Proof.
  induction dates as [|item rest IH]; intros coll results; simpl.
  - exists [], []. rewrite !app_nil_r. now destruct results.
  - destruct (AvailableDate.save coll _) as [coll' doc|error] eqn:Hsave.
    + apply AvailableDate_save_stored in Hsave as [-> ->].
      destruct (IH (coll ++ [AdminController.newAvailableDate createdBy
                                (freshId (map AvailableDate._id coll)) item])%list
                  (AdminController.mkResults
                     (AdminController.created results
                      ++ [AdminController.newAvailableDate createdBy
                            (freshId (map AvailableDate._id coll)) item])
                     (AdminController.errors results)))
        as (nc & ne & Heq & Hlen).
      exists (AdminController.newAvailableDate createdBy
                (freshId (map AvailableDate._id coll)) item :: nc), ne.
      rewrite Heq. simpl. rewrite <- !app_assoc. simpl. split; [reflexivity | lia].
    + destruct (IH coll
                  (AdminController.mkResults (AdminController.created results)
                     (AdminController.errors results
                      ++ [(AdminController.date item, error)])))
        as (nc & ne & Heq & Hlen).
      exists nc, ((AdminController.date item, error) :: ne).
      rewrite Heq. simpl. rewrite <- !app_assoc. simpl. split; [reflexivity | lia].
Qed.

(** A failure does not stop the loop: the items after a prefix are
    processed from the state the prefix left. *)
Lemma bulkLoop_app (before after : list AdminController.DateConfig) :
  forall coll results,
    AdminController.bulkLoop createdBy (before ++ after) coll results
    = AdminController.bulkLoop createdBy after
        (fst (AdminController.bulkLoop createdBy before coll results))
        (snd (AdminController.bulkLoop createdBy before coll results)).
Proof.
  induction before as [|item rest IH]; intros coll results; simpl; [reflexivity|].
  destruct (AvailableDate.save coll _); apply IH.
Qed.

(** Every item is attempted against the collection its predecessors left and
    is reported according to the outcome of its own [save()]. *)
Lemma bulkLoop_each_item (before after : list AdminController.DateConfig)
  (item : AdminController.DateConfig) :
  forall coll results,
    let reached := fst (AdminController.bulkLoop createdBy before coll results) in
    let final := snd (AdminController.bulkLoop createdBy (before ++ item :: after)
                        coll results) in
    match AvailableDate.save reached
            (AdminController.newAvailableDate createdBy
               (freshId (map AvailableDate._id reached)) item) with
    | Stored _ doc => In doc (AdminController.created final)
    | Threw error => In (AdminController.date item, error) (AdminController.errors final)
    end.
Proof.
  intros coll results reached final. subst final.
  rewrite bulkLoop_app. fold reached. simpl.
  destruct (AvailableDate.save reached _) as [coll' doc|error] eqn:Hsave.
  - destruct (bulkLoop_appends after coll'
                (AdminController.mkResults
                   (AdminController.created
                      (snd (AdminController.bulkLoop createdBy before coll results))
                    ++ [doc])
                   (AdminController.errors
                      (snd (AdminController.bulkLoop createdBy before coll results)))))
      as (nc & ne & Heq & _).
    rewrite Heq. simpl. apply in_or_app. left. apply in_or_app. right. now left.
  - destruct (bulkLoop_appends after reached
                (AdminController.mkResults
                   (AdminController.created
                      (snd (AdminController.bulkLoop createdBy before coll results)))
                   (AdminController.errors
                      (snd (AdminController.bulkLoop createdBy before coll results))
                    ++ [(AdminController.date item, error)])))
      as (nc & ne & Heq & _).
    rewrite Heq. simpl. apply in_or_app. left. apply in_or_app. right. now left.
Qed.

(** A window specification that the schema accepts, given twice in a row
    against a collection without its date: the first is stored, the second
    is refused by the unique index on [date]. *)
Lemma bulkLoop_duplicate_in_batch (item : AdminController.DateConfig) :
  forall coll,
    (forall id, AvailableDate.validate (AdminController.newAvailableDate createdBy id item) = []
                /\ AvailableDate.preSave (AdminController.newAvailableDate createdBy id item) = None) ->
    existsb (fun x => (AvailableDate.date x =? AdminController.date item)%string) coll = false ->
    AdminController.bulkLoop createdBy [item; item] coll (AdminController.mkResults [] [])
    = ((coll ++ [AdminController.newAvailableDate createdBy
                   (freshId (map AvailableDate._id coll)) item])%list,
       AdminController.mkResults
         [AdminController.newAvailableDate createdBy
            (freshId (map AvailableDate._id coll)) item]
         [(AdminController.date item,
           DuplicateKey [("date"%string, AdminController.date item)])]).
Proof.
  intros coll Hvalid Hfree. simpl.
  unfold AvailableDate.save at 1.
  destruct (Hvalid (freshId (map AvailableDate._id coll))) as [-> ->].
  cbn [AvailableDate.date AdminController.newAvailableDate]. rewrite Hfree.
  unfold AvailableDate.save.
  match goal with
  | |- context [AvailableDate.validate (AdminController.newAvailableDate createdBy ?id item)] =>
      destruct (Hvalid id) as [-> ->]
  end.
  cbn [AvailableDate.date AdminController.newAvailableDate].
  rewrite existsb_app. simpl. rewrite String.eqb_refl, orb_true_r. reflexivity.
Qed.

End BulkLoop.

(** C6.  The handler does not treat the items independently: with
    1 October 2025 already open, the batch [2025-10-01; 2025-10-02] is
    refused as a whole with 409 and nothing is created, although the second
    window, sent alone, is created.  The one stored date aborts the batch
    before the per-item loop is entered. *)
Theorem C6_existing_date_aborts_the_batch :
  AdminController.createBulkAvailableDates Example.dbOctober1 None
    [Example.october1; Example.october2]
  = (Example.dbOctober1,
     Respond 409 "Please select another date"
       (Some (AdminController.ExistingDates ["2025-10-01"%string])))
  /\ AdminController.createBulkAvailableDates Example.dbOctober1 None [Example.october2]
     = (withAvailableDates Example.dbOctober1
          (availableDates Example.dbOctober1
           ++ [AdminController.newAvailableDate None 2 Example.october2]),
        Respond 200 "Successfully created 1 dates"
          (Some (AdminController.Report 1
                   (AdminController.mkResults
                      [AdminController.newAvailableDate None 2 Example.october2] [])))).
Proof. split; reflexivity. Qed.

(** When none of the dates of the batch is stored yet, every window
    specification is attempted in turn against the collection its
    predecessors left, a failure is recorded in [errors] and the loop goes
    on, and the reply is a 200 report with one entry, in [created] or in
    [errors], per item; a valid specification given twice in a two-item
    batch is created once and reported once in [errors] with the
    duplicate-key exception on [date].  When one of the dates is already
    stored the whole batch is answered 409 and nothing is created. *)
Lemma bulk_creation_reports_per_item :
  forall (db : Db) (user : option nat) (dates : list AdminController.DateConfig),
    let existing :=
      filter (fun a => Js.arrayIncludes (AvailableDate.date a)
                         (map AdminController.date dates))
             (availableDates db) in
    (existing = [] ->
     exists results : AdminController.BulkResults,
       AdminController.createBulkAvailableDates db user dates
       = (withAvailableDates db (availableDates db ++ AdminController.created results),
          Respond 200
            ("Successfully created "
             ++ Js.toString (Z.of_nat (List.length (AdminController.created results)))
             ++ " dates")%string
            (Some (AdminController.Report (List.length dates) results)))
       /\ (List.length (AdminController.created results)
           + List.length (AdminController.errors results) = List.length dates)%nat
       /\ (forall before item after,
             dates = (before ++ item :: after)%list ->
             let reached :=
               fst (AdminController.bulkLoop user before (availableDates db)
                      (AdminController.mkResults [] [])) in
             match AvailableDate.save reached
                     (AdminController.newAvailableDate user
                        (freshId (map AvailableDate._id reached)) item) with
             | Stored _ doc => In doc (AdminController.created results)
             | Threw error =>
                 In (AdminController.date item, error) (AdminController.errors results)
             end)
       /\ (forall item,
             dates = [item; item] ->
             (forall id,
                 AvailableDate.validate (AdminController.newAvailableDate user id item) = []
                 /\ AvailableDate.preSave (AdminController.newAvailableDate user id item) = None) ->
             List.length (AdminController.created results) = 1%nat
             /\ AdminController.errors results
                = [(AdminController.date item,
                    DuplicateKey [("date"%string, AdminController.date item)])]))
    /\ (existing <> [] ->
        AdminController.createBulkAvailableDates db user dates
        = (db, Respond 409 "Please select another date"
                 (Some (AdminController.ExistingDates
                          (map AvailableDate.date existing))))).
Proof.
  intros db user dates existing. split.
  - intros Hnone.
    unfold AdminController.createBulkAvailableDates. fold existing. rewrite Hnone.
    destruct (bulkLoop_appends user dates (availableDates db)
                (AdminController.mkResults [] []))
      as (nc & ne & Hloop & Hlen).
    exists (AdminController.mkResults nc ne).
    rewrite Hloop. simpl. split; [reflexivity | split; [exact Hlen | split]].
    + intros before item after ->.
      pose proof (bulkLoop_each_item user before after item (availableDates db)
                    (AdminController.mkResults [] [])) as Hitem.
      simpl in Hitem. rewrite Hloop in Hitem. exact Hitem.
    + intros item -> Hvalid.
      rewrite (bulkLoop_duplicate_in_batch user item (availableDates db)) in Hloop.
      * injection Hloop as _ <- <-. split; reflexivity.
      * exact Hvalid.
      * apply existsb_false. intros x Hx.
        assert (Hq : Js.arrayIncludes (AvailableDate.date x)
                       (map AdminController.date [item; item]) = false).
        { destruct (Js.arrayIncludes (AvailableDate.date x)
                      (map AdminController.date [item; item])) eqn:Hq; [|reflexivity].
          assert (Hin : In x existing) by (apply filter_In; now split).
          rewrite Hnone in Hin. destruct Hin. }
        unfold Js.arrayIncludes in Hq. simpl in Hq.
        apply orb_false_iff in Hq as [Hq _]. exact Hq.
  - intros Hsome.
    unfold AdminController.createBulkAvailableDates. fold existing.
    destruct existing; [contradiction | reflexivity].
Qed.

(** The duplicate batch of the specification, run. *)
Example bulk_duplicate_batch_run :
  AdminController.createBulkAvailableDates Example.db0 None
    [Example.october1; Example.october1]
  = (withAvailableDates Example.db0
       (availableDates Example.db0
        ++ [AdminController.newAvailableDate None 2 Example.october1]),
     Respond 200 "Successfully created 1 dates"
       (Some (AdminController.Report 2
                (AdminController.mkResults
                   [AdminController.newAvailableDate None 2 Example.october1]
                   [("2025-10-01"%string,
                     DuplicateKey [("date"%string, "2025-10-01"%string)])])))).
Proof. reflexivity. Qed.

(* ================================================================== *)
(** * Further properties of the code *)
(* ================================================================== *)

(* ------------------------------------------------------------------ *)
(** ** Times of the day: formatting and parsing *)
(* ------------------------------------------------------------------ *)

Lemma minuteRoundTrips_day : forallb minuteRoundTrips (seq 0 1440) = true.
Proof. vm_compute. reflexivity. Qed.

Lemma timeString_parses :
  forall m : Z,
    0 <= m < 1440 ->
    DateUtils.minutesOfDay (DateUtils.timeString m) = Some m
    /\ Patterns.time (DateUtils.timeString m) = true
    /\ String.length (DateUtils.timeString m) = 5%nat.
Proof.
  intros m Hm.
  pose proof minuteRoundTrips_day as Hall.
  rewrite forallb_forall in Hall.
  specialize (Hall (Z.to_nat m)).
  assert (Hin : In (Z.to_nat m) (seq 0 1440)) by (apply in_seq; lia).
  specialize (Hall Hin). unfold minuteRoundTrips in Hall.
  rewrite Z2Nat.id in Hall by lia.
  apply andb_true_iff in Hall as [Hall Hlen].
  apply andb_true_iff in Hall as [Hparse Hpat].
  apply Nat.eqb_eq in Hlen.
  destruct (DateUtils.minutesOfDay (DateUtils.timeString m)) as [m'|];
    [|discriminate].
  apply Z.eqb_eq in Hparse. subst m'. auto.
Qed.

(** X1. Every minute of the day, formatted by the slot template, parses
    back to itself, matches the HH:MM pattern of the schemas and is five
    characters long. *)
Theorem X1_timeString_round_trip :
  forall m : Z,
    0 <= m < 1440 ->
    DateUtils.minutesOfDay (DateUtils.timeString m) = Some m
    /\ Patterns.time (DateUtils.timeString m) = true
    /\ String.length (DateUtils.timeString m) = 5%nat.
Proof. exact timeString_parses. Qed.

Lemma X1_timeString_round_trip_witness :
  DateUtils.minutesOfDay (DateUtils.timeString 615) = Some 615
  /\ Patterns.time (DateUtils.timeString 615) = true
  /\ String.length (DateUtils.timeString 615) = 5%nat.
Proof. apply (X1_timeString_round_trip 615). lia. Defined.

Lemma isDigit_digits (c : ascii) : Js.isDigit c = true -> In c digits.
Proof.
  destruct c as [[] [] [] [] [] [] [] []]; intros Hd;
    try discriminate Hd; simpl; tauto.
Qed.

Lemma isChar_eq (c x : ascii) : Patterns.isChar c x = true -> x = c.
Proof. unfold Patterns.isChar. apply Ascii.eqb_eq. Qed.

Lemma parsesWithinDay_five :
  forallb (fun h1 => forallb (fun h2 => forallb (fun m1 => forallb (fun m2 =>
    parsesWithinDay (five h1 h2 m1 m2)) digits) digits) digits) digits = true.
Proof. vm_compute. reflexivity. Qed.

Lemma parsesWithinDay_four :
  forallb (fun h => forallb (fun m1 => forallb (fun m2 =>
    parsesWithinDay (four h m1 m2)) digits) digits) digits = true.
Proof. vm_compute. reflexivity. Qed.

Lemma inRange_isDigit lo hi c :
  (48 <= lo)%N -> (hi <= 57)%N -> Patterns.inRange lo hi c = true -> Js.isDigit c = true.
Proof.
  unfold Patterns.inRange, Js.isDigit. intros Hlo Hhi Hr.
  apply andb_true_iff in Hr as [H1 H2].
  apply N.leb_le in H1, H2. apply andb_true_iff. split; apply N.leb_le; lia.
Qed.

Lemma pattern_parses :
  forall s : string,
    Patterns.time s = true ->
    exists m : Z,
      DateUtils.minutesOfDay s = Some m
      /\ 0 <= m < 1440
      /\ (DateUtils.timeString m = s <-> String.length s = 5%nat).
Proof.
  intros s Hpat.
  assert (Hcheck : parsesWithinDay s = true).
  { pose proof Hpat as Hpat'. unfold Patterns.time in Hpat'.
    rewrite <- (string_of_list_ascii_of_string s).
    destruct (list_ascii_of_string s) as [|c1 [|c2 [|c3 [|c4 [|c5 [|c6 l]]]]]];
      try discriminate Hpat'.
    - (* four characters *)
      apply andb_true_iff in Hpat' as [Hpat' Hm2].
      apply andb_true_iff in Hpat' as [Hpat' Hm1].
      apply andb_true_iff in Hpat' as [Hh Hc].
      apply isChar_eq in Hc. subst c2.
      apply inRange_isDigit in Hm1; [|lia|lia].
      apply isDigit_digits in Hh, Hm1, Hm2.
      pose proof parsesWithinDay_four as Hall.
      rewrite forallb_forall in Hall. specialize (Hall c1 Hh).
      rewrite forallb_forall in Hall. specialize (Hall c3 Hm1).
      rewrite forallb_forall in Hall. exact (Hall c4 Hm2).
    - (* five characters *)
      apply andb_true_iff in Hpat' as [Hpat' Hm2].
      apply andb_true_iff in Hpat' as [Hpat' Hm1].
      apply andb_true_iff in Hpat' as [Hh Hc].
      apply isChar_eq in Hc. subst c3.
      apply inRange_isDigit in Hm1; [|lia|lia].
      assert (Hh1 : Js.isDigit c1 = true /\ Js.isDigit c2 = true).
      { apply orb_true_iff in Hh as [Hh|Hh]; apply andb_true_iff in Hh as [Ha Hb].
        - split; [apply (inRange_isDigit 48 49); auto; lia | exact Hb].
        - apply isChar_eq in Ha. subst c1.
          split; [reflexivity | apply (inRange_isDigit 48 51); auto; lia]. }
      destruct Hh1 as [Hd1 Hd2].
      apply isDigit_digits in Hd1, Hd2, Hm1, Hm2.
      pose proof parsesWithinDay_five as Hall.
      rewrite forallb_forall in Hall. specialize (Hall c1 Hd1).
      rewrite forallb_forall in Hall. specialize (Hall c2 Hd2).
      rewrite forallb_forall in Hall. specialize (Hall c4 Hm1).
      rewrite forallb_forall in Hall. exact (Hall c5 Hm2). }
  unfold parsesWithinDay in Hcheck. rewrite Hpat in Hcheck. simpl in Hcheck.
  destruct (DateUtils.minutesOfDay s) as [m|]; [|discriminate].
  exists m. split; [reflexivity|].
  apply andb_true_iff in Hcheck as [Hrange Heq].
  apply andb_true_iff in Hrange as [Hlo Hhi].
  apply Z.leb_le in Hlo. apply Z.ltb_lt in Hhi.
  split; [lia|].
  apply Bool.eqb_prop in Heq.
  rewrite <- String.eqb_eq, <- Nat.eqb_eq, Heq. tauto.
Qed.

(** X2. A string that matches the HH:MM pattern parses to a minute of the
    day, 0 to 1439; formatting that minute gives the string back exactly
    when the string has five characters (the pattern also admits a
    one-digit hour, which the template never prints). *)
Theorem X2_pattern_times_parse :
  forall s : string,
    Patterns.time s = true ->
    exists m : Z,
      DateUtils.minutesOfDay s = Some m
      /\ 0 <= m < 1440
      /\ (DateUtils.timeString m = s <-> String.length s = 5%nat).
Proof. exact pattern_parses. Qed.

Lemma X2_pattern_times_parse_witness :
  exists m : Z,
    DateUtils.minutesOfDay "9:05" = Some m
    /\ 0 <= m < 1440
    /\ (DateUtils.timeString m = "9:05"%string <-> String.length "9:05" = 5%nat).
Proof. apply (X2_pattern_times_parse "9:05"). reflexivity. Defined.

(* ------------------------------------------------------------------ *)
(** ** Stored availability windows *)
(* ------------------------------------------------------------------ *)

Lemma required_match_pattern (pattern : string -> bool) (v : string) :
  Patterns.requiredValidator v && Patterns.matchValidator pattern v = true ->
  pattern v = true.
Proof.
  unfold Patterns.requiredValidator, Patterns.matchValidator.
  destruct (Js.truthy v); simpl; [auto | discriminate].
Qed.

(** What the schema validators and the pre-save hook let through. *)
Lemma validated_window (d : AvailableDate.t) :
  AvailableDate.validate d = [] ->
  AvailableDate.preSave d = None ->
  exists s e : Z,
    DateUtils.minutesOfDay (AvailableDate.startTime d) = Some s
    /\ DateUtils.minutesOfDay (AvailableDate.endTime d) = Some e
    /\ 0 <= s /\ s < e /\ e < 1440
    /\ 15 <= AvailableDate.slotDuration d <= 120
    /\ AvailableDate.slotDuration d <= e - s
    /\ Patterns.date (AvailableDate.date d) = true.
Proof.
  unfold AvailableDate.validate. intros Hv Hpre.
  repeat match goal with
         | Hv : (_ ++ _)%list = [] |- _ => apply app_eq_nil in Hv as [? Hv]
         end.
  repeat match goal with
         | Hx : (if ?c then _ else _) = [] |- _ =>
             destruct c eqn:?; [clear Hx | discriminate Hx]
         end.
  repeat match goal with
         | Hp : Patterns.requiredValidator _ && _ = true |- _ =>
             apply required_match_pattern in Hp
         end.
  match goal with
  | Hs : Patterns.time (AvailableDate.startTime d) = true,
    He : Patterns.time (AvailableDate.endTime d) = true |- _ =>
      destruct (pattern_parses _ Hs) as (s & Hps & Hsr & _);
      destruct (pattern_parses _ He) as (e & Hpe & Her & _)
  end.
  exists s, e. unfold AvailableDate.preSave in Hpre. rewrite Hps, Hpe in Hpre.
  destruct (s >=? e) eqn:Hge; [discriminate|].
  destruct (e - s <? AvailableDate.slotDuration d) eqn:Hlt; [discriminate|].
  assert (s < e) by (destruct (Z.geb_spec s e); [discriminate | lia]).
  apply Z.ltb_ge in Hlt.
  match goal with
  | Hd : (15 <=? _) && (_ <=? 120) = true |- _ =>
      apply andb_true_iff in Hd as [Hd1 Hd2];
      apply Z.leb_le in Hd1, Hd2
  end.
  repeat split; auto; lia.
Qed.

Lemma save_validated coll d coll' doc :
  AvailableDate.save coll d = Stored coll' doc ->
  AvailableDate.validate d = [] /\ AvailableDate.preSave d = None.
Proof.
  unfold AvailableDate.save.
  destruct (AvailableDate.validate d); [|discriminate].
  destruct (AvailableDate.preSave d); [discriminate|]. auto.
Qed.

Lemma saveStored_validated coll d coll' doc :
  AvailableDate.saveStored coll d = Stored coll' doc ->
  AvailableDate.validate d = [] /\ AvailableDate.preSave d = None.
Proof.
  unfold AvailableDate.saveStored.
  destruct (AvailableDate.validate d); [|discriminate].
  destruct (AvailableDate.preSave d); [discriminate|]. auto.
Qed.

(** The grid of a window that passed validation. *)
Lemma validated_window_grid (d : AvailableDate.t) :
  AvailableDate.validate d = [] ->
  AvailableDate.preSave d = None ->
  exists (s e : Z) (n : nat),
    DateUtils.minutesOfDay (AvailableDate.startTime d) = Some s
    /\ DateUtils.minutesOfDay (AvailableDate.endTime d) = Some e
    /\ 0 <= s /\ e < 1440 /\ (0 < n)%nat
    /\ (forall k : nat, (k < n)%nat <-> s + Z.of_nat k * AvailableDate.slotDuration d < e)
    /\ AvailableDate.generateTimeSlots d
       = Some (map (fun k => DateUtils.timeString
                               (s + Z.of_nat k * AvailableDate.slotDuration d))
                   (seq 0 n))
    /\ AvailableDate.totalSlots d = Some ((e - s) / AvailableDate.slotDuration d)
    /\ 1 <= (e - s) / AvailableDate.slotDuration d.
Proof.
  intros Hv Hpre.
  destruct (validated_window d Hv Hpre) as (s & e & Hs & He & Hs0 & Hlt & He1 & Hd & Hfit & _).
  exists s, e, (slotCount s e (AvailableDate.slotDuration d)).
  assert (Hdpos : 0 < AvailableDate.slotDuration d) by lia.
  repeat split; auto.
  - apply (slotCount_spec s e _ Hdpos 0%nat). simpl. lia.
  - now apply slotCount_spec.
  - now apply slotCount_spec.
  - unfold AvailableDate.generateTimeSlots. rewrite Hs, He.
    apply slotLoop_grid; lia.
  - unfold AvailableDate.totalSlots. rewrite Hs, He.
    destruct (AvailableDate.slotDuration d =? 0) eqn:Hz; [|reflexivity].
    apply Z.eqb_eq in Hz. lia.
  - apply Z.div_le_lower_bound; lia.
Qed.

(** X3. A window with a whole number of minutes as [slotDuration] that
    [save()] stores, as a new document or as an update, has times that
    parse within the day with the start before the end, a duration between
    15 and 120 minutes that fits the range, a slot loop that terminates
    with at least one slot, every slot matching the HH:MM pattern, and a
    [totalSlots] of at least 1.  (A fractional duration, which the schema
    does not exclude and the update route does not filter, is outside the
    statement: the windows here are those of [AvailableDate.t].) *)
Theorem X3_stored_window_is_well_formed :
  forall (coll coll' : list AvailableDate.t) (d doc : AvailableDate.t),
    AvailableDate.save coll d = Stored coll' doc
    \/ AvailableDate.saveStored coll d = Stored coll' doc ->
    exists (s e total : Z) (slots : list string),
      DateUtils.minutesOfDay (AvailableDate.startTime d) = Some s
      /\ DateUtils.minutesOfDay (AvailableDate.endTime d) = Some e
      /\ 0 <= s /\ s < e /\ e < 1440
      /\ 15 <= AvailableDate.slotDuration d <= 120
      /\ AvailableDate.slotDuration d <= e - s
      /\ AvailableDate.generateTimeSlots d = Some slots
      /\ slots <> []
      /\ (forall ts, In ts slots -> Patterns.time ts = true)
      /\ AvailableDate.totalSlots d = Some total
      /\ 1 <= total.
Proof.
  intros coll coll' d doc Hsaved.
  assert (Hok : AvailableDate.validate d = [] /\ AvailableDate.preSave d = None)
    by (destruct Hsaved as [Hs|Hs];
        [eapply save_validated | eapply saveStored_validated]; exact Hs).
  destruct Hok as [Hv Hpre].
  destruct (validated_window d Hv Hpre)
    as (s & e & Hs & He & Hs0 & Hlt & He1 & Hd & Hfit & _).
  destruct (validated_window_grid d Hv Hpre)
    as (s' & e' & n & Hs' & He' & _ & _ & Hn & Hk & Hgrid & Htotal & Hone).
  rewrite Hs in Hs'. rewrite He in He'.
  injection Hs' as <-. injection He' as <-.
  exists s, e, ((e - s) / AvailableDate.slotDuration d),
    (map (fun k => DateUtils.timeString (s + Z.of_nat k * AvailableDate.slotDuration d))
         (seq 0 n)).
  repeat split; try assumption; try lia.
  - destruct n; [lia | discriminate].
  - intros ts Hin. apply in_map_iff in Hin as [k [<- Hkin]].
    apply in_seq in Hkin.
    assert (s + Z.of_nat k * AvailableDate.slotDuration d < e) by (apply Hk; lia).
    apply timeString_parses. nia.
Qed.

Lemma X3_stored_window_is_well_formed_witness :
  exists (s e total : Z) (slots : list string),
    DateUtils.minutesOfDay (AvailableDate.startTime Example.window_0900_1015) = Some s
    /\ DateUtils.minutesOfDay (AvailableDate.endTime Example.window_0900_1015) = Some e
    /\ 0 <= s /\ s < e /\ e < 1440
    /\ 15 <= AvailableDate.slotDuration Example.window_0900_1015 <= 120
    /\ AvailableDate.slotDuration Example.window_0900_1015 <= e - s
    /\ AvailableDate.generateTimeSlots Example.window_0900_1015 = Some slots
    /\ slots <> []
    /\ (forall ts, In ts slots -> Patterns.time ts = true)
    /\ AvailableDate.totalSlots Example.window_0900_1015 = Some total
    /\ 1 <= total.
Proof.
  apply (X3_stored_window_is_well_formed [] [Example.window_0900_1015]
           Example.window_0900_1015 Example.window_0900_1015).
  left. reflexivity.
Defined.

(** X4. For a stored window with a whole number of minutes as
    [slotDuration] a time is a valid slot exactly when it is the formatted
    grid point [s + k*d] for some [k] with that point before the end; such
    a time has five characters and matches the HH:MM pattern, so a time
    written with a one-digit hour, which the pattern of [Booking.timeSlot]
    admits, is never a valid slot.  (A fractional duration is outside the
    statement, as above.) *)
Theorem X4_valid_slots_are_padded_grid_times :
  forall (coll coll' : list AvailableDate.t) (d doc : AvailableDate.t),
    AvailableDate.save coll d = Stored coll' doc
    \/ AvailableDate.saveStored coll d = Stored coll' doc ->
    exists s e : Z,
      DateUtils.minutesOfDay (AvailableDate.startTime d) = Some s
      /\ DateUtils.minutesOfDay (AvailableDate.endTime d) = Some e
      /\ forall ts : string,
           (AvailableDate.isValidTimeSlot d ts = Some true
            <-> exists k : nat,
                  s + Z.of_nat k * AvailableDate.slotDuration d < e
                  /\ ts = DateUtils.timeString (s + Z.of_nat k * AvailableDate.slotDuration d))
           /\ (AvailableDate.isValidTimeSlot d ts = Some true ->
               String.length ts = 5%nat /\ Patterns.time ts = true)
           /\ (String.length ts <> 5%nat ->
               AvailableDate.isValidTimeSlot d ts = Some false).
Proof.
  intros coll coll' d doc Hsaved.
  assert (Hok : AvailableDate.validate d = [] /\ AvailableDate.preSave d = None)
    by (destruct Hsaved as [Hs|Hs];
        [eapply save_validated | eapply saveStored_validated]; exact Hs).
  destruct Hok as [Hv Hpre].
  destruct (validated_window_grid d Hv Hpre)
    as (s & e & n & Hs & He & Hs0 & He1 & Hn & Hk & Hgrid & _).
  exists s, e. split; [exact Hs | split; [exact He|]].
  intros ts.
  assert (Hiff : AvailableDate.isValidTimeSlot d ts = Some true
                 <-> exists k : nat,
                       s + Z.of_nat k * AvailableDate.slotDuration d < e
                       /\ ts = DateUtils.timeString
                                 (s + Z.of_nat k * AvailableDate.slotDuration d)).
  { unfold AvailableDate.isValidTimeSlot. rewrite Hgrid. simpl.
    unfold Js.arrayIncludes. split.
    - intros Hq. injection Hq as Hq. apply existsb_exists in Hq as [x [Hin Heq]].
      apply String.eqb_eq in Heq. subst x.
      apply in_map_iff in Hin as [k [Hts Hkin]]. apply in_seq in Hkin.
      exists k. split; [apply Hk; lia | now symmetry].
    - intros [k [Hlt ->]]. f_equal. apply existsb_exists.
      eexists. split; [|apply String.eqb_refl].
      apply in_map_iff. exists k. split; [reflexivity|].
      apply in_seq. split; [lia|]. simpl. now apply Hk. }
  assert (Hshape : AvailableDate.isValidTimeSlot d ts = Some true ->
                   String.length ts = 5%nat /\ Patterns.time ts = true).
  { intros Hq. apply Hiff in Hq as [k [Hlt ->]].
    assert (Hd : 0 <= Z.of_nat k * AvailableDate.slotDuration d).
    { destruct (validated_window d Hv Hpre) as (_ & _ & _ & _ & _ & _ & _ & Hd & _).
      nia. }
    destruct (timeString_parses (s + Z.of_nat k * AvailableDate.slotDuration d))
      as (_ & Hp & Hl); [lia | auto]. }
  split; [exact Hiff | split; [exact Hshape|]].
  intros Hlen.
  destruct (AvailableDate.isValidTimeSlot d ts) as [[|]|] eqn:Hq.
  - destruct (Hshape eq_refl) as [Hl _]. contradiction.
  - reflexivity.
  - unfold AvailableDate.isValidTimeSlot in Hq. rewrite Hgrid in Hq. discriminate.
Qed.

Lemma X4_valid_slots_are_padded_grid_times_witness :
  exists s e : Z,
    DateUtils.minutesOfDay (AvailableDate.startTime Example.window_0900_1700) = Some s
    /\ DateUtils.minutesOfDay (AvailableDate.endTime Example.window_0900_1700) = Some e
    /\ forall ts : string,
         (AvailableDate.isValidTimeSlot Example.window_0900_1700 ts = Some true
          <-> exists k : nat,
                s + Z.of_nat k * AvailableDate.slotDuration Example.window_0900_1700 < e
                /\ ts = DateUtils.timeString
                          (s + Z.of_nat k * AvailableDate.slotDuration Example.window_0900_1700))
         /\ (AvailableDate.isValidTimeSlot Example.window_0900_1700 ts = Some true ->
             String.length ts = 5%nat /\ Patterns.time ts = true)
         /\ (String.length ts <> 5%nat ->
             AvailableDate.isValidTimeSlot Example.window_0900_1700 ts = Some false).
Proof.
  apply (X4_valid_slots_are_padded_grid_times [] [Example.window_0900_1700]
           Example.window_0900_1700 Example.window_0900_1700).
  left. reflexivity.
Defined.

(* ------------------------------------------------------------------ *)
(** ** Arithmetic on times and the order of dates *)
(* ------------------------------------------------------------------ *)

Lemma digitsValue_nonneg (s : string) :
  forall acc v, 0 <= acc -> Js.digitsValue acc s = Some v -> 0 <= v.
Proof.
  induction s as [|c s IH]; simpl; intros acc v Hacc Hv.
  - injection Hv as <-. exact Hacc.
  - destruct (Js.isDigit c) eqn:Hd; [|discriminate].
    apply (IH (10 * acc + Js.digitValue c)); [|exact Hv].
    unfold Js.isDigit in Hd. apply andb_true_iff in Hd as [Hlo _].
    apply N.leb_le in Hlo. unfold Js.digitValue. lia.
Qed.

Lemma minutesOfDay_nonneg (t : string) (m : Z) :
  DateUtils.minutesOfDay t = Some m -> 0 <= m.
Proof.
  unfold DateUtils.minutesOfDay.
  destruct (nth_error _ 0) as [[h|]|] eqn:Hh; try discriminate.
  destruct (nth_error _ 1) as [[mi|]|] eqn:Hm; try discriminate.
  intros Heq. injection Heq as <-.
  apply nth_error_In in Hh, Hm.
  apply in_map_iff in Hh as [x [Hx _]]. apply in_map_iff in Hm as [y [Hy _]].
  apply digitsValue_nonneg in Hx, Hy; lia.
Qed.

Lemma timeString_template (t : Z) :
  DateUtils.timeString t = DateUtils.template (t / 60) (Z.rem t 60).
Proof. reflexivity. Qed.

(** X5. For a parsed time and a positive duration, [getNextTimeSlot]
    prints the first multiple of the duration strictly after the time: it
    lies at most one duration ahead, and a time already on a multiple moves
    a whole duration forward. *)
Theorem X5_getNextTimeSlot_next_multiple :
  forall (currentTime : string) (m d : Z),
    DateUtils.minutesOfDay currentTime = Some m ->
    0 < d ->
    exists t : Z,
      DateUtils.getNextTimeSlot currentTime d = DateUtils.timeString t
      /\ m < t <= m + d
      /\ t mod d = 0
      /\ (forall u, m < u -> u mod d = 0 -> t <= u).
Proof.
  intros currentTime m d Hm Hd.
  pose proof (minutesOfDay_nonneg _ _ Hm) as Hm0.
  unfold DateUtils.getNextTimeSlot. rewrite Hm.
  replace (d =? 0) with false by (symmetry; apply Z.eqb_neq; lia).
  rewrite Z.rem_mod_nonneg by lia.
  pose proof (Z.div_mod m d ltac:(lia)) as Hdm.
  pose proof (Z.mod_pos_bound m d Hd) as Hb.
  exists (d * (m / d) + d).
  assert (Hmod : (d * (m / d) + d) mod d = 0).
  { replace (d * (m / d) + d) with ((m / d + 1) * d) by ring. apply Z.mod_mul. lia. }
  split; [|split; [lia | split; [exact Hmod|]]].
  - rewrite timeString_template.
    destruct (m mod d =? 0) eqn:Hz; simpl negb; cbv iota.
    + apply Z.eqb_eq in Hz. replace (m + d) with (d * (m / d) + d) by lia. reflexivity.
    + replace (m + (d - m mod d)) with (d * (m / d) + d) by lia. reflexivity.
  - intros u Hu Hud.
    apply Z.mod_divide in Hud; [|lia]. destruct Hud as [q ->].
    assert (m / d < q) by nia. nia.
Qed.

Lemma X5_getNextTimeSlot_next_multiple_witness :
  exists t : Z,
    DateUtils.getNextTimeSlot "09:10" 30 = DateUtils.timeString t
    /\ 550 < t <= 550 + 30
    /\ t mod 30 = 0
    /\ (forall u, 550 < u -> u mod 30 = 0 -> t <= u).
Proof.
  apply (X5_getNextTimeSlot_next_multiple "09:10" 550 30); [reflexivity | lia].
Defined.

Lemma addMinutesToTime_wraps (time : string) (m k : Z) :
  DateUtils.minutesOfDay time = Some m ->
  0 <= m + k ->
  DateUtils.addMinutesToTime time k = DateUtils.timeString ((m + k) mod 1440).
Proof.
  intros Hm Hk. unfold DateUtils.addMinutesToTime. rewrite Hm.
  rewrite timeString_template.
  set (t := m + k) in *.
  pose proof (Z.mod_pos_bound t 1440 ltac:(lia)) as Hb.
  assert (Hh : 0 <= t / 60) by (apply Z.div_pos; lia).
  rewrite !Z.rem_mod_nonneg by lia.
  pose proof (Z.div_mod t 60 ltac:(lia)) as H60.
  pose proof (Z.mod_pos_bound t 60 ltac:(lia)) as B60.
  pose proof (Z.div_mod (t / 60) 24 ltac:(lia)) as H24.
  pose proof (Z.mod_pos_bound (t / 60) 24 ltac:(lia)) as B24.
  assert (Hmod : t mod 1440 = 60 * ((t / 60) mod 24) + t mod 60).
  { symmetry. apply (Z.mod_unique t 1440 ((t / 60) / 24)); lia. }
  f_equal.
  - apply (Z.div_unique (t mod 1440) 60 _ (t mod 60)); lia.
  - apply (Z.mod_unique (t mod 1440) 60 ((t / 60) mod 24)); lia.
Qed.

(** X6. Adding minutes to a time wraps at midnight: for a parsed time [m]
    and a sum that is not negative, [addMinutesToTime] prints the minute
    [(m + k) mod 1440]; the result matches the HH:MM pattern, and adding
    [a] then [b] minutes is adding [a + b]. *)
Theorem X6_addMinutesToTime_wraps_at_midnight :
  forall (time : string) (m a b : Z),
    DateUtils.minutesOfDay time = Some m ->
    0 <= a -> 0 <= b ->
    DateUtils.addMinutesToTime time a = DateUtils.timeString ((m + a) mod 1440)
    /\ Patterns.time (DateUtils.addMinutesToTime time a) = true
    /\ DateUtils.addMinutesToTime (DateUtils.addMinutesToTime time a) b
       = DateUtils.addMinutesToTime time (a + b).
Proof.
  intros time m a b Hm Ha Hb.
  pose proof (minutesOfDay_nonneg _ _ Hm) as Hm0.
  pose proof (Z.mod_pos_bound (m + a) 1440 ltac:(lia)) as Hr.
  rewrite (addMinutesToTime_wraps time m a Hm) by lia.
  destruct (timeString_parses ((m + a) mod 1440) Hr) as (Hparse & Hpat & _).
  split; [reflexivity | split; [exact Hpat|]].
  rewrite (addMinutesToTime_wraps _ _ b Hparse) by lia.
  rewrite (addMinutesToTime_wraps time m (a + b) Hm) by lia.
  f_equal. rewrite Z.add_mod_idemp_l by lia. f_equal. lia.
Qed.

Lemma X6_addMinutesToTime_wraps_at_midnight_witness :
  DateUtils.addMinutesToTime "23:30" 45 = DateUtils.timeString ((1410 + 45) mod 1440)
  /\ Patterns.time (DateUtils.addMinutesToTime "23:30" 45) = true
  /\ DateUtils.addMinutesToTime (DateUtils.addMinutesToTime "23:30" 45) 30
     = DateUtils.addMinutesToTime "23:30" (45 + 30).
Proof.
  apply (X6_addMinutesToTime_wraps_at_midnight "23:30" 1410 45 30);
    [reflexivity | lia | lia].
Defined.

Lemma string_compare_refl (s : string) : String.compare s s = Eq.
Proof.
  pose proof (String.compare_antisym s s) as Ha.
  destruct (String.compare s s); simpl in Ha; [reflexivity | discriminate | discriminate].
Qed.

(** X7. Against the current date every date string is exactly one of past,
    today and future. *)
Theorem X7_past_today_future_partition :
  forall (clk : Clock) (date : string),
    (DateUtils.isPastDate clk date = true
     /\ DateUtils.isToday clk date = false /\ DateUtils.isFutureDate clk date = false)
    \/ (DateUtils.isPastDate clk date = false
        /\ DateUtils.isToday clk date = true /\ DateUtils.isFutureDate clk date = false)
    \/ (DateUtils.isPastDate clk date = false
        /\ DateUtils.isToday clk date = false /\ DateUtils.isFutureDate clk date = true).
Proof.
  intros clk date.
  unfold DateUtils.isPastDate, DateUtils.isToday, DateUtils.isFutureDate,
    DateUtils.getCurrentDate, Js.lt, String.ltb.
  rewrite (String.compare_antisym (currentDate clk) date).
  destruct (String.compare date (currentDate clk)) eqn:Hc; simpl.
  - apply String.compare_eq_iff in Hc. right. left.
    rewrite Hc, String.eqb_refl. auto.
  - left. split; [reflexivity | split; [|reflexivity]].
    apply String.eqb_neq. intros ->.
    rewrite string_compare_refl in Hc. discriminate.
  - right. right. split; [reflexivity | split; [|reflexivity]].
    apply String.eqb_neq. intros ->.
    rewrite string_compare_refl in Hc. discriminate.
Qed.

(* ------------------------------------------------------------------ *)
(** ** The booking collection across requests *)
(* ------------------------------------------------------------------ *)

Lemma write_ids coll b coll' doc :
  Booking.write coll b = Stored coll' doc ->
  map Booking._id coll' = map Booking._id coll
  \/ map Booking._id coll' = (map Booking._id coll ++ [Booking._id b])%list.
Proof.
  unfold Booking.write.
  repeat break_match; intros Hw; try discriminate; injection Hw as <- <-.
  - right. now rewrite map_app.
  - left. apply replaceDoc_ids.
Qed.

Lemma save_ids H clk coll b coll' doc :
  Booking.save H clk coll b = Stored coll' doc ->
  exists extra,
    map Booking._id coll' = (map Booking._id coll ++ extra)%list
    /\ (List.length extra <= 1)%nat.
Proof.
  unfold Booking.save.
  destruct (Booking.validate H b); [|discriminate].
  destruct (Booking.preSaveDoubleBooking coll _); [discriminate|].
  intros Hw. apply write_ids in Hw as [Hw|Hw].
  - exists []. rewrite app_nil_r. split; [exact Hw | simpl; lia].
  - eexists. split; [exact Hw | simpl; lia].
Qed.

Lemma updateMany_ids ids u coll :
  map Booking._id (Booking.updateMany ids u coll) = map Booking._id coll.
Proof.
  unfold Booking.updateMany. rewrite map_map. apply map_ext. intros x.
  destruct (existsb _ ids); [apply applyUpdate_id | reflexivity].
Qed.

Ltac saved_ids :=
  match goal with
  | Hs : Booking.save _ _ _ _ = Stored _ _ |- _ => exact (save_ids _ _ _ _ _ _ Hs)
  | Hs : Booking.cancel _ _ _ _ _ = Stored _ _ |- _ => exact (save_ids _ _ _ _ _ _ Hs)
  | Hs : Booking.checkIn _ _ _ _ = Stored _ _ |- _ => exact (save_ids _ _ _ _ _ _ Hs)
  end.

(** X8. No request removes or reorders a booking: after any request the
    identifiers of the collection are those it had before, in the same
    order, followed by at most one new identifier. *)
Theorem X8_bookings_are_never_deleted :
  forall (H : Host) (clk : Clock) (db : Db) (r : Request),
  exists extra : list nat,
    map Booking._id (bookings (handle H clk db r))
    = (map Booking._id (bookings db) ++ extra)%list
    /\ (List.length extra <= 1)%nat.
Proof.
  intros H clk db r.
  assert (Hsame : exists extra : list nat,
             map Booking._id (bookings db)
             = (map Booking._id (bookings db) ++ extra)%list
             /\ (List.length extra <= 1)%nat)
    by (exists []; rewrite app_nil_r; split; [reflexivity | simpl; lia]).
  destruct r; unfold handle;
    unfold BookingController.createBooking, BookingController.createSimpleBooking,
      BookingController.updateBooking, BookingController.cancelBooking,
      BookingController.rescheduleBooking, BookingController.checkInBooking,
      AdminController.updateBookingStatus, AdminController.deleteBooking,
      AdminController.bulkUpdateBookings, AdminController.createBulkAvailableDates,
      BookingController.saveAndReply;
    repeat break_match; cbn [fst bookings withBookings withAvailableDates];
    try exact Hsame; try saved_ids.
  all: rewrite updateMany_ids; exact Hsame.
Qed.

(* ------------------------------------------------------------------ *)
(** ** Booking references across requests *)
(* ------------------------------------------------------------------ *)

Lemma referenceLoop_shape coll stem (remaining : nat) :
  forall counter,
  exists n, counter <= n <= counter + Z.of_nat remaining
            /\ Booking.referenceLoop coll stem counter remaining
               = (stem ++ Js.toString n)%string.
Proof.
  induction remaining as [|remaining IH]; intros counter; simpl.
  - exists counter. split; [lia|]. now destruct (Booking.findOne _ coll).
  - destruct (Booking.findOne _ coll).
    + destruct (IH (counter + 1)) as [n [Hn Heq]]. exists n. split; [lia | exact Heq].
    + exists counter. split; [lia | reflexivity].
Qed.

Lemma generateBookingReference_shape clk coll :
  exists n, 1 <= n <= 999
            /\ Booking.generateBookingReference clk coll
               = (Booking.referenceStem clk ++ Js.toString n)%string.
Proof.
  unfold Booking.generateBookingReference.
  destruct (referenceLoop_shape coll (Booking.referenceStem clk) 998 1) as [n [Hn Heq]].
  exists n. split; [lia | exact Heq].
Qed.

Lemma generateBookingReference_truthy clk coll :
  Js.truthy (Booking.generateBookingReference clk coll) = true.
Proof.
  destruct (generateBookingReference_shape clk coll) as [n [_ ->]].
  reflexivity.
Qed.

Lemma preSaveReference_truthy clk coll b :
  Js.truthy (Booking.bookingReference (Booking.preSaveReference clk coll b)) = true.
Proof.
  unfold Booking.preSaveReference.
  destruct (Js.truthy (Booking.bookingReference b)) eqn:Ht; simpl; [exact Ht|].
  apply generateBookingReference_truthy.
Qed.

(** Replacing a stored document keeps a key free of duplicates when no
    other document carries the key of the replacement. *)
Lemma replaceDoc_NoDup_on {K} (f : Booking.t -> K) (coll : list Booking.t) (b : Booking.t) :
  NoDup (map Booking._id coll) ->
  NoDup (map f coll) ->
  (forall x, In x coll -> Booking._id x <> Booking._id b -> f x <> f b) ->
  NoDup (map f (Booking.replaceDoc coll b)).
Proof.
  unfold Booking.replaceDoc.
  induction coll as [|x l IH]; simpl; intros Hids Hkeys Hother; [constructor|].
  inversion Hids as [|? ? Hidx Hids']; subst.
  inversion Hkeys as [|? ? Hkx Hkeys']; subst.
  constructor.
  - intros Hin. rewrite map_map in Hin. apply in_map_iff in Hin as [y [Hy Hyin]].
    unfold Booking.hasId in *.
    destruct (Nat.eqb_spec (Booking._id x) (Booking._id b)) as [Hxb|Hxb];
      destruct (Nat.eqb_spec (Booking._id y) (Booking._id b)) as [Hyb|Hyb].
    + apply Hidx. rewrite Hxb, <- Hyb. now apply in_map.
    + apply (Hother y); [now right | exact Hyb | exact Hy].
    + apply (Hother x); [now left | exact Hxb | now symmetry].
    + apply Hkx. rewrite <- Hy. now apply in_map.
  - apply IH; [assumption | assumption |]. intros y Hy. apply Hother. now right.
Qed.

Lemma replaceDoc_In coll b x :
  In x (Booking.replaceDoc coll b) -> x = b \/ In x coll.
Proof.
  unfold Booking.replaceDoc. intros Hin.
  apply in_map_iff in Hin as [y [Hy Hyin]].
  destruct (Booking.hasId (Booking._id b) y); [left; now symmetry | right; now subst].
Qed.

Lemma write_reference_invariant coll b coll' doc :
  StorageInvariant coll -> ReferenceInvariant coll ->
  Js.truthy (Booking.bookingReference b) = true ->
  Booking.write coll b = Stored coll' doc ->
  ReferenceInvariant coll'.
Proof.
  intros [Hids _] [Hrefs Htruthy] Hb. unfold Booking.write.
  destruct (Booking.isNew coll b) eqn:Hnew.
  - destruct (Booking.referenceTaken coll b) eqn:Htaken; [discriminate|].
    destruct (Booking.slotTaken coll b); [discriminate|].
    intros Hw. injection Hw as <- <-.
    apply isNew_absent in Hnew. split.
    + rewrite map_app. simpl.
      apply NoDup_app; [assumption | repeat constructor; intros [] |].
      intros r Hr [<-|[]]. apply in_map_iff in Hr as [x [Hxr Hx]].
      unfold Booking.referenceTaken in Htaken. rewrite existsb_false in Htaken.
      specialize (Htaken x Hx). unfold Booking.hasReference, Booking.hasId in Htaken.
      rewrite Hxr, String.eqb_refl in Htaken. simpl in Htaken.
      apply negb_false_iff, Nat.eqb_eq in Htaken.
      apply Hnew. rewrite <- Htaken. now apply in_map.
    + intros x Hx. apply in_app_or in Hx as [Hx|[<-|[]]]; auto.
  - destruct (Booking.isModified String.eqb Booking.bookingReference coll b
              && Booking.referenceTaken coll b) eqn:Hc; [discriminate|].
    destruct ((_ || _) && _); [discriminate|].
    intros Hw. injection Hw as <- <-. split.
    + unfold Booking.isNew in Hnew.
      destruct (Booking.findById (Booking._id b) coll) as [stored|] eqn:Hf;
        [|discriminate].
      apply andb_false_iff in Hc as [Hunmod | Hfree].
      * pose proof (isModified_false_eq coll b stored Booking.bookingReference Hf Hunmod)
          as Hsame.
        apply findById_Some in Hf as [Hin Hid].
        replace (map Booking.bookingReference (Booking.replaceDoc coll b))
          with (map Booking.bookingReference coll); [exact Hrefs|].
        unfold Booking.replaceDoc. rewrite map_map. apply map_ext_in. intros x Hx.
        unfold Booking.hasId.
        destruct (Nat.eqb_spec (Booking._id x) (Booking._id b)) as [Heq|]; [|reflexivity].
        assert (x = stored)
          by (apply (NoDup_map_injective_on Booking._id coll); auto; congruence).
        congruence.
      * apply replaceDoc_NoDup_on; auto.
        intros x Hx Hne Heq.
        unfold Booking.referenceTaken in Hfree. rewrite existsb_false in Hfree.
        specialize (Hfree x Hx). unfold Booking.hasReference, Booking.hasId in Hfree.
        rewrite Heq, String.eqb_refl in Hfree. simpl in Hfree.
        apply negb_false_iff, Nat.eqb_eq in Hfree. contradiction.
    + intros x Hx. apply replaceDoc_In in Hx as [->|Hx]; auto.
Qed.

Lemma save_reference_invariant H clk coll b coll' doc :
  StorageInvariant coll -> ReferenceInvariant coll ->
  Booking.save H clk coll b = Stored coll' doc ->
  ReferenceInvariant coll'.
Proof.
  intros Hstore Href. unfold Booking.save.
  destruct (Booking.validate H b); [|discriminate].
  destruct (Booking.preSaveDoubleBooking coll _); [discriminate|].
  apply write_reference_invariant; auto. apply preSaveReference_truthy.
Qed.

Lemma applyUpdate_reference u b :
  Booking.bookingReference (Booking.applyUpdate u b) = Booking.bookingReference b.
Proof.
  unfold Booking.applyUpdate.
  destruct (Booking.newStatus u), (Booking.newCancelledAt u),
    (Booking.newCancellationReason u); reflexivity.
Qed.

Lemma updateMany_reference_invariant ids u coll :
  ReferenceInvariant coll -> ReferenceInvariant (Booking.updateMany ids u coll).
Proof.
  intros [Hrefs Htruthy]. unfold Booking.updateMany. split.
  - rewrite map_map. erewrite map_ext; [exact Hrefs|].
    intros x. simpl. destruct (existsb _ ids); [apply applyUpdate_reference | reflexivity].
  - intros x Hx. apply in_map_iff in Hx as [y [<- Hy]].
    destruct (existsb _ ids); [rewrite applyUpdate_reference|]; auto.
Qed.

Ltac saved_references :=
  match goal with
  | Hs : Booking.save _ _ _ _ = Stored _ _ |- _ =>
      eapply save_reference_invariant; [| |exact Hs]; assumption
  | Hs : Booking.cancel _ _ _ _ _ = Stored _ _ |- _ =>
      eapply save_reference_invariant; [| |exact Hs]; assumption
  | Hs : Booking.checkIn _ _ _ _ = Stored _ _ |- _ =>
      eapply save_reference_invariant; [| |exact Hs]; assumption
  end.

Lemma handle_reference_invariant H clk db r :
  StorageInvariant (bookings db) -> ReferenceInvariant (bookings db) ->
  ReferenceInvariant (bookings (handle H clk db r)).
Proof.
  intros Hstore Href.
  destruct r; unfold handle;
    unfold BookingController.createBooking, BookingController.createSimpleBooking,
      BookingController.updateBooking, BookingController.cancelBooking,
      BookingController.rescheduleBooking, BookingController.checkInBooking,
      AdminController.updateBookingStatus, AdminController.deleteBooking,
      AdminController.bulkUpdateBookings, AdminController.createBulkAvailableDates,
      BookingController.saveAndReply;
    repeat break_match; cbn [fst bookings withBookings withAvailableDates];
    try assumption; try saved_references.
  all: now apply updateMany_reference_invariant.
Qed.

Lemma reachable_reference_invariant H db :
  reachable H db -> ReferenceInvariant (bookings db).
Proof.
  induction 1 as [|db clk r Hr IH|db coll _ IH].
  - split; [constructor | intros b []].
  - apply handle_reference_invariant; [now apply (reachable_invariant H) | exact IH].
  - exact IH.
Qed.

Lemma find_by_unique_key {K} (f : Booking.t -> K) (q : K -> Booking.t -> bool)
  (coll : list Booking.t) (b : Booking.t) :
  (forall k x, q k x = true <-> f x = k) ->
  NoDup (map f coll) -> In b coll ->
  find (q (f b)) coll = Some b.
Proof.
  intros Hq Hnd Hin.
  destruct (find_exists (q (f b)) coll b Hin) as [y Hy]; [now apply Hq|].
  rewrite Hy. f_equal. apply find_some in Hy as [Hyin Hyq].
  apply Hq in Hyq. now apply (NoDup_map_injective_on f coll).
Qed.

(** X9. In every reachable database the booking references are never empty
    and pairwise distinct, so a lookup by the reference of a stored booking
    answers that booking and no other. *)
Theorem X9_references_identify_bookings :
  forall (H : Host) (db : Db),
    reachable H db ->
    NoDup (map Booking.bookingReference (bookings db))
    /\ (forall b, In b (bookings db) -> Booking.bookingReference b <> EmptyString)
    /\ (forall b, In b (bookings db) ->
          BookingController.getBookingByReference db (Booking.bookingReference b)
          = Respond 200 "Booking retrieved successfully" (Some b)).
Proof.
  intros H db Hreach.
  destruct (reachable_reference_invariant H db Hreach) as [Hnd Htruthy].
  split; [exact Hnd | split].
  - intros b Hb Hempty. specialize (Htruthy b Hb). rewrite Hempty in Htruthy. discriminate.
  - intros b Hb. unfold BookingController.getBookingByReference, Booking.findOne.
    rewrite (find_by_unique_key Booking.bookingReference Booking.hasReference); auto.
    intros k x. unfold Booking.hasReference. apply String.eqb_eq.
Qed.

Lemma X9_references_identify_bookings_witness :
  NoDup (map Booking.bookingReference (bookings Example.dbBooked))
  /\ (forall b, In b (bookings Example.dbBooked) ->
        Booking.bookingReference b <> EmptyString)
  /\ (forall b, In b (bookings Example.dbBooked) ->
        BookingController.getBookingByReference Example.dbBooked
          (Booking.bookingReference b)
        = Respond 200 "Booking retrieved successfully" (Some b)).
Proof.
  apply (X9_references_identify_bookings Example.host Example.dbBooked).
  unfold Example.dbBooked.
  apply (reachable_request Example.host Example.db0 Example.clock
           (CreateBooking "2025-09-25" "10:00" Example.customer None)).
  apply (reachable_availability Example.host (mkDb [] []) [Example.window_0900_1700]).
  apply reachable_empty.
Defined.

(* ------------------------------------------------------------------ *)
(** ** From creation to lookup *)
(* ------------------------------------------------------------------ *)

Lemma find_app_last {A} (q : A -> bool) (l : list A) (y : A) :
  (forall x, In x l -> q x = false) -> q y = true ->
  find q (l ++ [y]) = Some y.
Proof.
  induction l as [|a l IH]; simpl; intros Hall Hy.
  - now rewrite Hy.
  - rewrite (Hall a (or_introl eq_refl)). apply IH; auto.
Qed.

(** The first save of a document built by [new Booking]: the reference is
    the generated one, no stored booking carries it, and the document is
    appended. *)
Lemma save_new_reference H clk coll b coll' doc :
  ~ In (Booking._id b) (map Booking._id coll) ->
  Booking.bookingReference b = EmptyString ->
  Booking.save H clk coll b = Stored coll' doc ->
  doc = Booking.setBookingReference b (Booking.generateBookingReference clk coll)
  /\ coll' = (coll ++ [doc])%list
  /\ referenceInUse coll (Booking.bookingReference doc) = false.
Proof.
  intros Hfresh Href. unfold Booking.save.
  destruct (Booking.validate H b); [|discriminate].
  unfold Booking.preSaveReference. rewrite Href. cbn [Js.truthy String.eqb negb].
  set (b1 := Booking.setBookingReference b _).
  destruct (Booking.preSaveDoubleBooking coll b1); [discriminate|].
  unfold Booking.write, Booking.isNew.
  replace (Booking._id b1) with (Booking._id b) by reflexivity.
  rewrite (findById_absent coll _ Hfresh).
  destruct (Booking.referenceTaken coll b1) eqn:Htaken; [discriminate|].
  destruct (Booking.slotTaken coll b1); [discriminate|].
  intros Hw. injection Hw as <- <-. repeat split.
  unfold referenceInUse. apply existsb_false. intros x Hx.
  unfold Booking.referenceTaken in Htaken. rewrite existsb_false in Htaken.
  specialize (Htaken x Hx).
  apply andb_false_iff in Htaken as [Hr|Hid]; [exact Hr|].
  apply negb_false_iff in Hid. unfold Booking.hasId in Hid. apply Nat.eqb_eq in Hid.
  exfalso. apply Hfresh. change (Booking._id b1) with (Booking._id b) in Hid.
  rewrite <- Hid. now apply in_map.
Qed.

(** X10. A booking that [createBooking] answers with 201 is found by its
    reference afterwards and was not found by it before; the reference is
    the stem SM + date + time of the clock followed by a counter between 1
    and 999, and the stored document is confirmed at the requested slot. *)
Theorem X10_created_booking_is_found_by_its_reference :
  forall (H : Host) (clk : Clock) (db db1 : Db) (date timeSlot : string)
         (customer : Customer.t) (user : option nat) (message : string)
         (doc : Booking.t),
    BookingController.createBooking H clk db date timeSlot customer user
    = (db1, Respond 201 message (Some doc)) ->
    BookingController.getBookingByReference db1 (Booking.bookingReference doc)
    = Respond 200 "Booking retrieved successfully" (Some doc)
    /\ BookingController.getBookingByReference db (Booking.bookingReference doc)
       = Respond 404 "Booking not found" None
    /\ (exists n : Z, 1 <= n <= 999
          /\ Booking.bookingReference doc
             = (Booking.referenceStem clk ++ Js.toString n)%string)
    /\ Booking.date doc = date
    /\ Booking.timeSlot doc = timeSlot
    /\ Booking.status doc = "confirmed".
Proof.
  intros H clk db db1 date timeSlot customer user message doc Hc.
  apply createBooking_created in Hc
    as (vc & ad & coll & doc' & _ & _ & _ & _ & _ & _ & _ & Hsave & -> & Hdata).
  injection Hdata as ->.
  apply save_new_reference in Hsave as (Hdoc & -> & Hfree);
    [| apply freshId_fresh | reflexivity].
  unfold referenceInUse in Hfree. rewrite existsb_false in Hfree.
  unfold BookingController.getBookingByReference, Booking.findOne.
  cbn [bookings withBookings].
  rewrite find_app_last;
    [| exact Hfree | unfold Booking.hasReference; apply String.eqb_refl].
  rewrite (find_all_false _ _ Hfree).
  split; [reflexivity | split; [reflexivity | split]].
  - rewrite Hdoc. cbn [Booking.bookingReference Booking.setBookingReference].
    apply generateBookingReference_shape.
  - rewrite Hdoc. repeat split.
Qed.

Lemma X10_created_booking_is_found_by_its_reference_witness :
  exists doc : Booking.t,
    BookingController.getBookingByReference Example.dbBooked
      (Booking.bookingReference doc)
    = Respond 200 "Booking retrieved successfully" (Some doc)
    /\ BookingController.getBookingByReference Example.db0
         (Booking.bookingReference doc)
       = Respond 404 "Booking not found" None
    /\ (exists n : Z, 1 <= n <= 999
          /\ Booking.bookingReference doc
             = (Booking.referenceStem Example.clock ++ Js.toString n)%string)
    /\ Booking.date doc = "2025-09-25"
    /\ Booking.timeSlot doc = "10:00"
    /\ Booking.status doc = "confirmed".
Proof.
  eexists.
  apply (X10_created_booking_is_found_by_its_reference Example.host Example.clock
           Example.db0 Example.dbBooked "2025-09-25" "10:00" Example.customer None
           "Booking created successfully").
  vm_compute. reflexivity.
Defined.

(* ------------------------------------------------------------------ *)
(** ** Saving a stored booking *)
(* ------------------------------------------------------------------ *)

Lemma errorHandler_is_error {A} H e :
  exists code message,
    @ErrorHandler.errorHandler A H e = Respond code message None /\ code <> 200.
Proof.
  unfold ErrorHandler.errorHandler, respondWithError.
  destruct e; repeat break_match; eexists; eexists; (split; [reflexivity | discriminate]).
Qed.

Lemma errorHandler_not_ok {A} H e message (data : option A) :
  ErrorHandler.errorHandler H e <> Respond 200 message data.
Proof.
  destruct (@errorHandler_is_error A H e) as (code & m & -> & Hcode).
  intros Heq. injection Heq as Hc _ _. contradiction.
Qed.

(** A successful save of a document that is stored and carries a reference
    writes the document as it is, in the place of the stored one. *)
Lemma save_stored_result H clk coll stored b coll' doc :
  In stored coll ->
  Booking._id b = Booking._id stored ->
  Js.truthy (Booking.bookingReference b) = true ->
  Booking.save H clk coll b = Stored coll' doc ->
  coll' = Booking.replaceDoc coll b /\ doc = b.
Proof.
  intros Hin Hid Href. unfold Booking.save.
  destruct (Booking.validate H b); [|discriminate].
  unfold Booking.preSaveReference. rewrite Href. cbn [negb].
  destruct (Booking.preSaveDoubleBooking coll b); [discriminate|].
  unfold Booking.write, Booking.isNew.
  destruct (find_exists (Booking.hasId (Booking._id b)) coll stored Hin) as [y Hy].
  { unfold Booking.hasId. rewrite Hid. apply Nat.eqb_refl. }
  unfold Booking.findById at 1. rewrite Hy.
  repeat break_match; intros Hw; try discriminate.
  injection Hw as <- <-. now split.
Qed.

Lemma find_replaceDoc (q : Booking.t -> bool) coll stored b :
  NoDup (map Booking._id coll) ->
  find q coll = Some stored ->
  Booking._id b = Booking._id stored ->
  q b = true ->
  find q (Booking.replaceDoc coll b) = Some b.
Proof.
  unfold Booking.replaceDoc.
  induction coll as [|x l IH]; simpl; intros Hnd Hf Hid Hq; [discriminate|].
  inversion Hnd as [|? ? Hx Hnd']; subst.
  destruct (q x) eqn:Hqx.
  - injection Hf as ->. unfold Booking.hasId. rewrite Hid, Nat.eqb_refl. now rewrite Hq.
  - unfold Booking.hasId at 1.
    destruct (Nat.eqb_spec (Booking._id x) (Booking._id b)) as [Heq|Hne].
    + exfalso. apply Hx. rewrite Heq, Hid.
      apply find_some in Hf as [Hin _]. now apply in_map.
    + simpl. rewrite Hqx. now apply IH.
Qed.

Lemma markCancelled_fields clk b reason :
  Booking._id (Booking.markCancelled clk b reason) = Booking._id b
  /\ Booking.bookingReference (Booking.markCancelled clk b reason)
     = Booking.bookingReference b
  /\ Booking.status (Booking.markCancelled clk b reason) = "cancelled"
  /\ Booking.cancelledAt (Booking.markCancelled clk b reason) = Some (now clk)
  /\ slotKey (Booking.markCancelled clk b reason) = slotKey b.
Proof.
  unfold Booking.markCancelled. destruct (Js.given reason); repeat split.
Qed.

(* ------------------------------------------------------------------ *)
(** ** The administrator's status changes *)
(* ------------------------------------------------------------------ *)

Lemma validate_cancellationReason H b :
  Booking.validate H b = [] ->
  match Booking.cancellationReason b with
  | Some r => if (String.length r <=? 500)%nat then []
              else ["cancellationReason"%string]
  | None => []
  end = [].
Proof.
  unfold Booking.validate. intros Hv.
  repeat match goal with
         | Hv : (_ ++ _)%list = [] |- _ => apply app_eq_nil in Hv as [? Hv]
         end.
  exact Hv.
Qed.

Lemma validate_setStatus H b s :
  Booking.validate H b = [] ->
  Js.arrayIncludes s ["pending"; "confirmed"; "cancelled"; "completed"; "no-show"]%string
  = true ->
  Booking.validate H (Booking.setStatus b s) = [].
Proof.
  intros Hv Hs.
  pose proof (validate_nil_parts H b Hv) as (Hd & Ht & Hc & Hsrc & Hp).
  pose proof (validate_cancellationReason H b Hv) as Hold.
  unfold Booking.validate.
  cbn [Booking.date Booking.timeSlot Booking.customer Booking.status
       Booking.source Booking.paymentStatus Booking.cancellationReason
       Booking.setStatus].
  now rewrite Hd, Ht, Hc, Hs, Hsrc, Hp, Hold.
Qed.

Lemma validate_setCancellation H b r i :
  Booking.validate H b = [] ->
  (String.length r <= 500)%nat ->
  Booking.validate H (Booking.setCancelledAt (Booking.setCancellationReason b (Some r)) i)
  = [].
Proof.
  intros Hv Hlen.
  pose proof (validate_nil_parts H b Hv) as (Hd & Ht & Hc & Hsrc & Hp).
  assert (Hst : (if Js.arrayIncludes (Booking.status b)
                      ["pending"; "confirmed"; "cancelled"; "completed"; "no-show"]%string
                 then [] else ["status"%string]) = []).
  { unfold Booking.validate in Hv.
    repeat match goal with
           | Hv : (_ ++ _)%list = [] |- _ => apply app_eq_nil in Hv as [? Hv]
           end.
    assumption. }
  unfold Booking.validate.
  cbn [Booking.date Booking.timeSlot Booking.customer Booking.status
       Booking.source Booking.paymentStatus Booking.cancellationReason
       Booking.setCancelledAt Booking.setCancellationReason].
  apply Nat.leb_le in Hlen.
  now rewrite Hd, Ht, Hc, Hst, Hsrc, Hp, Hlen.
Qed.

Lemma findById_replaceDoc coll stored b :
  NoDup (map Booking._id coll) ->
  Booking.findById (Booking._id stored) coll = Some stored ->
  Booking._id b = Booking._id stored ->
  Booking.findById (Booking._id stored) (Booking.replaceDoc coll b) = Some b.
Proof.
  intros Hnd Hf Hid. unfold Booking.findById in *.
  apply (find_replaceDoc _ _ stored); auto.
  unfold Booking.hasId. rewrite Hid. apply Nat.eqb_refl.
Qed.

(** X12. [updateBookingStatus] moves a stored, valid booking to any status
    of the schema from any status it has, a cancelled or completed one
    included; the slot, the reference and the check-in time stay, and the
    cancellation time is stamped only when the new status is cancelled and
    a reason comes with it. *)
Theorem X12_admin_status_update_has_no_transition_rule :
  forall (H : Host) (clk : Clock) (db : Db) (id : nat) (booking : Booking.t)
         (status : string) (reason : option string),
    reachable H db ->
    Booking.findById id (bookings db) = Some booking ->
    Booking.validate H booking = [] ->
    Js.arrayIncludes status
      ["pending"; "confirmed"; "cancelled"; "completed"; "no-show"]%string = true ->
    (forall r, reason = Some r -> (String.length r <= 500)%nat) ->
    exists doc : Booking.t,
      AdminController.updateBookingStatus H clk db id status reason
      = (withBookings db (Booking.replaceDoc (bookings db) doc),
         Respond 200
           ("Booking status updated from " ++ Booking.status booking ++ " to " ++ status)
           (Some doc))
      /\ Booking.findById id (Booking.replaceDoc (bookings db) doc) = Some doc
      /\ Booking.status doc = status
      /\ slotKey doc = slotKey booking
      /\ Booking.bookingReference doc = Booking.bookingReference booking
      /\ Booking.checkedInAt doc = Booking.checkedInAt booking
      /\ Booking.cancelledAt doc
         = (if (status =? "cancelled")%string && Js.given reason
            then Some (now clk) else Booking.cancelledAt booking).
Proof.
  intros H clk db id booking status reason Hreach Hf Hv Hs Hlen.
  destruct (reachable_invariant H db Hreach) as [Hids _].
  destruct (reachable_reference_invariant H db Hreach) as [_ Htruthy].
  destruct (findById_Some _ _ _ Hf) as [Hin Hid].
  unfold AdminController.updateBookingStatus, BookingController.saveAndReply,
    respondWithUpdated.
  rewrite Hf.
  set (doc := if (status =? "cancelled")%string && Js.given reason then _ else _).
  exists doc.
  assert (Hfields : Booking._id doc = Booking._id booking
                    /\ Booking.date doc = Booking.date booking
                    /\ Booking.timeSlot doc = Booking.timeSlot booking
                    /\ Booking.bookingReference doc = Booking.bookingReference booking
                    /\ Booking.status doc = status
                    /\ Booking.checkedInAt doc = Booking.checkedInAt booking
                    /\ Booking.cancelledAt doc
                       = (if (status =? "cancelled")%string && Js.given reason
                          then Some (now clk) else Booking.cancelledAt booking))
    by (subst doc; destruct ((status =? "cancelled")%string && Js.given reason);
        repeat split).
  destruct Hfields as (Fid & Fd & Ft & Fr & Fs & Fc & Fa).
  assert (Hvalid : Booking.validate H doc = []).
  { subst doc. destruct ((status =? "cancelled")%string && Js.given reason) eqn:Hc.
    - apply andb_true_iff in Hc as [_ Hg].
      destruct reason as [r|]; [|discriminate].
      apply validate_setCancellation; [now apply validate_setStatus | now apply Hlen].
    - now apply validate_setStatus. }
  rewrite (save_stored_same_keys H clk (bookings db) booking doc); auto.
  - split; [reflexivity|]. split.
    + rewrite <- Hid. apply findById_replaceDoc; auto. now rewrite Hid.
    + unfold slotKey. rewrite Fd, Ft. repeat split; assumption.
  - rewrite Fr. now apply Htruthy.
Qed.

Lemma X12_admin_status_update_has_no_transition_rule_witness :
  exists doc : Booking.t,
    AdminController.updateBookingStatus Example.host Example.clock Example.dbCancelled
      1 "confirmed" None
    = (withBookings Example.dbCancelled
         (Booking.replaceDoc (bookings Example.dbCancelled) doc),
       Respond 200 "Booking status updated from cancelled to confirmed" (Some doc))
    /\ Booking.findById 1 (Booking.replaceDoc (bookings Example.dbCancelled) doc)
       = Some doc
    /\ Booking.status doc = "confirmed"
    /\ slotKey doc = ("2025-09-25", "10:00")
    /\ Booking.bookingReference doc = "SM2025092410001"
    /\ Booking.checkedInAt doc = None
    /\ Booking.cancelledAt doc = Some (now Example.clock).
Proof.
  apply (X12_admin_status_update_has_no_transition_rule Example.host Example.clock
           Example.dbCancelled 1
           (Booking.markCancelled Example.clock Example.bookingA
              (Some "change of plans"%string))
           "confirmed" None).
  - unfold Example.dbCancelled, Example.dbBooked.
    apply reachable_request. apply reachable_request.
    apply (reachable_availability Example.host (mkDb [] []) [Example.window_0900_1700]).
    apply reachable_empty.
  - vm_compute. reflexivity.
  - vm_compute. reflexivity.
  - vm_compute. reflexivity.
  - intros r Hr. discriminate Hr.
Defined.

(* ------------------------------------------------------------------ *)
(** ** Bulk updates *)
(* ------------------------------------------------------------------ *)

Lemma applyUpdate_fields u b :
  Booking._id (Booking.applyUpdate u b) = Booking._id b
  /\ slotKey (Booking.applyUpdate u b) = slotKey b
  /\ Booking.bookingReference (Booking.applyUpdate u b) = Booking.bookingReference b
  /\ (forall s, Booking.newStatus u = Some s -> Booking.status (Booking.applyUpdate u b) = s).
Proof.
  unfold Booking.applyUpdate.
  destruct (Booking.newStatus u), (Booking.newCancelledAt u),
    (Booking.newCancellationReason u); repeat split; intros s' Hs; simpl; congruence.
Qed.

Lemma validate_bad_status H b :
  Js.arrayIncludes (Booking.status b)
    ["pending"; "confirmed"; "cancelled"; "completed"; "no-show"]%string = false ->
  Booking.validate H b <> [].
Proof.
  intros Hbad Hv. unfold Booking.validate in Hv. rewrite Hbad in Hv.
  repeat match goal with
         | Hv : (_ ++ _)%list = [] |- _ => apply app_eq_nil in Hv as [? Hv]
         end.
  discriminate.
Qed.

(** X14. [bulkUpdateBookings] writes the requested status into every listed
    booking and into no other, in place: identifiers, slots and references
    stay as they are.  No schema validator runs, so a status outside the
    schema's list is stored and leaves a document that a later [save] would
    refuse. *)
Theorem X14_bulk_update_writes_status_unvalidated :
  forall (H : Host) (clk : Clock) (db : Db) (bookingIds : list nat)
         (action : string) (status reason : option string) (s : string),
    bookingIds <> [] ->
    (action = "cancel" /\ s = "cancelled")
    \/ (action = "update_status" /\ status = Some s /\ Js.truthy s = true) ->
    exists db1 message counts,
      AdminController.bulkUpdateBookings clk db bookingIds action status reason
      = (db1, Respond 200 message (Some counts))
      /\ List.length (bookings db1) = List.length (bookings db)
      /\ availableDates db1 = availableDates db
      /\ forall n b, nth_error (bookings db) n = Some b ->
           exists b', nth_error (bookings db1) n = Some b'
             /\ Booking._id b' = Booking._id b
             /\ slotKey b' = slotKey b
             /\ Booking.bookingReference b' = Booking.bookingReference b
             /\ (In (Booking._id b) bookingIds ->
                   Booking.status b' = s
                   /\ (Js.arrayIncludes s
                         ["pending"; "confirmed"; "cancelled"; "completed"; "no-show"]%string
                       = false -> Booking.validate H b' <> []))
             /\ (~ In (Booking._id b) bookingIds -> b' = b).
Proof.
  intros H clk db bookingIds action status reason s Hne Hact.
  assert (Hu : Booking.newStatus (AdminController.bulkUpdateData clk action status reason)
               = Some s
               /\ negb (Js.truthy action)
                  || negb (Js.arrayIncludes action ["update_status"; "cancel"]%string)
                  = false).
  { unfold AdminController.bulkUpdateData.
    destruct Hact as [[-> ->] | (-> & -> & Ht)].
    - split; reflexivity.
    - cbn [String.eqb Ascii.eqb Bool.eqb andb Js.given]. rewrite Ht.
      destruct (s =? "cancelled")%string; split; reflexivity. }
  destruct Hu as [Hu Hguard].
  unfold AdminController.bulkUpdateBookings, respondWithSuccess.
  destruct bookingIds as [|i rest]; [contradiction|].
  rewrite Hguard.
  eexists. eexists. eexists. split; [reflexivity|].
  cbn [bookings availableDates withBookings].
  unfold Booking.updateMany.
  split; [apply length_map | split; [reflexivity|]].
  intros n b Hn. rewrite nth_error_map, Hn. cbn [option_map].
  eexists. split; [reflexivity|].
  destruct (applyUpdate_fields (AdminController.bulkUpdateData clk action status reason) b)
    as (Aid & Akey & Aref & Ast).
  destruct (existsb (Nat.eqb (Booking._id b)) (i :: rest)) eqn:Hlisted.
  - split; [exact Aid | split; [exact Akey | split; [exact Aref | split]]].
    + intros _. split; [now apply Ast|].
      intros Hbad. apply validate_bad_status. now rewrite (Ast s Hu).
    + intros Hout. exfalso. apply Hout.
      apply existsb_exists in Hlisted as [j [Hj Heq]].
      apply Nat.eqb_eq in Heq. now rewrite Heq.
  - split; [reflexivity | split; [reflexivity | split; [reflexivity | split]]].
    + intros Hin. exfalso.
      rewrite existsb_false in Hlisted. specialize (Hlisted _ Hin).
      now rewrite Nat.eqb_refl in Hlisted.
    + intros _. reflexivity.
Qed.

Lemma X14_bulk_update_writes_status_unvalidated_witness :
  exists db1 message counts,
    AdminController.bulkUpdateBookings Example.clock Example.dbBooked [1%nat]
      "update_status" (Some "archived"%string) None
    = (db1, Respond 200 message (Some counts))
    /\ List.length (bookings db1) = List.length (bookings Example.dbBooked)
    /\ availableDates db1 = availableDates Example.dbBooked
    /\ forall n b, nth_error (bookings Example.dbBooked) n = Some b ->
         exists b', nth_error (bookings db1) n = Some b'
           /\ Booking._id b' = Booking._id b
           /\ slotKey b' = slotKey b
           /\ Booking.bookingReference b' = Booking.bookingReference b
           /\ (In (Booking._id b) [1%nat] ->
                 Booking.status b' = "archived"
                 /\ (Js.arrayIncludes "archived"
                       ["pending"; "confirmed"; "cancelled"; "completed"; "no-show"]%string
                     = false -> Booking.validate Example.host b' <> []))
           /\ (~ In (Booking._id b) [1%nat] -> b' = b).
Proof.
  apply (X14_bulk_update_writes_status_unvalidated Example.host Example.clock
           Example.dbBooked [1%nat] "update_status" (Some "archived"%string) None
           "archived").
  - discriminate.
  - right. repeat split.
Defined.

(* ------------------------------------------------------------------ *)
(** ** The check-in window *)
(* ------------------------------------------------------------------ *)

(** A check that holds on every candidate built from digits holds on every
    string that matches the HH:MM pattern. *)
Lemma pattern_time_check (P : string -> bool) :
  forallb (fun h1 => forallb (fun h2 => forallb (fun m1 => forallb (fun m2 =>
    P (five h1 h2 m1 m2)) digits) digits) digits) digits = true ->
  forallb (fun h => forallb (fun m1 => forallb (fun m2 =>
    P (four h m1 m2)) digits) digits) digits = true ->
  forall s, Patterns.time s = true -> P s = true.
Proof.
  intros Hfive Hfour s Hpat. unfold Patterns.time in Hpat.
  rewrite <- (string_of_list_ascii_of_string s).
  destruct (list_ascii_of_string s) as [|c1 [|c2 [|c3 [|c4 [|c5 [|c6 l]]]]]];
    try discriminate Hpat.
  - apply andb_true_iff in Hpat as [Hpat Hm2].
    apply andb_true_iff in Hpat as [Hpat Hm1].
    apply andb_true_iff in Hpat as [Hh Hc].
    apply isChar_eq in Hc. subst c2.
    apply inRange_isDigit in Hm1; [|lia|lia].
    apply isDigit_digits in Hh, Hm1, Hm2.
    rewrite forallb_forall in Hfour. specialize (Hfour c1 Hh).
    rewrite forallb_forall in Hfour. specialize (Hfour c3 Hm1).
    rewrite forallb_forall in Hfour. exact (Hfour c4 Hm2).
  - apply andb_true_iff in Hpat as [Hpat Hm2].
    apply andb_true_iff in Hpat as [Hpat Hm1].
    apply andb_true_iff in Hpat as [Hh Hc].
    apply isChar_eq in Hc. subst c3.
    apply inRange_isDigit in Hm1; [|lia|lia].
    assert (Hh1 : Js.isDigit c1 = true /\ Js.isDigit c2 = true).
    { apply orb_true_iff in Hh as [Hh|Hh]; apply andb_true_iff in Hh as [Ha Hb].
      - split; [apply (inRange_isDigit 48 49); auto; lia | exact Hb].
      - apply isChar_eq in Ha. subst c1.
        split; [reflexivity | apply (inRange_isDigit 48 51); auto; lia]. }
    destruct Hh1 as [Hd1 Hd2].
    apply isDigit_digits in Hd1, Hd2, Hm1, Hm2.
    rewrite forallb_forall in Hfive. specialize (Hfive c1 Hd1).
    rewrite forallb_forall in Hfive. specialize (Hfive c2 Hd2).
    rewrite forallb_forall in Hfive. specialize (Hfive c4 Hm1).
    rewrite forallb_forall in Hfive. exact (Hfive c5 Hm2).
Qed.

Lemma reduceMinutes_minutesOfDay (s : string) :
  Patterns.time s = true ->
  exists m, BookingController.reduceMinutes s = Some m
            /\ DateUtils.minutesOfDay s = Some m.
Proof.
  intros Hpat.
  assert (Hcheck : readsAgree s = true).
  { apply pattern_time_check; [vm_compute; reflexivity | vm_compute; reflexivity | exact Hpat]. }
  unfold readsAgree in Hcheck. rewrite Hpat in Hcheck. simpl in Hcheck.
  destruct (BookingController.reduceMinutes s) as [a|]; [|discriminate].
  destruct (DateUtils.minutesOfDay s) as [b|]; [|discriminate].
  apply Z.eqb_eq in Hcheck. subst b. now exists a.
Qed.

Lemma validate_setCheckedInAt H b i :
  Booking.validate H b = [] -> Booking.validate H (Booking.setCheckedInAt b i) = [].
Proof. intros Hv. exact Hv. Qed.

(** X15. Check-in is open from 30 minutes before the slot to 30 minutes
    after it, both ends included: for a confirmed, valid booking of the
    clock's day the check-in stores the check-in time when the clock reads
    within 30 minutes of the slot on either side, and is refused with 400,
    changing nothing, when it reads further away. *)
Theorem X15_check_in_window_is_thirty_minutes_either_side :
  forall (H : Host) (clk : Clock) (db : Db) (ref : string) (booking : Booking.t),
    reachable H db ->
    Booking.findOne (Booking.hasReference ref) (bookings db) = Some booking ->
    Booking.validate H booking = [] ->
    Booking.status booking = "confirmed" ->
    Booking.date booking = currentDate clk ->
    Patterns.time (currentTime clk) = true ->
    exists c t : Z,
      DateUtils.minutesOfDay (currentTime clk) = Some c
      /\ DateUtils.minutesOfDay (Booking.timeSlot booking) = Some t
      /\ (t - 30 <= c <= t + 30 ->
            let doc := Booking.setCheckedInAt booking (Some (now clk)) in
            BookingController.checkInBooking H clk db ref
            = (withBookings db (Booking.replaceDoc (bookings db) doc),
               Respond 200 "Checked in successfully" (Some doc)))
      /\ (c < t - 30 \/ t + 30 < c ->
            BookingController.checkInBooking H clk db ref
            = (db, Respond 400 "Can only check in within 30 minutes of booking time" None)).
Proof.
  intros H clk db ref booking Hreach Hf Hv Hst Hdate Hnow.
  destruct (reachable_invariant H db Hreach) as [Hids _].
  destruct (reachable_reference_invariant H db Hreach) as [_ Htruthy].
  pose proof (validate_nil_parts H booking Hv) as (_ & Hts & _).
  apply required_match_pattern in Hts.
  destruct (reduceMinutes_minutesOfDay _ Hnow) as (c & Hrc & Hmc).
  destruct (reduceMinutes_minutesOfDay _ Hts) as (t & Hrt & Hmt).
  exists c, t. split; [exact Hmc | split; [exact Hmt|]].
  unfold Booking.findOne in Hf. destruct (find_some _ _ Hf) as [Hin _].
  unfold BookingController.checkInBooking, DateUtils.getCurrentDate,
    DateUtils.getCurrentTime, Booking.findOne.
  rewrite Hf, Hst, Hdate, !String.eqb_refl, Hrc, Hrt.
  cbn [negb].
  split.
  - intros Hnear.
    replace (Z.abs (c - t) >? 30) with false
      by (symmetry; rewrite Z.gtb_ltb; apply Z.ltb_ge; lia).
    unfold Booking.checkIn.
    rewrite (save_stored_same_keys H clk (bookings db) booking
               (Booking.setCheckedInAt booking (Some (now clk))));
      [ reflexivity | assumption | assumption | reflexivity | reflexivity
      | reflexivity | reflexivity | exact (Htruthy booking Hin)
      | apply validate_setCheckedInAt; exact Hv ].
  - intros Hfar.
    replace (Z.abs (c - t) >? 30) with true; [reflexivity|].
    symmetry. rewrite Z.gtb_ltb. apply Z.ltb_lt. lia.
Qed.

Lemma X15_check_in_window_is_thirty_minutes_either_side_witness :
  exists c t : Z,
    DateUtils.minutesOfDay (currentTime Example.clock) = Some c
    /\ DateUtils.minutesOfDay (Booking.timeSlot Today.booking) = Some t
    /\ (t - 30 <= c <= t + 30 ->
          let doc := Booking.setCheckedInAt Today.booking (Some (now Example.clock)) in
          BookingController.checkInBooking Example.host Example.clock Today.dbBooked
            "SM2025092409001"
          = (withBookings Today.dbBooked
               (Booking.replaceDoc (bookings Today.dbBooked) doc),
             Respond 200 "Checked in successfully" (Some doc)))
    /\ (c < t - 30 \/ t + 30 < c ->
          BookingController.checkInBooking Example.host Example.clock Today.dbBooked
            "SM2025092409001"
          = (Today.dbBooked,
             Respond 400 "Can only check in within 30 minutes of booking time" None)).
Proof.
  apply (X15_check_in_window_is_thirty_minutes_either_side Example.host Example.clock
           Today.dbBooked "SM2025092409001" Today.booking).
  - unfold Today.dbBooked.
    apply reachable_request.
    apply (reachable_availability Example.host (mkDb [] [])
             [AvailableDate.mk 1 "2025-09-24" "09:00" "17:00" 30 true EmptyString None]).
    apply reachable_empty.
  - vm_compute. reflexivity.
  - vm_compute. reflexivity.
  - reflexivity.
  - reflexivity.
  - vm_compute. reflexivity.
Defined.

(* ------------------------------------------------------------------ *)
(** ** The two slot totals *)
(* ------------------------------------------------------------------ *)

(** X16. On a window with parsed bounds, start not after end and a positive
    duration, the calendar's total is the listing's total or one less, and
    one less exactly when the duration does not divide the range; the
    calendar's free-slot figure for a day whose listed slots are all booked
    is then -1. *)
Theorem X16_calendar_total_is_listing_total_or_one_less :
  forall (w : AvailableDate.t) (s e : Z),
    DateUtils.minutesOfDay (AvailableDate.startTime w) = Some s ->
    DateUtils.minutesOfDay (AvailableDate.endTime w) = Some e ->
    0 < AvailableDate.slotDuration w ->
    s <= e ->
    exists c l : Z,
      CustomerController.calendarTotal w = Some c
      /\ CustomerController.slotListingTotal w = Some l
      /\ c <= l <= c + 1
      /\ (l = c + 1 <-> (e - s) mod AvailableDate.slotDuration w <> 0)
      /\ CustomerController.calendarAvailableSlots w l = Some (c - l).
Proof.
  intros w s e Hs He Hd Hle.
  pose proof (calendarTotal_floor w s e Hs He Hd) as Hc.
  pose proof (slotListingTotal_count w s e Hs He Hd) as Hl.
  set (d := AvailableDate.slotDuration w) in *.
  exists ((e - s) / d), (Z.of_nat (slotCount s e d)).
  split; [exact Hc | split; [exact Hl|]].
  unfold CustomerController.calendarAvailableSlots. rewrite Hc. cbn [option_map].
  unfold slotCount.
  pose proof (Z.div_mod (e - s) d ltac:(lia)) as H1.
  pose proof (Z.mod_pos_bound (e - s) d Hd) as B1.
  pose proof (Z.div_mod (e - s + d - 1) d ltac:(lia)) as H2.
  pose proof (Z.mod_pos_bound (e - s + d - 1) d Hd) as B2.
  assert (0 <= (e - s + d - 1) / d) by (apply Z.div_pos; lia).
  rewrite Z2Nat.id by lia.
  assert (Hbound : (e - s) / d <= (e - s + d - 1) / d <= (e - s) / d + 1) by nia.
  split; [exact Hbound | split; [|reflexivity]].
  split; intros Hx.
  - intros Hz. nia.
  - nia.
Qed.

Lemma X16_calendar_total_is_listing_total_or_one_less_witness :
  exists c l : Z,
    CustomerController.calendarTotal Example.window_0900_1015 = Some c
    /\ CustomerController.slotListingTotal Example.window_0900_1015 = Some l
    /\ c <= l <= c + 1
    /\ (l = c + 1
        <-> (615 - 540) mod AvailableDate.slotDuration Example.window_0900_1015 <> 0)
    /\ CustomerController.calendarAvailableSlots Example.window_0900_1015 l
       = Some (c - l).
Proof.
  apply (X16_calendar_total_is_listing_total_or_one_less Example.window_0900_1015
           540 615).
  - reflexivity.
  - reflexivity.
  - reflexivity.
  - lia.
Defined.

(* ------------------------------------------------------------------ *)
(** ** Booking statistics *)
(* ------------------------------------------------------------------ *)

Lemma statuses_partition (l : list Booking.t) :
  (Booking.countStatus "confirmed" l + Booking.countStatus "pending" l
   + Booking.countStatus "cancelled" l + Booking.countStatus "completed" l
   + Booking.countStatus "no-show" l
   + List.length
       (filter (fun b => negb (Js.arrayIncludes (Booking.status b)
                  ["pending"; "confirmed"; "cancelled"; "completed"; "no-show"]%string)) l)
   = List.length l)%nat.
Proof.
  unfold Booking.countStatus, Js.arrayIncludes. cbn [existsb].
  induction l as [|b l IH]; [reflexivity|].
  cbn [filter].
  destruct (String.eqb_spec (Booking.status b) "confirmed") as [E|E1];
    [rewrite ?E; cbn; lia|].
  destruct (String.eqb_spec (Booking.status b) "pending") as [E|E2];
    [rewrite ?E; cbn; lia|].
  destruct (String.eqb_spec (Booking.status b) "cancelled") as [E|E3];
    [rewrite ?E; cbn; lia|].
  destruct (String.eqb_spec (Booking.status b) "completed") as [E|E4];
    [rewrite ?E; cbn; lia|].
  destruct (String.eqb_spec (Booking.status b) "no-show") as [E|E5];
    [rewrite ?E; cbn; lia|].
  apply String.eqb_neq in E1, E2, E3, E4, E5.
  rewrite ?E1, ?E2, ?E3, ?E4, ?E5. cbn. lia.
Qed.

(** X17. In the statistics of a date range the five per-status counts never
    add up to more than the total, the total counts the bookings whose date
    lies in the range, and the five counts add up to the total exactly when
    every booking in the range carries one of the five statuses. *)
Theorem X17_getStats_counts_partition_the_total :
  forall (startDate endDate : option string) (coll : list Booking.t),
    let stats := Booking.getStats startDate endDate coll in
    let counted := (Booking.confirmedBookings stats + Booking.pendingBookings stats
                    + Booking.cancelledBookings stats + Booking.completedBookings stats
                    + Booking.noShowBookings stats)%nat in
    (counted <= Booking.totalBookings stats)%nat
    /\ Booking.totalBookings stats
       = List.length (filter (Booking.matchDateRange startDate endDate) coll)
    /\ (counted = Booking.totalBookings stats
        <-> forall b, In b coll ->
              Booking.matchDateRange startDate endDate b = true ->
              Js.arrayIncludes (Booking.status b)
                ["pending"; "confirmed"; "cancelled"; "completed"; "no-show"]%string
              = true).
Proof.
  intros startDate endDate coll. cbv zeta.
  unfold Booking.getStats.
  cbn [Booking.totalBookings Booking.confirmedBookings Booking.pendingBookings
       Booking.cancelledBookings Booking.completedBookings Booking.noShowBookings].
  set (matched := filter (Booking.matchDateRange startDate endDate) coll).
  pose proof (statuses_partition matched) as Hp.
  set (others := filter _ matched) in Hp.
  split; [lia | split; [reflexivity|]].
  split.
  - intros Heq b Hb Hm.
    assert (Hnone : others = []) by (destruct others; [reflexivity | simpl in Hp; lia]).
    destruct (Js.arrayIncludes (Booking.status b) _) eqn:Hinc; [reflexivity|].
    assert (Hin : In b others).
    { subst others. apply filter_In. split.
      - subst matched. apply filter_In. now split.
      - now rewrite Hinc. }
    rewrite Hnone in Hin. contradiction.
  - intros Hall.
    assert (Hnone : others = []).
    { subst others. apply filter_all_false. intros b Hb.
      subst matched. apply filter_In in Hb as [Hb Hm].
      now rewrite (Hall b Hb Hm). }
    rewrite Hnone in Hp. simpl in Hp. lia.
Qed.

(* ------------------------------------------------------------------ *)
(** ** The administrator's windows *)
(* ------------------------------------------------------------------ *)

Lemma NoDup_snoc {A} (l : list A) (x : A) :
  NoDup l -> ~ In x l -> NoDup (l ++ [x]).
Proof.
  intros Hnd Hx. apply NoDup_app; [assumption | repeat constructor; intros [] |].
  intros y Hy [<-|[]]. contradiction.
Qed.

Lemma NoDup_map_filter {A B} (f : A -> B) (q : A -> bool) (l : list A) :
  NoDup (map f l) -> NoDup (map f (filter q l)).
Proof.
  induction l as [|x l IH]; simpl; intros Hnd; [constructor|].
  inversion Hnd as [|? ? Hx Hnd']; subst.
  destruct (q x); simpl; [|now apply IH].
  constructor; [|now apply IH].
  intros Hin. apply Hx. apply in_map_iff in Hin as [y [Hy Hyin]].
  apply filter_In in Hyin as [Hyin _]. rewrite <- Hy. now apply in_map.
Qed.

Lemma window_save_invariant coll d coll' doc :
  WindowInvariant coll ->
  ~ In (AvailableDate._id d) (map AvailableDate._id coll) ->
  AvailableDate.save coll d = Stored coll' doc ->
  WindowInvariant coll'.
Proof.
  intros (Hids & Hdates & Hvalid) Hfresh Hs.
  pose proof (save_validated _ _ _ _ Hs) as Hok.
  unfold AvailableDate.save in Hs.
  destruct Hok as [Hv Hp]. rewrite Hv, Hp in Hs.
  destruct (existsb _ coll) eqn:Hex; [discriminate|].
  injection Hs as <- <-.
  rewrite existsb_false in Hex.
  split; [|split].
  - rewrite map_app. now apply NoDup_snoc.
  - rewrite map_app. apply NoDup_snoc; [assumption|].
    intros Hin. apply in_map_iff in Hin as [x [Hx Hxin]].
    specialize (Hex x Hxin). apply String.eqb_neq in Hex. contradiction.
  - intros x Hx. apply in_app_or in Hx as [Hx|[<-|[]]]; [now apply Hvalid | now split].
Qed.

Lemma window_findById_Some id coll w :
  AvailableDate.findById id coll = Some w -> In w coll /\ AvailableDate._id w = id.
Proof.
  intros Hf. apply find_some in Hf as [Hin Hid]. apply Nat.eqb_eq in Hid. now split.
Qed.

Lemma window_replaceDoc_keys coll stored d :
  NoDup (map AvailableDate._id coll) ->
  In stored coll ->
  AvailableDate._id d = AvailableDate._id stored ->
  AvailableDate.date d = AvailableDate.date stored ->
  map AvailableDate._id (AvailableDate.replaceDoc coll d) = map AvailableDate._id coll
  /\ map AvailableDate.date (AvailableDate.replaceDoc coll d) = map AvailableDate.date coll.
Proof.
  intros Hnd Hin Hid Hdate. unfold AvailableDate.replaceDoc. rewrite !map_map.
  split; apply map_ext_in; intros x Hx;
    destruct (Nat.eqb_spec (AvailableDate._id x) (AvailableDate._id d)) as [Heq|];
    try reflexivity.
  - now symmetry.
  - assert (x = stored)
      by (apply (NoDup_map_injective_on AvailableDate._id coll); auto; congruence).
    congruence.
Qed.

Lemma window_saveStored_invariant coll stored d coll' doc :
  WindowInvariant coll ->
  In stored coll ->
  AvailableDate._id d = AvailableDate._id stored ->
  AvailableDate.date d = AvailableDate.date stored ->
  AvailableDate.saveStored coll d = Stored coll' doc ->
  WindowInvariant coll' /\ coll' = AvailableDate.replaceDoc coll d /\ doc = d.
Proof.
  intros (Hids & Hdates & Hvalid) Hin Hid Hdate Hs.
  pose proof (saveStored_validated _ _ _ _ Hs) as Hok.
  unfold AvailableDate.saveStored in Hs.
  destruct Hok as [Hv Hp]. rewrite Hv, Hp in Hs.
  destruct (_ && _); [discriminate|].
  injection Hs as <- <-.
  destruct (window_replaceDoc_keys coll stored d Hids Hin Hid Hdate) as [Ei Ed].
  split; [|now split].
  split; [now rewrite Ei | split; [now rewrite Ed|]].
  intros x Hx. unfold AvailableDate.replaceDoc in Hx.
  apply in_map_iff in Hx as [y [Hy Hyin]].
  destruct (Nat.eqb (AvailableDate._id y) (AvailableDate._id d)); subst; auto.
Qed.

Lemma bulkLoop_invariant createdBy dates :
  forall coll results,
    WindowInvariant coll ->
    WindowInvariant (fst (AdminController.bulkLoop createdBy dates coll results)).
Proof.
  induction dates as [|dc rest IH]; intros coll results Hinv; [exact Hinv|].
  cbn [AdminController.bulkLoop].
  destruct (AvailableDate.save coll _) as [coll' doc|e] eqn:Hs.
  - apply IH. eapply window_save_invariant; [exact Hinv | | exact Hs].
    apply freshId_fresh.
  - now apply IH.
Qed.

(** X18. The four handlers that write windows keep the collection in order:
    identifiers stay distinct, no date gets a second window, every stored
    window is one the validators and the pre-save hook accept, and the
    bookings are not touched. *)
Theorem X18_window_handlers_keep_one_valid_window_per_date :
  forall (H : Host) (db : Db),
    WindowInvariant (availableDates db) ->
    (forall user dateConfig,
        let db1 := fst (AdminController.createAvailableDate H db user dateConfig) in
        WindowInvariant (availableDates db1) /\ bookings db1 = bookings db)
    /\ (forall id patch,
          let db1 := fst (AdminController.updateAvailableDate H db id patch) in
          WindowInvariant (availableDates db1) /\ bookings db1 = bookings db)
    /\ (forall id,
          let db1 := fst (AdminController.deleteAvailableDate db id) in
          WindowInvariant (availableDates db1) /\ bookings db1 = bookings db)
    /\ (forall user dates,
          let db1 := fst (AdminController.createBulkAvailableDates db user dates) in
          WindowInvariant (availableDates db1) /\ bookings db1 = bookings db).
Proof.
  intros H db Hinv. split; [|split; [|split]]; cbv zeta.
  - intros user dc. unfold AdminController.createAvailableDate.
    destruct (find _ (availableDates db)); [now split|].
    destruct (AvailableDate.save _ _) as [coll doc|e] eqn:Hs; [|now split].
    cbn [fst availableDates bookings withAvailableDates]. split; [|reflexivity].
    eapply window_save_invariant; [exact Hinv | | exact Hs]. apply freshId_fresh.
  - intros id p. unfold AdminController.updateAvailableDate.
    destruct (AvailableDate.findById id (availableDates db)) as [w|] eqn:Hf; [|now split].
    destruct (_ && _); [now split|].
    destruct (AvailableDate.saveStored _ _) as [coll doc|e] eqn:Hs; [|now split].
    cbn [fst availableDates bookings withAvailableDates]. split; [|reflexivity].
    apply window_findById_Some in Hf as [Hin _].
    exact (proj1 (window_saveStored_invariant _ w (AdminController.applyPatch p w) _ _
                    Hinv Hin eq_refl eq_refl Hs)).
  - intros id. unfold AdminController.deleteAvailableDate.
    destruct (AvailableDate.findById id (availableDates db)); [|now split].
    destruct (0 <? _)%nat; [now split|].
    cbn [fst availableDates bookings withAvailableDates]. split; [|reflexivity].
    destruct Hinv as (Hids & Hdates & Hvalid). unfold AvailableDate.deleteById.
    split; [now apply NoDup_map_filter | split; [now apply NoDup_map_filter|]].
    intros d Hd. apply filter_In in Hd as [Hd _]. auto.
  - intros user dates. unfold AdminController.createBulkAvailableDates.
    destruct (filter _ (availableDates db)); [|now split].
    pose proof (bulkLoop_invariant user dates (availableDates db)
                  (AdminController.mkResults [] []) Hinv) as Hloop.
    destruct (AdminController.bulkLoop user dates (availableDates db) _) as [coll results].
    cbn [fst availableDates bookings withAvailableDates]. now split.
Qed.

Lemma X18_window_handlers_keep_one_valid_window_per_date_witness :
  (forall user dateConfig,
      let db1 := fst (AdminController.createAvailableDate Example.host Example.db0
                        user dateConfig) in
      WindowInvariant (availableDates db1) /\ bookings db1 = bookings Example.db0)
  /\ (forall id patch,
        let db1 := fst (AdminController.updateAvailableDate Example.host Example.db0
                          id patch) in
        WindowInvariant (availableDates db1) /\ bookings db1 = bookings Example.db0)
  /\ (forall id,
        let db1 := fst (AdminController.deleteAvailableDate Example.db0 id) in
        WindowInvariant (availableDates db1) /\ bookings db1 = bookings Example.db0)
  /\ (forall user dates,
        let db1 := fst (AdminController.createBulkAvailableDates Example.db0 user dates) in
        WindowInvariant (availableDates db1) /\ bookings db1 = bookings Example.db0).
Proof.
  apply (X18_window_handlers_keep_one_valid_window_per_date Example.host Example.db0).
  split; [|split].
  - repeat constructor. intros [].
  - repeat constructor. intros [].
  - intros d [<-|[]]. split; vm_compute; reflexivity.
Defined.

Lemma liveBookingsOn_zero db date :
  AdminController.liveBookingsOn db date = 0%nat
  <-> forall b, In b (bookings db) -> Booking.date b = date ->
        Booking.status b = "cancelled".
Proof.
  unfold AdminController.liveBookingsOn. rewrite length_zero_iff_nil. split.
  - intros Hnil b Hb Hd.
    destruct (Booking.status b =? "cancelled")%string eqn:Hc;
      [now apply String.eqb_eq|].
    assert (Hin : In b (filter (fun b => (Booking.date b =? date)%string
                                         && Booking.notCancelled b) (bookings db))).
    { apply filter_In. split; [exact Hb|].
      unfold Booking.notCancelled, Js.arrayIncludes. cbn [existsb].
      rewrite Hd, String.eqb_refl, Hc. reflexivity. }
    rewrite Hnil in Hin. contradiction.
  - intros Hall. apply filter_all_false. intros b Hb.
    destruct (String.eqb_spec (Booking.date b) date) as [Hd|]; [|reflexivity].
    unfold Booking.notCancelled, Js.arrayIncludes. cbn [existsb].
    rewrite (Hall b Hb Hd). reflexivity.
Qed.

Lemma filter_all_true {A} (q : A -> bool) (l : list A) :
  (forall x, In x l -> q x = true) -> filter q l = l.
Proof.
  induction l as [|a l IH]; simpl; intros Hall; [reflexivity|].
  rewrite (Hall a (or_introl eq_refl)). f_equal. apply IH. auto.
Qed.

Lemma deleteById_length coll w :
  NoDup (map AvailableDate._id coll) -> In w coll ->
  S (List.length (AvailableDate.deleteById (AvailableDate._id w) coll))
  = List.length coll.
Proof.
  unfold AvailableDate.deleteById.
  induction coll as [|x l IH]; simpl; intros Hnd Hin; [contradiction|].
  inversion Hnd as [|? ? Hx Hnd']; subst.
  destruct Hin as [->|Hin].
  - rewrite Nat.eqb_refl. cbn [negb]. f_equal.
    rewrite filter_all_true; [reflexivity|].
    intros y Hy. apply negb_true_iff, Nat.eqb_neq. intros Heq.
    apply Hx. rewrite <- Heq. now apply in_map.
  - destruct (Nat.eqb_spec (AvailableDate._id x) (AvailableDate._id w)) as [Heq|Hne].
    + exfalso. apply Hx. rewrite Heq. now apply in_map.
    + cbn [negb]. simpl. f_equal. now apply IH.
Qed.

(** X20. A window is deleted exactly when no live booking is on its date:
    it is then gone from the collection, which loses that one document, the
    date has no active window left, and the bookings, the cancelled ones of
    that date included, stay; with a live booking on the date the request
    is refused with 400 and changes nothing. *)
Theorem X20_window_is_deleted_only_without_live_bookings :
  forall (db : Db) (id : nat) (w : AvailableDate.t),
    WindowInvariant (availableDates db) ->
    AvailableDate.findById id (availableDates db) = Some w ->
    ((0 < AdminController.liveBookingsOn db (AvailableDate.date w))%nat ->
       AdminController.deleteAvailableDate db id
       = (db, Respond 400
                "Cannot delete date with existing bookings. Cancel bookings first." None))
    /\ (AdminController.liveBookingsOn db (AvailableDate.date w) = 0%nat ->
        let coll := AvailableDate.deleteById id (availableDates db) in
        AdminController.deleteAvailableDate db id
        = (withAvailableDates db coll,
           Respond 200 "Available date deleted successfully" None)
        /\ AvailableDate.findById id coll = None
        /\ S (List.length coll) = List.length (availableDates db)
        /\ (forall x, In x (availableDates db) -> x <> w -> In x coll)
        /\ BookingController.findActiveDate (withAvailableDates db coll)
             (AvailableDate.date w) = None).
Proof.
  intros db id w (Hids & Hdates & Hvalid) Hf.
  destruct (window_findById_Some _ _ _ Hf) as [Hin Hid].
  unfold AdminController.deleteAvailableDate. rewrite Hf.
  split.
  - intros Hlive. apply Nat.ltb_lt in Hlive. now rewrite Hlive.
  - intros Hzero. rewrite Hzero. cbn [Nat.ltb Nat.leb]. cbv zeta.
    assert (Hother : forall x, In x (availableDates db) -> x <> w ->
                       AvailableDate._id x <> id).
    { intros x Hx Hne Heq. apply Hne.
      apply (NoDup_map_injective_on AvailableDate._id (availableDates db)); auto.
      congruence. }
    split; [reflexivity | split; [|split; [|split]]].
    + unfold AvailableDate.findById, AvailableDate.deleteById.
      apply find_all_false. intros x Hx. apply filter_In in Hx as [_ Hx].
      now apply negb_true_iff in Hx.
    + rewrite <- Hid. now apply deleteById_length.
    + intros x Hx Hne. unfold AvailableDate.deleteById. apply filter_In.
      split; [exact Hx|]. apply negb_true_iff, Nat.eqb_neq. now apply Hother.
    + unfold BookingController.findActiveDate. cbn [availableDates withAvailableDates].
      apply find_all_false. intros x Hx.
      unfold AvailableDate.deleteById in Hx. apply filter_In in Hx as [Hx Hidx].
      apply negb_true_iff, Nat.eqb_neq in Hidx.
      destruct (String.eqb_spec (AvailableDate.date x) (AvailableDate.date w)) as [Hd|];
        [|reflexivity].
      exfalso. apply Hidx.
      assert (x = w)
        by (apply (NoDup_map_injective_on AvailableDate.date (availableDates db)); auto).
      congruence.
Qed.

Lemma X20_window_is_deleted_only_without_live_bookings_witness :
  ((0 < AdminController.liveBookingsOn Example.dbCancelled
          (AvailableDate.date Example.window_0900_1700))%nat ->
     AdminController.deleteAvailableDate Example.dbCancelled 1
     = (Example.dbCancelled,
        Respond 400
          "Cannot delete date with existing bookings. Cancel bookings first." None))
  /\ (AdminController.liveBookingsOn Example.dbCancelled
        (AvailableDate.date Example.window_0900_1700) = 0%nat ->
      let coll := AvailableDate.deleteById 1 (availableDates Example.dbCancelled) in
      AdminController.deleteAvailableDate Example.dbCancelled 1
      = (withAvailableDates Example.dbCancelled coll,
         Respond 200 "Available date deleted successfully" None)
      /\ AvailableDate.findById 1 coll = None
      /\ S (List.length coll) = List.length (availableDates Example.dbCancelled)
      /\ (forall x, In x (availableDates Example.dbCancelled) ->
            x <> Example.window_0900_1700 -> In x coll)
      /\ BookingController.findActiveDate (withAvailableDates Example.dbCancelled coll)
           (AvailableDate.date Example.window_0900_1700) = None).
Proof.
  apply (X20_window_is_deleted_only_without_live_bookings Example.dbCancelled 1
           Example.window_0900_1700).
  - split; [|split].
    + repeat constructor. intros [].
    + repeat constructor. intros [].
    + intros d [<-|[]]. split; vm_compute; reflexivity.
  - vm_compute. reflexivity.
Defined.

(* ------------------------------------------------------------------ *)
(** ** What the customer is offered *)
(* ------------------------------------------------------------------ *)

Lemma arrayIncludes_In x a : Js.arrayIncludes x a = true <-> In x a.
Proof.
  unfold Js.arrayIncludes. rewrite existsb_exists. split.
  - intros [y [Hy Heq]]. apply String.eqb_eq in Heq. now subst.
  - intros Hin. exists x. split; [exact Hin | apply String.eqb_refl].
Qed.

Lemma notCancelled_status b :
  Booking.notCancelled b = true <-> Booking.status b <> "cancelled".
Proof.
  unfold Booking.notCancelled, Js.arrayIncludes. cbn [existsb].
  rewrite orb_false_r, negb_true_iff. apply String.eqb_neq.
Qed.

Lemma bookedTimes_In db date ts :
  In ts (CustomerController.bookedTimes db date)
  <-> exists b, In b (bookings db) /\ Booking.date b = date
                /\ Booking.timeSlot b = ts /\ Booking.status b <> "cancelled".
Proof.
  unfold CustomerController.bookedTimes. rewrite in_map_iff. split.
  - intros [b [Hts Hb]]. apply filter_In in Hb as [Hb Hq].
    apply andb_true_iff in Hq as [Hd Hn].
    apply String.eqb_eq in Hd. apply notCancelled_status in Hn. now exists b.
  - intros [b (Hb & Hd & Hts & Hn)]. exists b. split; [exact Hts|].
    apply filter_In. split; [exact Hb|].
    apply andb_true_iff. split; [now apply String.eqb_eq | now apply notCancelled_status].
Qed.

Lemma not_booked_no_live_booking db date ts :
  Js.arrayIncludes ts (CustomerController.bookedTimes db date) = false ->
  BookingController.findLiveBooking db date ts = None.
Proof.
  intros Hfree. unfold BookingController.findLiveBooking, Booking.findOne.
  apply find_all_false. intros b Hb.
  destruct (Booking.atSlot date ts b && Booking.notCancelled b) eqn:Hq; [|reflexivity].
  apply andb_true_iff in Hq as [Hat Hn]. unfold Booking.atSlot in Hat.
  apply andb_true_iff in Hat as [Hd Hts].
  apply String.eqb_eq in Hd, Hts. apply notCancelled_status in Hn.
  assert (Hin : Js.arrayIncludes ts (CustomerController.bookedTimes db date) = true).
  { apply arrayIncludes_In, bookedTimes_In. now exists b. }
  congruence.
Qed.

(** X21. What [getAvailableSlots] lists: every listed slot is a grid time of
    the date's active window and is not past; it is marked booked exactly
    when a booking that is not cancelled holds it; and a slot listed as
    available passes every check [createBooking] makes before the save, so
    that a request for it with a valid customer goes on to the save. *)
Theorem X21_listed_slots_agree_with_the_booking_checks :
  forall (isValidDateFormat : string -> bool) (H : Host) (clk : Clock) (db : Db)
         (date message : string) (payload : CustomerController.SlotsResponse),
    CustomerController.getAvailableSlots isValidDateFormat clk db date
    = Respond 200 message (Some payload) ->
    exists (w : AvailableDate.t) (allSlots : list string),
      BookingController.findActiveDate db date = Some w
      /\ AvailableDate.generateTimeSlots w = Some allSlots
      /\ CustomerController.totalSlots payload = List.length allSlots
      /\ CustomerController.bookedSlots payload = AdminController.liveBookingsOn db date
      /\ (CustomerController.availableSlots payload
          <= List.length (CustomerController.slots payload)
          <= CustomerController.totalSlots payload)%nat
      /\ forall slot, In slot (CustomerController.slots payload) ->
           In (CustomerController.time slot) allSlots
           /\ CustomerController.isPast slot = false
           /\ CustomerController.available slot = negb (CustomerController.isBooked slot)
           /\ (CustomerController.isBooked slot = true
               <-> exists b, In b (bookings db) /\ Booking.date b = date
                             /\ Booking.timeSlot b = CustomerController.time slot
                             /\ Booking.status b <> "cancelled")
           /\ (CustomerController.available slot = true ->
               forall customer validCustomer user,
                 validateCustomer H customer = Some validCustomer ->
                 BookingController.createBooking H clk db date
                   (CustomerController.time slot) customer user
                 = BookingController.saveAndReply H clk db
                     (Booking.create (freshId (map Booking._id (bookings db)))
                        date (CustomerController.time slot) validCustomer
                        "confirmed" "online" "not-required" user)
                     (fun doc => respondWithCreated doc "Booking created successfully")).
Proof.
  intros isValidDateFormat H clk db date message payload.
  unfold CustomerController.getAvailableSlots, respondWithError, respondWithSuccess.
  destruct (negb (isValidDateFormat date)); [discriminate|].
  destruct (DateUtils.isPastDate clk date) eqn:Hpast; [discriminate|].
  destruct (negb (DateUtils.isWithinBookingLimit clk date)) eqn:Hlimit; [discriminate|].
  destruct (BookingController.findActiveDate db date) as [w|] eqn:Hw; [|discriminate].
  destruct (AvailableDate.generateTimeSlots w) as [allSlots|] eqn:Hgen; [|discriminate].
  intros Hreply. injection Hreply as _ <-.
  exists w, allSlots.
  cbn [CustomerController.totalSlots CustomerController.bookedSlots
       CustomerController.availableSlots CustomerController.slots].
  split; [first [reflexivity | exact Hw]|].
  split; [first [reflexivity | exact Hgen]|].
  split; [reflexivity|].
  split.
  { unfold CustomerController.bookedTimes, AdminController.liveBookingsOn.
    apply length_map. }
  split.
  { split; [apply filter_length_le|].
    etransitivity; [apply filter_length_le|]. now rewrite length_map. }
  intros slot Hslot.
  apply filter_In in Hslot as [Hslot Hkept].
  apply in_map_iff in Hslot as [ts [<- Hts]].
  cbn [CustomerController.time CustomerController.available CustomerController.isBooked
       CustomerController.isPast] in *.
  assert (Hnotpast : DateUtils.isPastTimeSlot clk date ts = false).
  { unfold DateUtils.isPastTimeSlot in *.
    destruct (DateUtils.isToday clk date); cbn [negb] in *.
    - now apply negb_true_iff in Hkept.
    - exact Hpast. }
  split; [exact Hts|]. split.
  { destruct (DateUtils.isToday clk date); [exact Hnotpast | reflexivity]. }
  split; [reflexivity|]. split.
  { rewrite arrayIncludes_In. apply bookedTimes_In. }
  intros Havailable customer validCustomer user Hcustomer.
  apply negb_true_iff in Havailable.
  unfold BookingController.createBooking.
  rewrite Hcustomer, Hpast, Hnotpast, Hlimit, Hw.
  unfold AvailableDate.isValidTimeSlot. rewrite Hgen. cbn [option_map].
  rewrite (proj2 (arrayIncludes_In ts allSlots) Hts).
  now rewrite (not_booked_no_live_booking db date ts Havailable).
Qed.

Lemma X21_listed_slots_agree_with_the_booking_checks_witness :
  exists (message : string) (payload : CustomerController.SlotsResponse),
    CustomerController.getAvailableSlots Patterns.date Example.clock Example.dbBooked
      "2025-09-25"
    = Respond 200 message (Some payload)
    /\ exists (w : AvailableDate.t) (allSlots : list string),
      BookingController.findActiveDate Example.dbBooked "2025-09-25" = Some w
      /\ AvailableDate.generateTimeSlots w = Some allSlots
      /\ CustomerController.totalSlots payload = List.length allSlots
      /\ CustomerController.bookedSlots payload
         = AdminController.liveBookingsOn Example.dbBooked "2025-09-25"
      /\ (CustomerController.availableSlots payload
          <= List.length (CustomerController.slots payload)
          <= CustomerController.totalSlots payload)%nat
      /\ forall slot, In slot (CustomerController.slots payload) ->
           In (CustomerController.time slot) allSlots
           /\ CustomerController.isPast slot = false
           /\ CustomerController.available slot = negb (CustomerController.isBooked slot)
           /\ (CustomerController.isBooked slot = true
               <-> exists b, In b (bookings Example.dbBooked)
                             /\ Booking.date b = "2025-09-25"
                             /\ Booking.timeSlot b = CustomerController.time slot
                             /\ Booking.status b <> "cancelled")
           /\ (CustomerController.available slot = true ->
               forall customer validCustomer user,
                 validateCustomer Example.host customer = Some validCustomer ->
                 BookingController.createBooking Example.host Example.clock
                   Example.dbBooked "2025-09-25"
                   (CustomerController.time slot) customer user
                 = BookingController.saveAndReply Example.host Example.clock
                     Example.dbBooked
                     (Booking.create
                        (freshId (map Booking._id (bookings Example.dbBooked)))
                        "2025-09-25" (CustomerController.time slot) validCustomer
                        "confirmed" "online" "not-required" user)
                     (fun doc => respondWithCreated doc "Booking created successfully")).
Proof.
  eexists. eexists.
  refine ((fun Hrun => conj Hrun
             (X21_listed_slots_agree_with_the_booking_checks Patterns.date Example.host
                Example.clock Example.dbBooked "2025-09-25" _ _ Hrun)) _).
  vm_compute. reflexivity.
Defined.

(* ------------------------------------------------------------------ *)
(** ** The next available slots *)
(* ------------------------------------------------------------------ *)

Lemma insertBy_In {A} (le : A -> A -> bool) (x y : A) (l : list A) :
  In y (Mongo.insertBy le x l) -> y = x \/ In y l.
Proof.
  induction l as [|a l IH]; simpl.
  - intros [<-|[]]. now left.
  - destruct (le x a); simpl.
    + intros [<-|Hin]; [now left | now right].
    + intros [<-|Hin]; [right; now left|].
      destruct (IH Hin) as [->|Hl]; [now left | right; now right].
Qed.

Lemma sortBy_In {A} (le : A -> A -> bool) (y : A) (l : list A) :
  In y (Mongo.sortBy le l) -> In y l.
Proof.
  induction l as [|a l IH]; simpl; [auto|].
  intros Hin. apply insertBy_In in Hin as [->|Hin]; [now left | right; auto].
Qed.

Section NextSlots.

Variables (clk : Clock) (db : Db) (maxSlots : option Z).

Let bounded (nextSlots : list (string * string)) : Prop :=
  forall n, maxSlots = Some n -> Z.of_nat (List.length nextSlots) <= Z.max 0 n.

Lemma collectSlots_spec date booked timeSlots :
  forall acc res,
    CustomerController.collectSlots clk maxSlots date booked timeSlots acc
    = CustomerController.Collected res ->
    (bounded acc -> bounded res)
    /\ forall p, In p res ->
         In p acc
         \/ (fst p = date /\ In (snd p) timeSlots
             /\ Js.arrayIncludes (snd p) booked = false
             /\ DateUtils.isPastTimeSlot clk date (snd p) = false).
Proof.
  induction timeSlots as [|ts rest IH]; intros acc res; cbn [CustomerController.collectSlots].
  - intros Hc. injection Hc as <-. split; auto.
  - destruct (CustomerController.reachedCount maxSlots acc) eqn:Hreached.
    { intros Hc. injection Hc as <-. split; auto. }
    destruct (Js.arrayIncludes ts booked) eqn:Hbooked.
    { intros Hc. destruct (IH _ _ Hc) as [Hb Hin]. split; [exact Hb|].
      intros p Hp. destruct (Hin p Hp) as [Ha|(Hd & Hr & Hrest)]; [now left|].
      right. split; [exact Hd | split; [now right | exact Hrest]]. }
    destruct (DateUtils.isPastTimeSlot clk date ts) eqn:Hpast.
    { intros Hc. destruct (IH _ _ Hc) as [Hb Hin]. split; [exact Hb|].
      intros p Hp. destruct (Hin p Hp) as [Ha|(Hd & Hr & Hrest)]; [now left|].
      right. split; [exact Hd | split; [now right | exact Hrest]]. }
    destruct (localDateTime clk date ts); [|discriminate].
    intros Hc. destruct (IH _ _ Hc) as [Hb Hin]. split.
    + intros Hacc. apply Hb. intros n Hn.
      unfold CustomerController.reachedCount in Hreached. rewrite Hn in Hreached.
      rewrite length_app. cbn [List.length].
      rewrite Z.geb_leb in Hreached. apply Z.leb_gt in Hreached. lia.
    + intros p Hp. destruct (Hin p Hp) as [Ha|(Hd & Hr & Hrest)].
      * apply in_app_or in Ha as [Ha|[<-|[]]]; [now left|].
        right. cbn [fst snd]. split; [reflexivity | split; [now left | now split]].
      * right. split; [exact Hd | split; [now right | exact Hrest]].
Qed.

Lemma collectDates_spec windows :
  forall acc res,
    CustomerController.collectDates clk db maxSlots windows acc
    = Some (CustomerController.Collected res) ->
    (bounded acc -> bounded res)
    /\ forall p, In p res ->
         In p acc
         \/ exists w slots,
              In w windows
              /\ AvailableDate.generateTimeSlots w = Some slots
              /\ fst p = AvailableDate.date w
              /\ In (snd p) slots
              /\ Js.arrayIncludes (snd p)
                   (CustomerController.bookedTimes db (AvailableDate.date w)) = false
              /\ DateUtils.isPastTimeSlot clk (AvailableDate.date w) (snd p) = false.
Proof.
  induction windows as [|w rest IH]; intros acc res; cbn [CustomerController.collectDates].
  - intros Hc. injection Hc as <-. split; auto.
  - destruct (CustomerController.reachedCount maxSlots acc).
    { intros Hc. injection Hc as <-. split; auto. }
    destruct (AvailableDate.generateTimeSlots w) as [slots|] eqn:Hgen; [|discriminate].
    destruct (CustomerController.collectSlots clk maxSlots _ _ slots acc)
      as [mid|e] eqn:Hslots; [|discriminate].
    intros Hc. destruct (IH _ _ Hc) as [Hb Hin].
    destruct (collectSlots_spec _ _ _ _ _ Hslots) as [Hb' Hin'].
    split; [auto|].
    intros p Hp. destruct (Hin p Hp) as [Hmid|(w' & slots' & Hw' & Hrest)].
    + destruct (Hin' p Hmid) as [Ha|(Hd & Hs & Hfree & Hnp)]; [now left|].
      right. exists w, slots. rewrite Hd in *.
      split; [now left | split; [exact Hgen | split; [reflexivity|]]].
      now split.
    + right. exists w', slots'. split; [now right | exact Hrest].
Qed.

End NextSlots.

(** X22. What [getNextAvailableSlots] proposes: never more slots than the
    requested count, and each of them is a grid time of a stored active
    window whose date lies in the search range, is held by no booking that
    is not cancelled, and is not past. *)
Theorem X22_next_slots_are_free_future_grid_slots :
  forall (H : Host) (clk : Clock) (db : Db) (maxSlots : option Z)
         (fromDate : option string) (message : string)
         (nextSlots : list (string * string)) (startDate endDate : string),
    CustomerController.getNextAvailableSlots H clk db maxSlots fromDate
    = Respond 200 message (Some (nextSlots, (startDate, endDate))) ->
    (forall n, maxSlots = Some n -> Z.of_nat (List.length nextSlots) <= Z.max 0 n)
    /\ forall date timeSlot, In (date, timeSlot) nextSlots ->
         exists w : AvailableDate.t,
           In w (availableDates db)
           /\ AvailableDate.date w = date
           /\ AvailableDate.isActive w = true
           /\ Js.le startDate date = true
           /\ Js.le date endDate = true
           /\ AvailableDate.isValidTimeSlot w timeSlot = Some true
           /\ BookingController.findLiveBooking db date timeSlot = None
           /\ DateUtils.isPastTimeSlot clk date timeSlot = false.
Proof.
  intros H clk db maxSlots fromDate message nextSlots startDate endDate.
  unfold CustomerController.getNextAvailableSlots, respondWithSuccess.
  destruct (CustomerController.collectDates clk db maxSlots _ []) as [[res|e]|] eqn:Hc;
    [| intros Hr; now apply errorHandler_not_ok in Hr | discriminate].
  intros Hr. injection Hr as _ <- <- <-.
  destruct (collectDates_spec clk db maxSlots _ _ _ Hc) as [Hb Hin].
  split.
  - apply Hb. intros n _. simpl. lia.
  - intros date timeSlot Hp.
    destruct (Hin _ Hp) as [[]|(w & slots & Hw & Hgen & Hd & Hs & Hfree & Hnp)].
    cbn [fst snd] in *. subst date.
    unfold CustomerController.windowsInRange in Hw.
    apply sortBy_In, filter_In in Hw as [Hw Hq].
    apply andb_true_iff in Hq as [Hq Hactive].
    apply andb_true_iff in Hq as [Hfrom Hto].
    exists w. split; [exact Hw | split; [reflexivity | split; [exact Hactive|]]].
    split; [exact Hfrom | split; [exact Hto|]].
    split; [| split; [now apply not_booked_no_live_booking | exact Hnp]].
    unfold AvailableDate.isValidTimeSlot. rewrite Hgen. cbn [option_map].
    now rewrite (proj2 (arrayIncludes_In timeSlot slots) Hs).
Qed.

Lemma X22_next_slots_are_free_future_grid_slots_witness :
  exists (message : string) (nextSlots : list (string * string))
         (startDate endDate : string),
    CustomerController.getNextAvailableSlots Example.host Example.clock Example.dbBooked
      (Some 3) None
    = Respond 200 message (Some (nextSlots, (startDate, endDate)))
    /\ (forall n, Some 3 = Some n -> Z.of_nat (List.length nextSlots) <= Z.max 0 n)
    /\ forall date timeSlot, In (date, timeSlot) nextSlots ->
         exists w : AvailableDate.t,
           In w (availableDates Example.dbBooked)
           /\ AvailableDate.date w = date
           /\ AvailableDate.isActive w = true
           /\ Js.le startDate date = true
           /\ Js.le date endDate = true
           /\ AvailableDate.isValidTimeSlot w timeSlot = Some true
           /\ BookingController.findLiveBooking Example.dbBooked date timeSlot = None
           /\ DateUtils.isPastTimeSlot Example.clock date timeSlot = false.
Proof.
  eexists. eexists. eexists. eexists.
  refine ((fun Hrun => conj Hrun
             (X22_next_slots_are_free_future_grid_slots Example.host Example.clock
                Example.dbBooked (Some 3) None _ _ _ _ Hrun)) _).
  vm_compute. reflexivity.
Defined.

(* ------------------------------------------------------------------ *)
(** ** Rescheduling and updating a stored booking *)
(* ------------------------------------------------------------------ *)

Lemma appendRescheduleNote_status b oldDate oldTimeSlot reason :
  Booking.status (BookingController.appendRescheduleNote b oldDate oldTimeSlot reason)
  = Booking.status b.
Proof.
  unfold BookingController.appendRescheduleNote.
  destruct reason as [r|]; [destruct (Js.truthy r)|]; reflexivity.
Qed.

(** X23. A reschedule that is answered with 200 moves the booking and
    nothing else: the stored document keeps its identifier, reference and
    status and sits at the new slot, it is still found by its reference,
    and when the new slot differs from the old one no stored booking holds
    the old slot any more. *)
Theorem X23_reschedule_moves_the_booking_and_frees_its_slot :
  forall (H : Host) (clk : Clock) (db db1 : Db) (ref newDate newTimeSlot : string)
         (reason : option string) (message : string) (data : option Booking.t),
    reachable H db ->
    BookingController.rescheduleBooking H clk db ref newDate newTimeSlot reason
    = (db1, Respond 200 message data) ->
    exists booking doc : Booking.t,
      Booking.findOne (Booking.hasReference ref) (bookings db) = Some booking
      /\ data = Some doc
      /\ db1 = withBookings db (Booking.replaceDoc (bookings db) doc)
      /\ Booking._id doc = Booking._id booking
      /\ Booking.bookingReference doc = ref
      /\ Booking.status doc = Booking.status booking
      /\ slotKey doc = (newDate, newTimeSlot)
      /\ BookingController.getBookingByReference db1 ref
         = Respond 200 "Booking retrieved successfully" (Some doc)
      /\ (slotKey booking <> (newDate, newTimeSlot) ->
          forall x, In x (bookings db1) -> slotKey x <> slotKey booking).
Proof.
  intros H clk db db1 ref newDate newTimeSlot reason message data Hreach.
  destruct (reachable_invariant H db Hreach) as [Hids Hkeys].
  destruct (reachable_reference_invariant H db Hreach) as [_ Htruthy].
  unfold BookingController.rescheduleBooking, BookingController.saveAndReply,
    respondWithError, respondWithUpdated.
  destruct (Booking.findOne (Booking.hasReference ref) (bookings db))
    as [booking|] eqn:Hf; [|discriminate].
  repeat match goal with
         | |- (if ?c then _ else _) = _ -> _ => destruct c; [discriminate|]
         end.
  destruct (BookingController.findActiveDate db newDate); [|discriminate].
  destruct (AvailableDate.isValidTimeSlot _ newTimeSlot) as [[|]|]; try discriminate.
  match goal with
  | |- match ?x with _ => _ end = _ -> _ => destruct x; [discriminate|]
  end.
  set (noted := BookingController.appendRescheduleNote _ _ _ reason).
  destruct (Booking.save H clk (bookings db) noted) as [coll doc|e] eqn:Hs.
  2: { intros Hr. injection Hr as _ Hr. now apply errorHandler_not_ok in Hr. }
  intros Hr. injection Hr as <- _ <-.
  unfold Booking.findOne in Hf. destruct (find_some _ _ Hf) as [Hin Href].
  unfold Booking.hasReference in Href. apply String.eqb_eq in Href.
  destruct (appendRescheduleNote_fields
              (Booking.setSlot booking newDate newTimeSlot)
              (Booking.date booking) (Booking.timeSlot booking) reason)
    as (Nid & Nd & Nt & Nr).
  fold noted in Nid, Nd, Nt, Nr. cbn [Booking._id Booking.date Booking.timeSlot
    Booking.bookingReference Booking.setSlot] in Nid, Nd, Nt, Nr.
  apply (save_stored_result H clk _ booking) in Hs as [-> ->];
    [| exact Hin | exact Nid | rewrite Nr; now apply Htruthy].
  exists booking, noted.
  split; [reflexivity | split; [reflexivity | split; [reflexivity|]]].
  split; [exact Nid | split; [congruence|]].
  split; [exact (appendRescheduleNote_status
                   (Booking.setSlot booking newDate newTimeSlot) _ _ reason)|].
  split; [unfold slotKey; now rewrite Nd, Nt|].
  split.
  - unfold BookingController.getBookingByReference, Booking.findOne.
    cbn [bookings withBookings].
    rewrite (find_replaceDoc _ _ booking); auto.
    unfold Booking.hasReference. rewrite Nr, Href. apply String.eqb_refl.
  - intros Hmoved x Hx Hkey. cbn [bookings withBookings] in Hx.
    unfold Booking.replaceDoc in Hx. apply in_map_iff in Hx as [y [Hy Hyin]].
    unfold Booking.hasId in Hy.
    destruct (Nat.eqb_spec (Booking._id y) (Booking._id noted)) as [Heq|Hne].
    + subst x. apply Hmoved. rewrite <- Hkey. unfold slotKey. now rewrite Nd, Nt.
    + subst x. apply Hne. rewrite Nid. f_equal.
      now apply (NoDup_map_injective_on slotKey (bookings db)).
Qed.

Lemma X23_reschedule_moves_the_booking_and_frees_its_slot_witness :
  exists (db1 : Db) (message : string) (data : option Booking.t),
    BookingController.rescheduleBooking Example.host Example.clock Example.dbBooked
      "SM2025092410001" "2025-09-25" "11:00" None
    = (db1, Respond 200 message data)
    /\ exists booking doc : Booking.t,
      Booking.findOne (Booking.hasReference "SM2025092410001")
        (bookings Example.dbBooked) = Some booking
      /\ data = Some doc
      /\ db1 = withBookings Example.dbBooked
                 (Booking.replaceDoc (bookings Example.dbBooked) doc)
      /\ Booking._id doc = Booking._id booking
      /\ Booking.bookingReference doc = "SM2025092410001"
      /\ Booking.status doc = Booking.status booking
      /\ slotKey doc = ("2025-09-25", "11:00")
      /\ BookingController.getBookingByReference db1 "SM2025092410001"
         = Respond 200 "Booking retrieved successfully" (Some doc)
      /\ (slotKey booking <> ("2025-09-25", "11:00") ->
          forall x, In x (bookings db1) -> slotKey x <> slotKey booking).
Proof.
  eexists. eexists. eexists.
  refine ((fun Hrun => conj Hrun
             (X23_reschedule_moves_the_booking_and_frees_its_slot Example.host
                Example.clock Example.dbBooked _ "SM2025092410001" "2025-09-25" "11:00"
                None _ _ _ Hrun)) _).
  - unfold Example.dbBooked.
    apply reachable_request.
    apply (reachable_availability Example.host (mkDb [] []) [Example.window_0900_1700]).
    apply reachable_empty.
  - vm_compute. reflexivity.
Defined.

(** X24. An update that is answered with 200 changes the customer record of
    the booking and nothing else: date, time slot, status, reference and
    every other field of the stored document are those it had, and the
    booking was neither cancelled nor completed nor past. *)
Theorem X24_update_changes_only_the_customer :
  forall (H : Host) (clk : Clock) (db db1 : Db) (ref : string)
         (customer : option Customer.t) (notes : option string)
         (message : string) (data : option Booking.t),
    reachable H db ->
    BookingController.updateBooking H clk db ref customer notes
    = (db1, Respond 200 message data) ->
    exists booking doc : Booking.t,
      Booking.findOne (Booking.hasReference ref) (bookings db) = Some booking
      /\ data = Some doc
      /\ db1 = withBookings db (Booking.replaceDoc (bookings db) doc)
      /\ doc = Booking.setCustomer booking (Booking.customer doc)
      /\ Booking.status booking <> "cancelled"
      /\ Booking.status booking <> "completed"
      /\ DateUtils.isPastTimeSlot clk (Booking.date booking) (Booking.timeSlot booking)
         = false
      /\ map slotKey (bookings db1) = map slotKey (bookings db).
Proof.
  intros H clk db db1 ref customer notes message data Hreach.
  destruct (reachable_invariant H db Hreach) as [Hids Hkeys].
  destruct (reachable_reference_invariant H db Hreach) as [_ Htruthy].
  unfold BookingController.updateBooking, BookingController.saveAndReply,
    respondWithError, respondWithUpdated.
  destruct (Booking.findOne (Booking.hasReference ref) (bookings db))
    as [booking|] eqn:Hf; [|discriminate].
  destruct (Booking.status booking =? "cancelled")%string eqn:Hc; [discriminate|].
  destruct (Booking.status booking =? "completed")%string eqn:Hd; [discriminate|].
  destruct (DateUtils.isPastTimeSlot clk _ _) eqn:Hp; [discriminate|].
  apply String.eqb_neq in Hc, Hd.
  unfold Booking.findOne in Hf. destruct (find_some _ _ Hf) as [Hin _].
  assert (Hsaved : forall b coll doc,
             b = Booking.setCustomer booking (Booking.customer b) ->
             Booking.save H clk (bookings db) b = Stored coll doc ->
             coll = Booking.replaceDoc (bookings db) doc
             /\ doc = Booking.setCustomer booking (Booking.customer doc)
             /\ map slotKey coll = map slotKey (bookings db)).
  { intros b coll doc Hb Hs.
    apply (save_stored_result H clk _ booking) in Hs as [-> ->];
      [| exact Hin | now rewrite Hb | rewrite Hb; exact (Htruthy booking Hin)].
    split; [reflexivity | split; [exact Hb|]].
    apply (replaceDoc_keys_same _ _ booking); auto.
    - assert (Hidb : Booking._id b = Booking._id booking)
        by (rewrite Hb; reflexivity).
      rewrite Hidb. now apply findById_stored.
    - now rewrite Hb. }
  assert (Hself : booking = Booking.setCustomer booking (Booking.customer booking))
    by now destruct booking.
  destruct customer as [c|]; [destruct (validateCustomer H c)|];
    try discriminate;
    (destruct notes as [n|]; [destruct (validateNotes H n)|]; try discriminate);
    match goal with
    | |- match Booking.save H clk (bookings db) ?b with _ => _ end = _ -> _ =>
        destruct (Booking.save H clk (bookings db) b) as [coll doc|e] eqn:Hs;
        [ intros Hr; injection Hr as <- _ <-;
          apply Hsaved in Hs as (-> & Hdoc & Hmap); [|reflexivity || exact Hself];
          exists booking, doc; cbn [bookings withBookings]; repeat split; auto
        | intros Hr; injection Hr as _ Hr; now apply errorHandler_not_ok in Hr ]
    end.
Qed.

Lemma X24_update_changes_only_the_customer_witness :
  exists (db1 : Db) (message : string) (data : option Booking.t),
    BookingController.updateBooking Example.host Example.clock Example.dbBooked
      "SM2025092410001" (Some Example.otherCustomer) None
    = (db1, Respond 200 message data)
    /\ exists booking doc : Booking.t,
      Booking.findOne (Booking.hasReference "SM2025092410001")
        (bookings Example.dbBooked) = Some booking
      /\ data = Some doc
      /\ db1 = withBookings Example.dbBooked
                 (Booking.replaceDoc (bookings Example.dbBooked) doc)
      /\ doc = Booking.setCustomer booking (Booking.customer doc)
      /\ Booking.status booking <> "cancelled"
      /\ Booking.status booking <> "completed"
      /\ DateUtils.isPastTimeSlot Example.clock (Booking.date booking)
           (Booking.timeSlot booking) = false
      /\ map slotKey (bookings db1) = map slotKey (bookings Example.dbBooked).
Proof.
  eexists. eexists. eexists.
  refine ((fun Hrun => conj Hrun
             (X24_update_changes_only_the_customer Example.host Example.clock
                Example.dbBooked _ "SM2025092410001" (Some Example.otherCustomer) None
                _ _ _ Hrun)) _).
  - unfold Example.dbBooked.
    apply reachable_request.
    apply (reachable_availability Example.host (mkDb [] []) [Example.window_0900_1700]).
    apply reachable_empty.
  - vm_compute. reflexivity.
Defined.

(* ------------------------------------------------------------------ *)
(** ** Checks offered before a booking is submitted *)
(* ------------------------------------------------------------------ *)

(** X25. The availability check and [createBooking] agree up to the booking
    limit, which the check does not look at.  When the check answers that a
    slot is available, a creation request for it with a valid customer goes
    on to the save if the date is within the booking limit and is refused
    with 400 if it is beyond; when the check answers that the slot is not
    available, every creation request for it is refused with 400 or 409 and
    changes nothing. *)
Theorem X25_slot_check_agrees_with_createBooking_up_to_the_limit :
  forall (isValidDateFormat : string -> bool) (H : Host) (clk : Clock) (db : Db)
         (date timeSlot message : string) (payload : CustomerController.Availability),
    CustomerController.checkSlotAvailability isValidDateFormat clk db
      (Some date) (Some timeSlot)
    = Respond 200 message (Some payload) ->
    (CustomerController.slotAvailable payload = true ->
       CustomerController.reason payload = None
       /\ forall customer validCustomer user,
            validateCustomer H customer = Some validCustomer ->
            BookingController.createBooking H clk db date timeSlot customer user
            = if DateUtils.isWithinBookingLimit clk date
              then BookingController.saveAndReply H clk db
                     (Booking.create (freshId (map Booking._id (bookings db)))
                        date timeSlot validCustomer
                        "confirmed" "online" "not-required" user)
                     (fun doc => respondWithCreated doc "Booking created successfully")
              else (db, Respond 400
                          "Date is beyond the maximum advance booking period" None))
    /\ (CustomerController.slotAvailable payload = false ->
        CustomerController.reason payload <> None
        /\ forall customer user,
             exists code text,
               BookingController.createBooking H clk db date timeSlot customer user
               = (db, Respond code text None)
               /\ (code = 400 \/ code = 409)).
Proof.
  intros isValidDateFormat H clk db date timeSlot message payload.
  unfold CustomerController.checkSlotAvailability, respondWithError, respondWithSuccess.
  destruct (negb (Js.truthy date) || negb (Js.truthy timeSlot)); [discriminate|].
  destruct (negb (isValidDateFormat date)); [discriminate|].
  destruct (negb (Patterns.time timeSlot)); [discriminate|].
  assert (Hrefused : forall customer user text,
             (forall validCustomer, validateCustomer H customer = Some validCustomer ->
                BookingController.createBooking H clk db date timeSlot customer user
                = (db, Respond 400 text None)
                \/ BookingController.createBooking H clk db date timeSlot customer user
                   = (db, Respond 400
                            "Date is beyond the maximum advance booking period" None)
                \/ BookingController.createBooking H clk db date timeSlot customer user
                   = (db, Respond 409 text None)) ->
             exists code text',
               BookingController.createBooking H clk db date timeSlot customer user
               = (db, Respond code text' None)
               /\ (code = 400 \/ code = 409)).
  { intros customer user text Hvalid.
    destruct (validateCustomer H customer) as [vc|] eqn:Hvc.
    - destruct (Hvalid vc eq_refl) as [Hr|[Hr|Hr]]; rewrite Hr; eauto.
    - unfold BookingController.createBooking, respondWithError. rewrite Hvc. eauto. }
  destruct (DateUtils.isPastDate clk date) eqn:Hpast.
  { intros Hr. injection Hr as _ <-. cbn. split; [discriminate|].
    intros _. split; [discriminate|]. intros customer user.
    apply (Hrefused customer user "Cannot book dates in the past").
    intros vc Hvc. left.
    unfold BookingController.createBooking, respondWithError. now rewrite Hvc, Hpast. }
  destruct (DateUtils.isPastTimeSlot clk date timeSlot) eqn:Hslot.
  { intros Hr. injection Hr as _ <-. cbn. split; [discriminate|].
    intros _. split; [discriminate|]. intros customer user.
    apply (Hrefused customer user "Cannot book past time slots").
    intros vc Hvc. left.
    unfold BookingController.createBooking, respondWithError.
    now rewrite Hvc, Hpast, Hslot. }
  destruct (BookingController.findActiveDate db date) as [w|] eqn:Hw.
  2: { intros Hr. injection Hr as _ <-. cbn. split; [discriminate|].
       intros _. split; [discriminate|]. intros customer user.
       apply (Hrefused customer user "Selected date is not available for booking").
       intros vc Hvc.
       unfold BookingController.createBooking, respondWithError.
       rewrite Hvc, Hpast, Hslot, Hw.
       destruct (DateUtils.isWithinBookingLimit clk date); cbn [negb]; auto. }
  destruct (AvailableDate.isValidTimeSlot w timeSlot) as [[|]|] eqn:Hvalid;
    [| |discriminate].
  2: { intros Hr. injection Hr as _ <-. cbn. split; [discriminate|].
       intros _. split; [discriminate|]. intros customer user.
       apply (Hrefused customer user "Invalid time slot for the selected date").
       intros vc Hvc.
       unfold BookingController.createBooking, respondWithError.
       rewrite Hvc, Hpast, Hslot, Hw, Hvalid.
       destruct (DateUtils.isWithinBookingLimit clk date); cbn [negb]; auto. }
  destruct (BookingController.findLiveBooking db date timeSlot) as [b|] eqn:Hlive.
  - intros Hr. injection Hr as _ <-. cbn. split; [discriminate|].
    intros _. split; [discriminate|]. intros customer user.
    apply (Hrefused customer user "This time slot is already booked").
    intros vc Hvc.
    unfold BookingController.createBooking, respondWithError.
    rewrite Hvc, Hpast, Hslot, Hw, Hvalid, Hlive.
    destruct (DateUtils.isWithinBookingLimit clk date); cbn [negb]; auto.
  - intros Hr. injection Hr as _ <-. cbn. split; [|discriminate].
    intros _. split; [reflexivity|]. intros customer vc user Hvc.
    unfold BookingController.createBooking, respondWithError.
    rewrite Hvc, Hpast, Hslot, Hw, Hvalid, Hlive.
    now destruct (DateUtils.isWithinBookingLimit clk date).
Qed.

Lemma X25_slot_check_agrees_with_createBooking_up_to_the_limit_witness :
  exists (message : string) (payload : CustomerController.Availability),
    CustomerController.checkSlotAvailability Patterns.date Example.clock Example.dbBooked
      (Some "2025-09-25"%string) (Some "11:00"%string)
    = Respond 200 message (Some payload)
    /\ (CustomerController.slotAvailable payload = true ->
        CustomerController.reason payload = None
        /\ forall customer validCustomer user,
             validateCustomer Example.host customer = Some validCustomer ->
             BookingController.createBooking Example.host Example.clock Example.dbBooked
               "2025-09-25" "11:00" customer user
             = if DateUtils.isWithinBookingLimit Example.clock "2025-09-25"
               then BookingController.saveAndReply Example.host Example.clock
                      Example.dbBooked
                      (Booking.create
                         (freshId (map Booking._id (bookings Example.dbBooked)))
                         "2025-09-25" "11:00" validCustomer
                         "confirmed" "online" "not-required" user)
                      (fun doc => respondWithCreated doc "Booking created successfully")
               else (Example.dbBooked,
                     Respond 400
                       "Date is beyond the maximum advance booking period" None))
    /\ (CustomerController.slotAvailable payload = false ->
        CustomerController.reason payload <> None
        /\ forall customer user,
             exists code text,
               BookingController.createBooking Example.host Example.clock
                 Example.dbBooked "2025-09-25" "11:00" customer user
               = (Example.dbBooked, Respond code text None)
               /\ (code = 400 \/ code = 409)).
Proof.
  eexists. eexists.
  refine ((fun Hrun => conj Hrun
             (X25_slot_check_agrees_with_createBooking_up_to_the_limit Patterns.date
                Example.host Example.clock Example.dbBooked "2025-09-25" "11:00"
                _ _ Hrun)) _).
  vm_compute. reflexivity.
Defined.

Ltac refused_with_errors :=
  cbn [negb app]; intros Hr; injection Hr as _ <- <-;
  split; [split; intros; discriminate | intros; discriminate].

(** X26. Validation before submission is sound for [createBooking]: the
    flag [isValid] is true exactly when no error is reported, and booking
    data with a customer that [validateBookingData] finds valid passes every
    check [createBooking] makes before the save. *)
Theorem X26_validated_booking_data_passes_createBooking :
  forall (isValidDateFormat : string -> bool)
         (customerErrors : Customer.t -> (string * string) * list (string * string))
         (H : Host) (clk : Clock) (db : Db) (date timeSlot : string)
         (customer : option Customer.t) (message : string)
         (isValid : bool) (errors : list (string * string)),
    BookingController.validateBookingData isValidDateFormat customerErrors H clk db
      date timeSlot customer
    = Respond 200 message (Some (isValid, errors)) ->
    (isValid = true <-> errors = [])
    /\ (isValid = true ->
        forall c, customer = Some c ->
          exists validCustomer,
            validateCustomer H c = Some validCustomer
            /\ forall user,
                 BookingController.createBooking H clk db date timeSlot c user
                 = BookingController.saveAndReply H clk db
                     (Booking.create (freshId (map Booking._id (bookings db)))
                        date timeSlot validCustomer
                        "confirmed" "online" "not-required" user)
                     (fun doc => respondWithCreated doc "Booking created successfully")).
Proof.
  intros isValidDateFormat customerErrors H clk db date timeSlot customer message
    isValid errors.
  unfold BookingController.validateBookingData, respondWithSuccess.
  destruct (negb (isValidDateFormat date)); [refused_with_errors|].
  destruct (DateUtils.isPastDate clk date) eqn:Hpast; [refused_with_errors|].
  destruct (negb (DateUtils.isWithinBookingLimit clk date)) eqn:Hlimit;
    [refused_with_errors|].
  destruct (negb (Patterns.time timeSlot)); [refused_with_errors|].
  destruct (DateUtils.isPastTimeSlot clk date timeSlot) eqn:Hslot;
    [refused_with_errors|].
  cbn [app].
  assert (Hcustomer :
            match customer with
            | Some c => match validateCustomer H c with
                        | Some _ => []
                        | None => let '(e, es) := customerErrors c in e :: es
                        end
            | None => []
            end = [] ->
            forall c, customer = Some c -> exists vc, validateCustomer H c = Some vc).
  { intros Hnil c ->. destruct (validateCustomer H c) as [vc|]; [now exists vc|].
    destruct (customerErrors c). discriminate. }
  destruct (match customer with Some _ => _ | None => _ end) eqn:Hc;
    [|refused_with_errors].
  specialize (Hcustomer eq_refl).
  destruct (BookingController.findActiveDate db date) as [w|] eqn:Hw;
    [|refused_with_errors].
  destruct (AvailableDate.isValidTimeSlot w timeSlot) as [[|]|] eqn:Hvalid;
    [|refused_with_errors|discriminate].
  destruct (BookingController.findLiveBooking db date timeSlot) eqn:Hlive;
    [refused_with_errors|].
  cbn [negb app]. intros Hr. injection Hr as _ <- <-.
  split; [split; reflexivity|].
  intros _ c Hsome.
  destruct (Hcustomer c Hsome) as [vc Hvc]. exists vc. split; [exact Hvc|].
  intros user. unfold BookingController.createBooking.
  now rewrite Hvc, Hpast, Hslot, Hlimit, Hw, Hvalid, Hlive.
Qed.

Lemma X26_validated_booking_data_passes_createBooking_witness :
  exists (message : string) (isValid : bool) (errors : list (string * string)),
    BookingController.validateBookingData Patterns.date
      (fun _ => (("name", "Name is required")%string, [])) Example.host Example.clock
      Example.dbBooked "2025-09-25" "11:00" (Some Example.customer)
    = Respond 200 message (Some (isValid, errors))
    /\ (isValid = true <-> errors = [])
    /\ (isValid = true ->
        forall c, Some Example.customer = Some c ->
          exists validCustomer,
            validateCustomer Example.host c = Some validCustomer
            /\ forall user,
                 BookingController.createBooking Example.host Example.clock
                   Example.dbBooked "2025-09-25" "11:00" c user
                 = BookingController.saveAndReply Example.host Example.clock
                     Example.dbBooked
                     (Booking.create
                        (freshId (map Booking._id (bookings Example.dbBooked)))
                        "2025-09-25" "11:00" validCustomer
                        "confirmed" "online" "not-required" user)
                     (fun doc => respondWithCreated doc "Booking created successfully")).
Proof.
  eexists. eexists. eexists.
  refine ((fun Hrun => conj Hrun
             (X26_validated_booking_data_passes_createBooking Patterns.date
                (fun _ => (("name", "Name is required")%string, [])) Example.host
                Example.clock Example.dbBooked "2025-09-25" "11:00"
                (Some Example.customer) _ _ _ Hrun)) _).
  vm_compute. reflexivity.
Defined.

(* ------------------------------------------------------------------ *)
(** ** Bookings entered at the desk *)
(* ------------------------------------------------------------------ *)

(** X27. A booking that [createSimpleBooking] answers with 201 is stored as
    a confirmed booking of source admin with no creator, at the requested
    date and time, which match the date and time patterns and are not past;
    it is found by its reference afterwards, and the reference is the
    clock's stem followed by a counter between 1 and 999. *)
Theorem X27_simple_booking_is_stored_as_an_admin_booking :
  forall (H : Host) (clk : Clock) (db db1 : Db) (username email phone : string)
         (notes : option string) (date time message : string) (doc : Booking.t),
    BookingController.createSimpleBooking H clk db username email phone notes date time
    = (db1, Respond 201 message (Some doc)) ->
    Booking.source doc = "admin"
    /\ Booking.status doc = "confirmed"
    /\ Booking.createdBy doc = None
    /\ Booking.date doc = date
    /\ Booking.timeSlot doc = time
    /\ Patterns.date date = true
    /\ Patterns.time time = true
    /\ DateUtils.isPastTimeSlot clk date time = false
    /\ BookingController.getBookingByReference db1 (Booking.bookingReference doc)
       = Respond 200 "Booking retrieved successfully" (Some doc)
    /\ (exists n : Z, 1 <= n <= 999
          /\ Booking.bookingReference doc
             = (Booking.referenceStem clk ++ Js.toString n)%string).
Proof.
  intros H clk db db1 username email phone notes date time message doc.
  unfold BookingController.createSimpleBooking, BookingController.saveAndReply,
    respondWithError, respondWithCreated.
  destruct (_ || _); [discriminate|].
  destruct (validateEmail H email) as [validEmail|]; [|discriminate].
  destruct (validatePhone H phone) as [validPhone|]; [|discriminate].
  destruct (negb (Patterns.date date)) eqn:Hdate; [discriminate|].
  destruct (negb (Patterns.time time)) eqn:Htime; [discriminate|].
  destruct (DateUtils.isPastDate clk date); [discriminate|].
  destruct (DateUtils.isPastTimeSlot clk date time) eqn:Hslot; [discriminate|].
  destruct (negb (DateUtils.isWithinBookingLimit clk date)); [discriminate|].
  destruct (BookingController.findActiveDate db date); [|discriminate].
  destruct (AvailableDate.isValidTimeSlot _ time) as [[|]|]; try discriminate.
  destruct (BookingController.findLiveBooking db date time); [discriminate|].
  apply negb_false_iff in Hdate, Htime.
  match goal with
  | |- match Booking.save H clk (bookings db) ?b with _ => _ end = _ -> _ =>
      destruct (Booking.save H clk (bookings db) b) as [coll doc'|e] eqn:Hs
  end.
  2: { intros Hr. injection Hr as _ Hr. now apply errorHandler_not_created in Hr. }
  intros Hr. injection Hr as <- _ ->.
  apply save_new_reference in Hs as (Hdoc & -> & Hfree);
    [| apply freshId_fresh | reflexivity].
  unfold referenceInUse in Hfree. rewrite existsb_false in Hfree.
  rewrite Hdoc at 1 2 3 4 5.
  cbn [Booking.source Booking.status Booking.createdBy Booking.date Booking.timeSlot
       Booking.setBookingReference Booking.create].
  repeat (split; [reflexivity || assumption|]).
  split.
  - unfold BookingController.getBookingByReference, Booking.findOne.
    cbn [bookings withBookings].
    rewrite find_app_last;
      [reflexivity | exact Hfree | unfold Booking.hasReference; apply String.eqb_refl].
  - rewrite Hdoc. cbn [Booking.bookingReference Booking.setBookingReference].
    apply generateBookingReference_shape.
Qed.

Lemma X27_simple_booking_is_stored_as_an_admin_booking_witness :
  exists (db1 : Db) (message : string) (doc : Booking.t),
    BookingController.createSimpleBooking Example.host Example.clock Example.db0
      " Ada " "ada@example.org" "15551234567" None "2025-09-25" "10:00"
    = (db1, Respond 201 message (Some doc))
    /\ Booking.source doc = "admin"
    /\ Booking.status doc = "confirmed"
    /\ Booking.createdBy doc = None
    /\ Booking.date doc = "2025-09-25"
    /\ Booking.timeSlot doc = "10:00"
    /\ Patterns.date "2025-09-25" = true
    /\ Patterns.time "10:00" = true
    /\ DateUtils.isPastTimeSlot Example.clock "2025-09-25" "10:00" = false
    /\ BookingController.getBookingByReference db1 (Booking.bookingReference doc)
       = Respond 200 "Booking retrieved successfully" (Some doc)
    /\ (exists n : Z, 1 <= n <= 999
          /\ Booking.bookingReference doc
             = (Booking.referenceStem Example.clock ++ Js.toString n)%string).
Proof.
  eexists. eexists. eexists.
  refine ((fun Hrun => conj Hrun
             (X27_simple_booking_is_stored_as_an_admin_booking Example.host
                Example.clock Example.db0 _ " Ada " "ada@example.org" "15551234567"
                None "2025-09-25" "10:00" _ _ Hrun)) _).
  vm_compute. reflexivity.
Defined.

(* ================================================================== *)
(** * The slot grid, time by time *)
(* ================================================================== *)

Lemma printsHhmm_day : forallb printsHhmm (seq 0 1440) = true.
Proof. vm_compute. reflexivity. Qed.

(** Within the day the template of the slot loop prints HH:MM. *)
Lemma timeString_hhmm (m : Z) :
  0 <= m < 1440 -> DateUtils.timeString m = hhmm m.
Proof.
  intros Hm. pose proof printsHhmm_day as Hall.
  rewrite forallb_forall in Hall.
  specialize (Hall (Z.to_nat m)).
  assert (Hin : In (Z.to_nat m) (seq 0 1440)) by (apply in_seq; lia).
  specialize (Hall Hin). unfold printsHhmm in Hall.
  rewrite Z2Nat.id in Hall by lia. now apply String.eqb_eq.
Qed.

Lemma nth_error_map_seq {A} (f : nat -> A) (n : nat) :
  forall a k, (k < n)%nat -> nth_error (map f (seq a n)) k = Some (f (a + k)%nat).
Proof.
  induction n as [|n IH]; intros a k Hk; [lia|].
  destruct k as [|k]; simpl.
  - now rewrite Nat.add_0_r.
  - rewrite IH by lia. f_equal. f_equal. lia.
Qed.

(** C5. For times that parse to [s] and [e] minutes, an end within the day
    and a positive duration [d] (in particular every [d] in [15,120]),
    [generateTimeSlots] returns a list whose positions are exactly the [k]
    with [s + k*d] strictly below [e]; its [k]-th entry is the time of day
    HH:MM of minute [s + k*d], written with two digits each, which parses
    back to that minute; the entries ascend; and a range with [e <= s] gives
    the empty list.  The instance method of [AvailableDate] returns the
    same list.  In particular the range 09:00 to 10:15 at 30 minutes gives
    09:00, 09:30, 10:00, and a range of length zero gives no slot. *)
Theorem C5_generateTimeSlots_grid :
  forall (startTime endTime : string) (s e d : Z),
    DateUtils.minutesOfDay startTime = Some s ->
    DateUtils.minutesOfDay endTime = Some e ->
    e <= 1440 ->
    0 < d ->
    exists slots : list string,
      DateUtils.generateTimeSlots startTime endTime d = Some slots
      /\ (forall k : nat, (k < List.length slots)%nat <-> s + Z.of_nat k * d < e)
      /\ (forall k : nat, (k < List.length slots)%nat ->
            nth_error slots k = Some (hhmm (s + Z.of_nat k * d))
            /\ DateUtils.minutesOfDay (hhmm (s + Z.of_nat k * d))
               = Some (s + Z.of_nat k * d))
      /\ (forall (i j : nat) (ti tj : string),
            (i < j)%nat ->
            nth_error slots i = Some ti -> nth_error slots j = Some tj ->
            exists mi mj : Z,
              DateUtils.minutesOfDay ti = Some mi
              /\ DateUtils.minutesOfDay tj = Some mj
              /\ mi < mj)
      /\ (e <= s -> slots = [])
      /\ (forall id date active notes by_,
            AvailableDate.generateTimeSlots
              (AvailableDate.mk id date startTime endTime d active notes by_)
            = Some slots)
      /\ DateUtils.generateTimeSlots "09:00" "10:15" 30
         = Some ["09:00"; "09:30"; "10:00"]%string
      /\ (forall (t : string) (d' : Z), DateUtils.generateTimeSlots t t d' = Some []).
Proof.
  intros startTime endTime s e d Hs He Hday Hd.
  pose proof (minutesOfDay_nonneg _ _ Hs) as Hs0.
  set (n := slotCount s e d).
  assert (Hgen : DateUtils.generateTimeSlots startTime endTime d
                 = Some (map (fun k => DateUtils.timeString (s + Z.of_nat k * d))
                             (seq 0 n))).
  { unfold DateUtils.generateTimeSlots. rewrite Hs, He. apply slotLoop_grid; lia. }
  assert (Hlen : List.length (map (fun k => DateUtils.timeString (s + Z.of_nat k * d))
                                  (seq 0 n)) = n)
    by now rewrite length_map, length_seq.
  assert (Hentry : forall k : nat, (k < n)%nat ->
            nth_error (map (fun k => DateUtils.timeString (s + Z.of_nat k * d)) (seq 0 n)) k
            = Some (hhmm (s + Z.of_nat k * d))
            /\ DateUtils.minutesOfDay (hhmm (s + Z.of_nat k * d))
               = Some (s + Z.of_nat k * d)).
  { intros k Hk.
    assert (Hbelow : s + Z.of_nat k * d < e) by now apply (slotCount_spec s e d Hd k).
    assert (Hrange : 0 <= s + Z.of_nat k * d < 1440) by nia.
    rewrite nth_error_map_seq by exact Hk. cbn [Nat.add].
    rewrite <- (timeString_hhmm _ Hrange).
    split; [reflexivity | now apply timeString_parses]. }
  eexists. split; [exact Hgen|]. rewrite Hlen.
  split; [intros k; now apply slotCount_spec|].
  split; [exact Hentry|].
  split.
  { intros i j ti tj Hij Hi Hj.
    assert (Hjn : (j < n)%nat).
    { rewrite <- Hlen. apply nth_error_Some. now rewrite Hj. }
    destruct (Hentry i ltac:(lia)) as [Hi' Hpi].
    destruct (Hentry j Hjn) as [Hj' Hpj].
    rewrite Hi' in Hi. rewrite Hj' in Hj.
    injection Hi as <-. injection Hj as <-.
    eexists. eexists. split; [exact Hpi | split; [exact Hpj | nia]]. }
  split.
  { intros Hempty. subst n. now rewrite slotCount_empty by lia. }
  split.
  { intros id date active notes by_. exact Hgen. }
  split; [reflexivity | apply generateTimeSlots_zero_length].
Qed.

Lemma C5_generateTimeSlots_grid_witness :
  exists slots : list string,
    DateUtils.generateTimeSlots "14:00" "16:10" 45 = Some slots
    /\ (forall k : nat, (k < List.length slots)%nat <-> 840 + Z.of_nat k * 45 < 970)
    /\ (forall k : nat, (k < List.length slots)%nat ->
          nth_error slots k = Some (hhmm (840 + Z.of_nat k * 45))
          /\ DateUtils.minutesOfDay (hhmm (840 + Z.of_nat k * 45))
             = Some (840 + Z.of_nat k * 45))
    /\ (forall (i j : nat) (ti tj : string),
          (i < j)%nat ->
          nth_error slots i = Some ti -> nth_error slots j = Some tj ->
          exists mi mj : Z,
            DateUtils.minutesOfDay ti = Some mi
            /\ DateUtils.minutesOfDay tj = Some mj
            /\ mi < mj)
    /\ (970 <= 840 -> slots = [])
    /\ (forall id date active notes by_,
          AvailableDate.generateTimeSlots
            (AvailableDate.mk id date "14:00" "16:10" 45 active notes by_)
          = Some slots)
    /\ DateUtils.generateTimeSlots "09:00" "10:15" 30
       = Some ["09:00"; "09:30"; "10:00"]%string
    /\ (forall (t : string) (d' : Z), DateUtils.generateTimeSlots t t d' = Some []).
Proof.
  apply (C5_generateTimeSlots_grid "14:00" "16:10" 840 970 45);
    [reflexivity | reflexivity | lia | lia].
Defined.

(* ================================================================== *)
(** * Cancelling and rescheduling a stored booking *)
(* ================================================================== *)

Lemma save_invalid H clk coll b :
  Booking.validate H b <> [] ->
  exists paths, Booking.save H clk coll b = Threw (ValidationError paths).
Proof.
  unfold Booking.save. destruct (Booking.validate H b) as [|p l]; [contradiction|].
  intros _. now eexists.
Qed.

Lemma reachable_found_truthy H db ref booking :
  reachable H db ->
  Booking.findOne (Booking.hasReference ref) (bookings db) = Some booking ->
  In booking (bookings db)
  /\ Booking.bookingReference booking = ref
  /\ Js.truthy (Booking.bookingReference booking) = true.
Proof.
  intros Hreach Hf.
  destruct (reachable_reference_invariant H db Hreach) as [_ Htruthy].
  unfold Booking.findOne in Hf. apply find_some in Hf as [Hin Href].
  unfold Booking.hasReference in Href. apply String.eqb_eq in Href.
  split; [exact Hin | split; [exact Href | now apply Htruthy]].
Qed.

(** C7, as stated, fails: in a reachable database booking A is confirmed
    and a day ahead, so none of the two refusals of the claim applies, yet
    a cancellation with a reason of 501 characters is answered 400 and the
    booking stays as it is. *)
Lemma C7_overlong_reason_is_refused :
  reachable Example.host Example.dbBooked
  /\ Booking.findOne (Booking.hasReference "SM2025092410001") (bookings Example.dbBooked)
     = Some Example.bookingA
  /\ Booking.status Example.bookingA = "confirmed"%string
  /\ localDateTime Example.clock "2025-09-25" "10:00"
     = Some (now Example.clock + 24 * 3600000)
  /\ BookingController.cancelBooking Example.host Example.clock Example.dbBooked
       "SM2025092410001" (Some Edge.longText)
     = (Example.dbBooked, Respond 400 "Validation Error" None).
Proof.
  split.
  - unfold Example.dbBooked. apply reachable_request.
    apply (reachable_availability Example.host (mkDb [] []) [Example.window_0900_1700]).
    apply reachable_empty.
  - vm_compute. repeat split; reflexivity.
Qed.

(** C7, amended.  For the booking a reference designates in a reachable
    database: (1) if it is already cancelled or completed the request is
    answered 400 and the database is unchanged; (2) otherwise, if its
    date-time lies strictly less than two hours and strictly more than zero
    ahead, the request is answered 400 "Cannot cancel booking within 2 hours
    of appointment time" and the database is unchanged; (3) in every other
    case the outcome is that of the schema validators on the cancelled
    copy: when they accept it, the booking is replaced by that copy, with
    status 'cancelled', [cancelledAt] the instant of the request and the
    reason given, when there is one, as [cancellationReason], and a lookup
    by the reference answers the cancelled copy; when they refuse it, the
    request is answered 400 "Validation Error" and the database is
    unchanged.  They accept it whenever the stored document passes them and
    the reason is within the 500 characters of the schema. *)
Theorem C7_cancelBooking_policy :
  forall (H : Host) (clk : Clock) (db : Db) (ref : string)
         (reason : option string) (booking : Booking.t),
    reachable H db ->
    Booking.findOne (Booking.hasReference ref) (bookings db) = Some booking ->
    (Booking.status booking = "cancelled"%string ->
       BookingController.cancelBooking H clk db ref reason
       = (db, Respond 400 "Booking is already cancelled" None))
    /\ (Booking.status booking = "completed"%string ->
       BookingController.cancelBooking H clk db ref reason
       = (db, Respond 400 "Cannot cancel completed booking" None))
    /\ (Booking.status booking <> "cancelled"%string ->
        Booking.status booking <> "completed"%string ->
        forall bookingDateTime,
          localDateTime clk (Booking.date booking) (Booking.timeSlot booking)
          = Some bookingDateTime ->
          0 < bookingDateTime - now clk < 2 * 3600000 ->
          BookingController.cancelBooking H clk db ref reason
          = (db, Respond 400 "Cannot cancel booking within 2 hours of appointment time" None))
    /\ (Booking.status booking <> "cancelled"%string ->
        Booking.status booking <> "completed"%string ->
        (forall bookingDateTime,
           localDateTime clk (Booking.date booking) (Booking.timeSlot booking)
           = Some bookingDateTime ->
           bookingDateTime - now clk <= 0 \/ 2 * 3600000 <= bookingDateTime - now clk) ->
        let cancelled := Booking.markCancelled clk booking reason in
        let db1 := withBookings db (Booking.replaceDoc (bookings db) cancelled) in
        (Booking.validate H cancelled = [] ->
           BookingController.cancelBooking H clk db ref reason
           = (db1, Respond 200 "Booking cancelled successfully" (Some cancelled))
           /\ BookingController.getBookingByReference db1 ref
              = Respond 200 "Booking retrieved successfully" (Some cancelled)
           /\ Booking.status cancelled = "cancelled"%string
           /\ Booking.cancelledAt cancelled = Some (now clk)
           /\ (forall r, reason = Some r -> r <> EmptyString ->
                         Booking.cancellationReason cancelled = Some r)
           /\ (reason = None ->
               Booking.cancellationReason cancelled = Booking.cancellationReason booking))
        /\ (Booking.validate H cancelled <> [] ->
            BookingController.cancelBooking H clk db ref reason
            = (db, Respond 400 "Validation Error" None))
        /\ (Booking.validate H booking = [] ->
            (forall r, reason = Some r -> (String.length r <= 500)%nat) ->
            Booking.validate H cancelled = [])).
Proof.
  intros H clk db ref reason booking Hreach Hfound.
  destruct (reachable_invariant H db Hreach) as [Hids _].
  destruct (reachable_found_truthy H db ref booking Hreach Hfound)
    as (Hin & Href & Htruthy).
  destruct (markCancelled_fields clk booking reason) as (Mid & Mref & Mst & Mat & Mkey).
  unfold BookingController.cancelBooking. rewrite Hfound.
  split; [|split; [|split]].
  - intros ->. reflexivity.
  - intros ->. reflexivity.
  - intros Hnc Hnd t Ht Hwin.
    apply String.eqb_neq in Hnc, Hnd. rewrite Hnc, Hnd, Ht.
    replace (t - now clk <? 2 * (1000 * 60 * 60)) with true
      by (symmetry; apply Z.ltb_lt; lia).
    replace (t - now clk >? 0) with true
      by (symmetry; apply Z.gtb_lt; lia).
    reflexivity.
  - intros Hnc Hnd Hout. cbv zeta.
    apply String.eqb_neq in Hnc, Hnd. rewrite Hnc, Hnd.
    assert (Hlate :
              match localDateTime clk (Booking.date booking) (Booking.timeSlot booking) with
              | Some bookingDateTime =>
                  (bookingDateTime - now clk <? 2 * (1000 * 60 * 60))
                  && (bookingDateTime - now clk >? 0)
              | None => false
              end = false).
    { destruct (localDateTime clk _ _) as [t|]; [|reflexivity].
      destruct (Hout t eq_refl) as [Hpast | Hfar].
      - apply andb_false_iff. right.
        destruct (t - now clk >? 0) eqn:Hg; [apply Z.gtb_lt in Hg; lia | reflexivity].
      - apply andb_false_iff. left. apply Z.ltb_ge. lia. }
    rewrite Hlate. unfold Booking.cancel.
    split; [|split].
    + intros Hvalid.
      unfold slotKey in Mkey. injection Mkey as Md Mt.
      rewrite (save_stored_same_keys H clk (bookings db) booking
                 (Booking.markCancelled clk booking reason));
        [| assumption | assumption | assumption | assumption | assumption
         | assumption | now rewrite Mref | assumption ].
      split; [reflexivity|]. split.
      { unfold BookingController.getBookingByReference, Booking.findOne.
        cbn [bookings withBookings].
        rewrite (find_replaceDoc _ _ booking); auto.
        unfold Booking.hasReference. rewrite Mref, Href. apply String.eqb_refl. }
      split; [exact Mst | split; [exact Mat | split]].
      * intros r -> Hr0. unfold Booking.markCancelled. simpl.
        unfold Js.truthy. apply String.eqb_neq in Hr0. now rewrite Hr0.
      * intros ->. reflexivity.
    + intros Hinvalid.
      destruct (save_invalid H clk (bookings db) _ Hinvalid) as [paths ->].
      reflexivity.
    + intros Hstored Hlen. now apply validate_markCancelled.
Qed.

Lemma C7_cancelBooking_policy_witness :
  BookingController.cancelBooking Example.host Example.clock Example.dbBooked
    "SM2025092410001" (Some "change of plans"%string)
  = (withBookings Example.dbBooked
       (Booking.replaceDoc (bookings Example.dbBooked)
          (Booking.markCancelled Example.clock Example.bookingA
             (Some "change of plans"%string))),
     Respond 200 "Booking cancelled successfully"
       (Some (Booking.markCancelled Example.clock Example.bookingA
                (Some "change of plans"%string))))
  /\ BookingController.getBookingByReference
       (withBookings Example.dbBooked
          (Booking.replaceDoc (bookings Example.dbBooked)
             (Booking.markCancelled Example.clock Example.bookingA
                (Some "change of plans"%string))))
       "SM2025092410001"
     = Respond 200 "Booking retrieved successfully"
         (Some (Booking.markCancelled Example.clock Example.bookingA
                  (Some "change of plans"%string)))
  /\ Booking.status
       (Booking.markCancelled Example.clock Example.bookingA
          (Some "change of plans"%string)) = "cancelled"%string
  /\ Booking.cancelledAt
       (Booking.markCancelled Example.clock Example.bookingA
          (Some "change of plans"%string)) = Some (now Example.clock)
  /\ Booking.cancellationReason
       (Booking.markCancelled Example.clock Example.bookingA
          (Some "change of plans"%string)) = Some "change of plans"%string.
Proof.
  assert (Hreach : reachable Example.host Example.dbBooked).
  { unfold Example.dbBooked. apply reachable_request.
    apply (reachable_availability Example.host (mkDb [] []) [Example.window_0900_1700]).
    apply reachable_empty. }
  destruct (proj2 (proj2 (proj2
             (C7_cancelBooking_policy Example.host Example.clock Example.dbBooked
                "SM2025092410001" (Some "change of plans"%string) Example.bookingA
                Hreach eq_refl))))
    as (Haccepted & _ & _).
  - discriminate.
  - discriminate.
  - intros t Ht. injection Ht as <-. right. simpl. lia.
  - destruct (Haccepted eq_refl) as (Hrun & Hread & Hstatus & Hat & Hreason & _).
    split; [exact Hrun | split; [exact Hread | split; [exact Hstatus | split; [exact Hat |]]]].
    apply Hreason; [reflexivity | discriminate].
Defined.




Lemma find_app_first {A} (q : A -> bool) (l l' : list A) (x : A) :
  find q l = Some x -> find q (l ++ l') = Some x.
Proof.
  induction l as [|a l IH]; simpl; [discriminate|].
  destruct (q a); auto.
Qed.

Lemma find_replaceDoc_other (q : Booking.t -> bool) coll b d :
  find q coll = Some b ->
  Booking._id d <> Booking._id b ->
  q d = false ->
  find q (Booking.replaceDoc coll d) = Some b.
Proof.
  unfold Booking.replaceDoc.
  induction coll as [|x l IH]; simpl; intros Hf Hid Hq; [discriminate|].
  unfold Booking.hasId in *.
  destruct (Nat.eqb_spec (Booking._id x) (Booking._id d)) as [Heq|Hne];
    destruct (q x) eqn:Hqx.
  - injection Hf as Hxb. congruence.
  - rewrite Hq. now apply IH.
  - exact Hf.
  - now apply IH.
Qed.

Section KeepsCancelled.

Variables (H : Host) (clk : Clock) (coll : list Booking.t) (ref : string)
          (b : Booking.t).
Hypothesis ids_unique : NoDup (map Booking._id coll).
Hypothesis references : ReferenceInvariant coll.
Hypothesis found : find (Booking.hasReference ref) coll = Some b.
Hypothesis cancelled : Booking.status b = "cancelled"%string.

(** Saving a new document leaves the cancelled booking where it is found. *)
Lemma save_new_keeps_cancelled d coll' doc :
  ~ In (Booking._id d) (map Booking._id coll) ->
  Booking.save H clk coll d = Stored coll' doc ->
  exists b', find (Booking.hasReference ref) coll' = Some b'
             /\ Booking.status b' = "cancelled"%string.
Proof.
  intros Hfresh Hs.
  apply save_new_appends in Hs as (-> & _); [|exact Hfresh].
  exists b. split; [now apply find_app_first | exact cancelled].
Qed.

(** Saving a changed copy of a stored booking: the booking found under
    [ref] stays cancelled when the copy keeps identifier and reference and,
    should it be a copy of a cancelled booking, the status. *)
Lemma save_copy_keeps_cancelled booking d coll' doc :
  In booking coll ->
  Booking._id d = Booking._id booking ->
  Booking.bookingReference d = Booking.bookingReference booking ->
  (Booking.status booking = "cancelled"%string ->
   Booking.status d = "cancelled"%string) ->
  Booking.save H clk coll d = Stored coll' doc ->
  exists b', find (Booking.hasReference ref) coll' = Some b'
             /\ Booking.status b' = "cancelled"%string.
Proof.
  intros Hin Hid Href Hstatus Hs.
  destruct references as [Hrefs Htruthy].
  destruct (find_some _ _ found) as [Hb Hbref].
  unfold Booking.hasReference in Hbref. apply String.eqb_eq in Hbref.
  apply (save_stored_result H clk coll booking) in Hs as [-> ->];
    [| exact Hin | exact Hid | rewrite Href; now apply Htruthy].
  destruct (Nat.eq_dec (Booking._id booking) (Booking._id b)) as [Hsame|Hother].
  - assert (booking = b)
      by now apply (NoDup_map_injective_on Booking._id coll).
    subst booking. exists d. split; [|now apply Hstatus].
    apply (find_replaceDoc _ _ b); auto.
    unfold Booking.hasReference. rewrite Href, Hbref. apply String.eqb_refl.
  - exists b. split; [|exact cancelled].
    apply find_replaceDoc_other; [exact found | congruence |].
    unfold Booking.hasReference. apply String.eqb_neq. intros Heq.
    apply Hother.
    f_equal. apply (NoDup_map_injective_on Booking.bookingReference coll); auto.
    congruence.
Qed.

End KeepsCancelled.

Lemma findOne_In (q : Booking.t -> bool) coll booking :
  Booking.findOne q coll = Some booking -> In booking coll.
Proof. intros Hf. now apply find_some in Hf. Qed.

Lemma findById_In id coll booking :
  Booking.findById id coll = Some booking -> In booking coll.
Proof. intros Hf. now apply find_some in Hf. Qed.

Ltac unchanged_keeps b :=
  cbn [fst bookings]; exists b; split; assumption.

(** A request that does not assign a status from its body keeps a cancelled
    booking found under its reference, and keeps it cancelled. *)
Lemma handle_keeps_cancelled H clk db r ref b :
  reachable H db ->
  assignsStatus r = false ->
  find (Booking.hasReference ref) (bookings db) = Some b ->
  Booking.status b = "cancelled"%string ->
  exists b', find (Booking.hasReference ref) (bookings (handle H clk db r)) = Some b'
             /\ Booking.status b' = "cancelled"%string.
Proof.
  intros Hreach Hr Hfound Hcancelled.
  destruct (reachable_invariant H db Hreach) as [Hids _].
  pose proof (reachable_reference_invariant H db Hreach) as Hrefs.
  pose proof (save_new_keeps_cancelled H clk (bookings db) ref b Hfound Hcancelled)
    as Hnew.
  pose proof (save_copy_keeps_cancelled H clk (bookings db) ref b Hids Hrefs Hfound
                Hcancelled) as Hcopy.
  destruct r; try discriminate Hr; unfold handle.
  - (* createBooking *)
    unfold BookingController.createBooking, BookingController.saveAndReply.
    repeat break_match; cbn [fst bookings withBookings]; try unchanged_keeps b.
    match goal with
    | Hs : Booking.save _ _ _ ?d = Stored _ _ |- _ =>
        apply (Hnew d _ _ (freshId_fresh _) Hs)
    end.
  - (* createSimpleBooking *)
    unfold BookingController.createSimpleBooking, BookingController.saveAndReply.
    repeat break_match; cbn [fst bookings withBookings]; try unchanged_keeps b.
    match goal with
    | Hs : Booking.save _ _ _ ?d = Stored _ _ |- _ =>
        apply (Hnew d _ _ (freshId_fresh _) Hs)
    end.
  - (* updateBooking *)
    unfold BookingController.updateBooking, BookingController.saveAndReply.
    destruct (Booking.findOne _ (bookings db)) as [booking|] eqn:Hf;
      [|unchanged_keeps b].
    apply findOne_In in Hf.
    destruct (Booking.status booking =? "cancelled")%string eqn:Hc;
      [unchanged_keeps b|].
    apply String.eqb_neq in Hc.
    destruct (Booking.status booking =? "completed")%string; [unchanged_keeps b|].
    destruct (DateUtils.isPastTimeSlot clk _ _); [unchanged_keeps b|].
    destruct customer as [c|]; [destruct (validateCustomer H c)|];
      try unchanged_keeps b;
      (destruct notes as [n|]; [destruct (validateNotes H n)|];
       try unchanged_keeps b);
      match goal with
      | |- context [Booking.save H clk (bookings db) ?d] =>
          destruct (Booking.save H clk (bookings db) d) as [coll' doc|e] eqn:Hs;
          cbn [fst bookings withBookings];
          [ apply (Hcopy booking d coll' doc Hf); [reflexivity | reflexivity | | exact Hs];
            intros; contradiction
          | unchanged_keeps b ]
      end.
  - (* cancelBooking *)
    unfold BookingController.cancelBooking, Booking.cancel.
    destruct (Booking.findOne _ (bookings db)) as [booking|] eqn:Hf;
      [|unchanged_keeps b].
    apply findOne_In in Hf.
    destruct (markCancelled_fields clk booking reason) as (Mid & Mref & Mst & _).
    repeat break_match; cbn [fst bookings withBookings]; try unchanged_keeps b.
    match goal with
    | Hs : Booking.save _ _ _ ?d = Stored ?c' ?doc' |- _ =>
        apply (Hcopy booking d c' doc' Hf); [exact Mid | exact Mref | | exact Hs]
    end.
    intros _. exact Mst.
  - (* rescheduleBooking *)
    unfold BookingController.rescheduleBooking, BookingController.saveAndReply.
    destruct (Booking.findOne _ (bookings db)) as [booking|] eqn:Hf;
      [|unchanged_keeps b].
    apply findOne_In in Hf.
    destruct (Booking.status booking =? "cancelled")%string eqn:Hc;
      [unchanged_keeps b|].
    apply String.eqb_neq in Hc.
    repeat break_match; cbn [fst bookings withBookings]; try unchanged_keeps b.
    match goal with
    | Hs : Booking.save _ _ _ (BookingController.appendRescheduleNote ?m ?d ?t ?rs)
           = Stored ?c' ?doc' |- _ =>
        destruct (appendRescheduleNote_fields m d t rs) as (Nid & _ & _ & Nr);
        apply (Hcopy booking _ c' doc' Hf Nid Nr); [|exact Hs]
    end.
    intros; contradiction.
  - (* checkInBooking *)
    unfold BookingController.checkInBooking, Booking.checkIn.
    destruct (Booking.findOne _ (bookings db)) as [booking|] eqn:Hf;
      [|unchanged_keeps b].
    apply findOne_In in Hf.
    destruct (Booking.status booking =? "confirmed")%string eqn:Hc;
      cbn [negb]; [|unchanged_keeps b].
    apply String.eqb_eq in Hc.
    repeat break_match; cbn [fst bookings withBookings]; try unchanged_keeps b.
    match goal with
    | Hs : Booking.save _ _ _ ?d = Stored ?c' ?doc' |- _ =>
        apply (Hcopy booking d c' doc' Hf); [reflexivity | reflexivity | | exact Hs]
    end.
    intros Hx. rewrite Hc in Hx. discriminate.
  - (* deleteBooking *)
    unfold AdminController.deleteBooking.
    destruct (Booking.findById id (bookings db)) as [booking|] eqn:Hf;
      [|unchanged_keeps b].
    apply findById_In in Hf.
    destruct (markCancelled_fields clk booking reason) as (Mid & Mref & Mst & _).
    change (if Js.given reason
            then Booking.setCancellationReason
                   (Booking.setCancelledAt (Booking.setStatus booking "cancelled")
                      (Some (now clk))) reason
            else Booking.setCancelledAt (Booking.setStatus booking "cancelled")
                   (Some (now clk)))
      with (Booking.markCancelled clk booking reason).
    destruct (Booking.save H clk (bookings db) _) as [coll' doc|e] eqn:Hs;
      cbn [fst bookings withBookings]; [|unchanged_keeps b].
    apply (Hcopy booking _ coll' doc Hf Mid Mref); [|exact Hs].
    intros _. exact Mst.
  - (* createBulkAvailableDates *)
    unfold AdminController.createBulkAvailableDates.
    repeat break_match; cbn [fst bookings withAvailableDates]; unchanged_keeps b.
Qed.

Lemma run_reachable H trace :
  forall db, reachable H db -> reachable H (run H db trace).
Proof.
  induction trace as [|[clk r] rest IH]; intros db Hreach; simpl; [exact Hreach|].
  apply IH. now apply reachable_request.
Qed.

Lemma run_keeps_cancelled H ref trace :
  forall db b,
    reachable H db ->
    (forall step, In step trace -> assignsStatus (snd step) = false) ->
    find (Booking.hasReference ref) (bookings db) = Some b ->
    Booking.status b = "cancelled"%string ->
    exists b', find (Booking.hasReference ref) (bookings (run H db trace)) = Some b'
               /\ Booking.status b' = "cancelled"%string.
Proof.
  induction trace as [|[clk r] rest IH]; intros db b Hreach Hsteps Hfound Hc; simpl.
  - now exists b.
  - destruct (handle_keeps_cancelled H clk db r ref b Hreach
                (Hsteps (clk, r) (or_introl eq_refl)) Hfound Hc) as (b1 & Hf1 & Hc1).
    apply (IH _ b1); auto.
    + now apply reachable_request.
    + intros step Hstep. apply Hsteps. now right.
Qed.

(** X11. A cancelled booking stays cancelled for its customer: once
    [cancelBooking] has answered 200 for a reference, then after any
    sequence of further requests other than the administrator's status
    assignments ([updateBookingStatus], [bulkUpdateBookings]) the booking
    is still found under the reference, still cancelled, and every cancel,
    reschedule, update and check-in on it is refused with 400 and changes
    nothing, whatever the clock and the arguments. *)
Theorem X11_cancelled_booking_stays_cancelled :
  forall (H : Host) (clk : Clock) (db db1 : Db) (ref : string)
         (reason : option string) (message : string) (data : option Booking.t)
         (trace : list (Clock * Request)),
    reachable H db ->
    BookingController.cancelBooking H clk db ref reason
    = (db1, Respond 200 message data) ->
    (forall step, In step trace -> assignsStatus (snd step) = false) ->
    (exists doc, data = Some doc
       /\ Booking.status doc = "cancelled"
       /\ Booking.cancelledAt doc = Some (now clk)
       /\ BookingController.getBookingByReference db1 ref
          = Respond 200 "Booking retrieved successfully" (Some doc))
    /\ exists later : Booking.t,
         BookingController.getBookingByReference (run H db1 trace) ref
         = Respond 200 "Booking retrieved successfully" (Some later)
         /\ Booking.status later = "cancelled"
         /\ forall clk' : Clock,
              (forall reason',
                  BookingController.cancelBooking H clk' (run H db1 trace) ref reason'
                  = (run H db1 trace, Respond 400 "Booking is already cancelled" None))
              /\ (forall newDate newTimeSlot reason',
                    BookingController.rescheduleBooking H clk' (run H db1 trace) ref
                      newDate newTimeSlot reason'
                    = (run H db1 trace,
                       Respond 400 "Cannot reschedule cancelled booking" None))
              /\ (forall customer notes,
                    BookingController.updateBooking H clk' (run H db1 trace) ref
                      customer notes
                    = (run H db1 trace, Respond 400 "Cannot modify cancelled booking" None))
              /\ BookingController.checkInBooking H clk' (run H db1 trace) ref
                 = (run H db1 trace,
                    Respond 400 "Only confirmed bookings can be checked in" None).
Proof.
  intros H clk db db1 ref reason message data trace Hreach Hc Hsteps.
  assert (Hreach1 : reachable H db1).
  { replace db1 with (handle H clk db (CancelBooking ref reason));
      [now apply reachable_request|].
    unfold handle. now rewrite Hc. }
  destruct (reachable_invariant H db Hreach) as [Hids _].
  destruct (reachable_reference_invariant H db Hreach) as [_ Htruthy].
  unfold BookingController.cancelBooking in Hc.
  destruct (Booking.findOne (Booking.hasReference ref) (bookings db)) as [booking|] eqn:Hf;
    [|discriminate].
  unfold Booking.findOne in Hf.
  destruct (find_some _ _ Hf) as [Hin Href].
  unfold Booking.hasReference in Href. apply String.eqb_eq in Href.
  destruct (markCancelled_fields clk booking reason) as (Mid & Mref & Mst & Mat & _).
  repeat match type of Hc with
         | (if ?c then _ else _) = _ => destruct c; [discriminate|]
         end.
  destruct (Booking.cancel H clk (bookings db) booking reason) as [coll doc|e] eqn:Hs.
  2: { injection Hc as _ Hc. now apply errorHandler_not_ok in Hc. }
  injection Hc as <- _ <-.
  unfold Booking.cancel in Hs.
  apply (save_stored_result H clk _ booking) in Hs as [-> ->];
    [| exact Hin | exact Mid | rewrite Mref; now apply Htruthy].
  assert (Hfound : find (Booking.hasReference ref)
                     (Booking.replaceDoc (bookings db)
                        (Booking.markCancelled clk booking reason))
                   = Some (Booking.markCancelled clk booking reason)).
  { apply (find_replaceDoc _ _ booking); auto.
    unfold Booking.hasReference. rewrite Mref, Href. apply String.eqb_refl. }
  split.
  - eexists. split; [reflexivity|]. split; [exact Mst|]. split; [exact Mat|].
    unfold BookingController.getBookingByReference, Booking.findOne.
    cbn [bookings withBookings]. now rewrite Hfound.
  - destruct (run_keeps_cancelled H ref trace _ _ Hreach1 Hsteps Hfound Mst)
      as (later & Hlater & Hstatus).
    exists later.
    unfold BookingController.getBookingByReference,
      BookingController.cancelBooking, BookingController.rescheduleBooking,
      BookingController.updateBooking, BookingController.checkInBooking,
      Booking.findOne.
    rewrite Hlater, Hstatus.
    repeat split.
Qed.

Lemma X11_cancelled_booking_stays_cancelled_witness :
  (exists doc,
     Some (Booking.markCancelled Example.clock Example.bookingA
             (Some "change of plans"%string)) = Some doc
     /\ Booking.status doc = "cancelled"
     /\ Booking.cancelledAt doc = Some (now Example.clock)
     /\ BookingController.getBookingByReference Example.dbCancelled "SM2025092410001"
        = Respond 200 "Booking retrieved successfully" (Some doc))
  /\ exists later : Booking.t,
       BookingController.getBookingByReference
         (run Example.host Example.dbCancelled
            [(Example.clock, DeleteBooking 1 None);
             (Example.clock, RescheduleBooking "SM2025092410001" "2025-09-25" "11:00" None)])
         "SM2025092410001"
       = Respond 200 "Booking retrieved successfully" (Some later)
       /\ Booking.status later = "cancelled"
       /\ forall clk' : Clock,
            (forall reason',
                BookingController.cancelBooking Example.host clk'
                  (run Example.host Example.dbCancelled
                     [(Example.clock, DeleteBooking 1 None);
                      (Example.clock,
                       RescheduleBooking "SM2025092410001" "2025-09-25" "11:00" None)])
                  "SM2025092410001" reason'
                = (run Example.host Example.dbCancelled
                     [(Example.clock, DeleteBooking 1 None);
                      (Example.clock,
                       RescheduleBooking "SM2025092410001" "2025-09-25" "11:00" None)],
                   Respond 400 "Booking is already cancelled" None))
            /\ (forall newDate newTimeSlot reason',
                  BookingController.rescheduleBooking Example.host clk'
                    (run Example.host Example.dbCancelled
                       [(Example.clock, DeleteBooking 1 None);
                        (Example.clock,
                         RescheduleBooking "SM2025092410001" "2025-09-25" "11:00" None)])
                    "SM2025092410001" newDate newTimeSlot reason'
                  = (run Example.host Example.dbCancelled
                       [(Example.clock, DeleteBooking 1 None);
                        (Example.clock,
                         RescheduleBooking "SM2025092410001" "2025-09-25" "11:00" None)],
                     Respond 400 "Cannot reschedule cancelled booking" None))
            /\ (forall customer notes,
                  BookingController.updateBooking Example.host clk'
                    (run Example.host Example.dbCancelled
                       [(Example.clock, DeleteBooking 1 None);
                        (Example.clock,
                         RescheduleBooking "SM2025092410001" "2025-09-25" "11:00" None)])
                    "SM2025092410001" customer notes
                  = (run Example.host Example.dbCancelled
                       [(Example.clock, DeleteBooking 1 None);
                        (Example.clock,
                         RescheduleBooking "SM2025092410001" "2025-09-25" "11:00" None)],
                     Respond 400 "Cannot modify cancelled booking" None))
            /\ BookingController.checkInBooking Example.host clk'
                 (run Example.host Example.dbCancelled
                    [(Example.clock, DeleteBooking 1 None);
                     (Example.clock,
                      RescheduleBooking "SM2025092410001" "2025-09-25" "11:00" None)])
                 "SM2025092410001"
               = (run Example.host Example.dbCancelled
                    [(Example.clock, DeleteBooking 1 None);
                     (Example.clock,
                      RescheduleBooking "SM2025092410001" "2025-09-25" "11:00" None)],
                  Respond 400 "Only confirmed bookings can be checked in" None).
Proof.
  apply (X11_cancelled_booking_stays_cancelled Example.host Example.clock
           Example.dbBooked Example.dbCancelled "SM2025092410001"
           (Some "change of plans"%string) "Booking cancelled successfully").
  - unfold Example.dbBooked.
    apply (reachable_request Example.host Example.db0 Example.clock
             (CreateBooking "2025-09-25" "10:00" Example.customer None)).
    apply (reachable_availability Example.host (mkDb [] []) [Example.window_0900_1700]).
    apply reachable_empty.
  - vm_compute. reflexivity.
  - intros step [<-|[<-|[]]]; reflexivity.
Defined.

(* ------------------------------------------------------------------ *)
(** ** Texts beyond the schema's length *)
(* ------------------------------------------------------------------ *)

Lemma validate_long_reason H b r :
  Booking.cancellationReason b = Some r ->
  (500 < String.length r)%nat ->
  Booking.validate H b <> [].
Proof.
  intros Hr Hlong Hv. unfold Booking.validate in Hv. rewrite Hr in Hv.
  apply Nat.leb_gt in Hlong. rewrite Hlong in Hv.
  repeat match goal with
         | Hv : (_ ++ _)%list = [] |- _ => apply app_eq_nil in Hv as [? Hv]
         end.
  discriminate.
Qed.

Lemma long_is_truthy r : (500 < String.length r)%nat -> Js.truthy r = true.
Proof. destruct r; simpl; [lia | reflexivity]. Qed.

(** X13. [deleteBooking] deletes nothing.  For a stored, valid booking of
    any status and a reason that is absent or within the 500 characters of
    the schema, the reply is 200 without a document and the booking stays in
    the collection under its identifier, marked cancelled as
    [methods.cancel] would mark it.  With a reason beyond 500 characters,
    which the route does not filter, the reply is 400 "Validation Error" and
    the database is unchanged. *)
Theorem X13_deleteBooking_is_a_soft_delete :
  forall (H : Host) (clk : Clock) (db : Db) (id : nat) (booking : Booking.t)
         (reason : option string) (longReason : string),
    reachable H db ->
    Booking.findById id (bookings db) = Some booking ->
    Booking.validate H booking = [] ->
    (forall r, reason = Some r -> (String.length r <= 500)%nat) ->
    (500 < String.length longReason)%nat ->
    let cancelled := Booking.markCancelled clk booking reason in
    AdminController.deleteBooking H clk db id reason
    = (withBookings db (Booking.replaceDoc (bookings db) cancelled),
       Respond 200 "Booking cancelled successfully" None)
    /\ Booking.findById id (Booking.replaceDoc (bookings db) cancelled) = Some cancelled
    /\ List.length (Booking.replaceDoc (bookings db) cancelled)
       = List.length (bookings db)
    /\ Booking.status cancelled = "cancelled"
    /\ slotKey cancelled = slotKey booking
    /\ AdminController.deleteBooking H clk db id (Some longReason)
       = (db, Respond 400 "Validation Error" None).
Proof.
  intros H clk db id booking reason longReason Hreach Hf Hv Hlen Hlong cancelled.
  subst cancelled.
  destruct (reachable_invariant H db Hreach) as [Hids _].
  destruct (reachable_reference_invariant H db Hreach) as [_ Htruthy].
  destruct (findById_Some _ _ _ Hf) as [Hin Hid].
  destruct (markCancelled_fields clk booking reason) as (Mid & Mref & Mst & Mat & Mkey).
  unfold AdminController.deleteBooking. rewrite Hf.
  change (if Js.given reason
          then Booking.setCancellationReason
                 (Booking.setCancelledAt (Booking.setStatus booking "cancelled")
                    (Some (now clk))) reason
          else Booking.setCancelledAt (Booking.setStatus booking "cancelled")
                 (Some (now clk)))
    with (Booking.markCancelled clk booking reason).
  rewrite (save_stored_same_keys H clk (bookings db) booking
             (Booking.markCancelled clk booking reason));
    [| assumption | assumption | assumption
     | unfold slotKey in Mkey; congruence | unfold slotKey in Mkey; congruence
     | assumption | rewrite Mref; now apply Htruthy
     | now apply validate_markCancelled ].
  split; [reflexivity|]. split.
  { rewrite <- Hid. apply findById_replaceDoc; auto. now rewrite Hid. }
  split; [unfold Booking.replaceDoc; apply length_map|].
  split; [exact Mst|]. split; [exact Mkey|].
  cbn [Js.given]. rewrite (long_is_truthy _ Hlong).
  match goal with
  | |- match Booking.save H clk (bookings db) ?d with _ => _ end = _ =>
      destruct (save_invalid H clk (bookings db) d) as [paths ->];
      [apply (validate_long_reason H d longReason); [reflexivity | exact Hlong]
      | reflexivity]
  end.
Qed.

Lemma X13_deleteBooking_is_a_soft_delete_witness :
  AdminController.deleteBooking Example.host Example.clock Example.dbBooked 1 None
  = (withBookings Example.dbBooked
       (Booking.replaceDoc (bookings Example.dbBooked)
          (Booking.markCancelled Example.clock Example.bookingA None)),
     Respond 200 "Booking cancelled successfully" None)
  /\ Booking.findById 1
       (Booking.replaceDoc (bookings Example.dbBooked)
          (Booking.markCancelled Example.clock Example.bookingA None))
     = Some (Booking.markCancelled Example.clock Example.bookingA None)
  /\ List.length
       (Booking.replaceDoc (bookings Example.dbBooked)
          (Booking.markCancelled Example.clock Example.bookingA None))
     = List.length (bookings Example.dbBooked)
  /\ Booking.status (Booking.markCancelled Example.clock Example.bookingA None)
     = "cancelled"
  /\ slotKey (Booking.markCancelled Example.clock Example.bookingA None)
     = slotKey Example.bookingA
  /\ AdminController.deleteBooking Example.host Example.clock Example.dbBooked 1
       (Some Edge.longText)
     = (Example.dbBooked, Respond 400 "Validation Error" None).
Proof.
  apply (X13_deleteBooking_is_a_soft_delete Example.host Example.clock Example.dbBooked
           1 Example.bookingA None Edge.longText).
  - unfold Example.dbBooked.
    apply reachable_request.
    apply (reachable_availability Example.host (mkDb [] []) [Example.window_0900_1700]).
    apply reachable_empty.
  - vm_compute. reflexivity.
  - vm_compute. reflexivity.
  - intros r Hr. discriminate Hr.
  - vm_compute. lia.
Defined.

Lemma window_validate_long_notes (d : AvailableDate.t) :
  (500 < String.length (AvailableDate.notes d))%nat ->
  AvailableDate.validate d <> [].
Proof.
  intros Hlong Hv. unfold AvailableDate.validate in Hv.
  apply Nat.leb_gt in Hlong. rewrite Hlong in Hv.
  repeat match goal with
         | Hv : (_ ++ _)%list = [] |- _ => apply app_eq_nil in Hv as [? Hv]
         end.
  discriminate.
Qed.

Lemma untouched_time_settings (p : AdminController.DatePatch) (w : AvailableDate.t) :
  AdminController.touchesTimeSettings p = false ->
  AvailableDate.startTime (AdminController.applyPatch p w) = AvailableDate.startTime w
  /\ AvailableDate.endTime (AdminController.applyPatch p w) = AvailableDate.endTime w
  /\ AvailableDate.slotDuration (AdminController.applyPatch p w)
     = AvailableDate.slotDuration w.
Proof.
  unfold AdminController.touchesTimeSettings. intros Ht.
  apply orb_false_iff in Ht as [Ht Hd]. apply orb_false_iff in Ht as [Hs He].
  unfold AdminController.applyPatch. cbn [AvailableDate.startTime AvailableDate.endTime
    AvailableDate.slotDuration].
  destruct (AdminController.patchStartTime p) as [x|]; cbn [Js.given] in Hs;
    [rewrite Hs|];
    (destruct (AdminController.patchEndTime p) as [y|]; cbn [Js.given] in He;
     [rewrite He|]);
    (destruct (AdminController.patchSlotDuration p); [discriminate|]);
    repeat split.
Qed.

(** X19. With a live booking on its date a window's start, end and slot
    duration are frozen: a patch that carries a non-empty [startTime], a
    non-empty [endTime] or any [slotDuration] is refused with 400 and
    changes nothing.  A patch that carries none of them (an empty-string
    time counts as absent) is not held back by bookings: when the notes of
    the patched window are within the 500 characters of the schema it is
    stored with 200, times and duration untouched, so a date with live
    bookings can be closed; when they are longer it is refused with 400
    "Validation Error" and changes nothing. *)
Theorem X19_time_settings_are_frozen_while_booked :
  forall (H : Host) (db : Db) (id : nat) (w : AvailableDate.t)
         (frozen kept overlong : AdminController.DatePatch),
    WindowInvariant (availableDates db) ->
    AvailableDate.findById id (availableDates db) = Some w ->
    (0 < AdminController.liveBookingsOn db (AvailableDate.date w))%nat ->
    AdminController.touchesTimeSettings frozen = true ->
    AdminController.touchesTimeSettings kept = false ->
    (String.length (AvailableDate.notes (AdminController.applyPatch kept w)) <= 500)%nat ->
    AdminController.touchesTimeSettings overlong = false ->
    (500 < String.length (AvailableDate.notes (AdminController.applyPatch overlong w)))%nat ->
    AdminController.updateAvailableDate H db id frozen
    = (db, Respond 400
             "Cannot modify time settings when there are existing bookings" None)
    /\ (let doc := AdminController.applyPatch kept w in
        AdminController.updateAvailableDate H db id kept
        = (withAvailableDates db (AvailableDate.replaceDoc (availableDates db) doc),
           Respond 200 "Available date updated successfully" (Some doc))
        /\ AvailableDate.startTime doc = AvailableDate.startTime w
        /\ AvailableDate.endTime doc = AvailableDate.endTime w
        /\ AvailableDate.slotDuration doc = AvailableDate.slotDuration w
        /\ (forall active, AdminController.patchIsActive kept = Some active ->
              AvailableDate.isActive doc = active))
    /\ AdminController.updateAvailableDate H db id overlong
       = (db, Respond 400 "Validation Error" None)
    /\ AdminController.touchesTimeSettings
         (AdminController.mkDatePatch (Some EmptyString) None None None None) = false.
Proof.
  intros H db id w frozen kept overlong (Hids & Hdates & Hvalid) Hf Hlive
         Hfrozen Hkept Hnotes Hover Hlong.
  apply Nat.ltb_lt in Hlive.
  unfold AdminController.updateAvailableDate. rewrite Hf, Hlive, Hfrozen, Hkept, Hover.
  cbn [andb].
  split; [reflexivity|].
  destruct (window_findById_Some _ _ _ Hf) as [Hin Hid].
  destruct (Hvalid w Hin) as [Hv Hpre].
  split; [|split; [|reflexivity]].
  - cbv zeta.
    destruct (untouched_time_settings kept w Hkept) as (Es & Ee & Ed).
    assert (Hv' : AvailableDate.validate (AdminController.applyPatch kept w) = []).
    { unfold AvailableDate.validate in *. rewrite Es, Ee, Ed.
      change (AvailableDate.date (AdminController.applyPatch kept w))
        with (AvailableDate.date w).
      repeat match goal with
             | Hv : (_ ++ _)%list = [] |- _ => apply app_eq_nil in Hv as [? Hv]
             end.
      repeat match goal with
             | Hx : ?x = [] |- context [?x] => rewrite Hx
             end.
      apply Nat.leb_le in Hnotes. now rewrite Hnotes. }
    assert (Hpre' : AvailableDate.preSave (AdminController.applyPatch kept w) = None).
    { unfold AvailableDate.preSave in *. now rewrite Es, Ee, Ed. }
    unfold AvailableDate.saveStored. rewrite Hv', Hpre'.
    change (AvailableDate._id (AdminController.applyPatch kept w))
      with (AvailableDate._id w).
    rewrite Hid, Hf.
    change (AvailableDate.date (AdminController.applyPatch kept w))
      with (AvailableDate.date w).
    rewrite String.eqb_refl. cbn [negb andb].
    split; [reflexivity|]. split; [exact Es | split; [exact Ee | split; [exact Ed|]]].
    intros active Ha. unfold AdminController.applyPatch. cbn [AvailableDate.isActive].
    now rewrite Ha.
  - pose proof (window_validate_long_notes _ Hlong) as Hbad.
    unfold AvailableDate.saveStored.
    destruct (AvailableDate.validate (AdminController.applyPatch overlong w));
      [contradiction | reflexivity].
Qed.

Lemma X19_time_settings_are_frozen_while_booked_witness :
  AdminController.updateAvailableDate Example.host Example.dbBooked 1
    (AdminController.mkDatePatch (Some "10:00"%string) None None None None)
  = (Example.dbBooked,
     Respond 400 "Cannot modify time settings when there are existing bookings" None)
  /\ (let doc :=
        AdminController.applyPatch
          (AdminController.mkDatePatch None None None (Some false) None)
          Example.window_0900_1700 in
      AdminController.updateAvailableDate Example.host Example.dbBooked 1
        (AdminController.mkDatePatch None None None (Some false) None)
      = (withAvailableDates Example.dbBooked
           (AvailableDate.replaceDoc (availableDates Example.dbBooked) doc),
         Respond 200 "Available date updated successfully" (Some doc))
      /\ AvailableDate.startTime doc = AvailableDate.startTime Example.window_0900_1700
      /\ AvailableDate.endTime doc = AvailableDate.endTime Example.window_0900_1700
      /\ AvailableDate.slotDuration doc
         = AvailableDate.slotDuration Example.window_0900_1700
      /\ (forall active,
            AdminController.patchIsActive
              (AdminController.mkDatePatch None None None (Some false) None)
            = Some active ->
            AvailableDate.isActive doc = active))
  /\ AdminController.updateAvailableDate Example.host Example.dbBooked 1
       (AdminController.mkDatePatch None None None (Some false) (Some Edge.longText))
     = (Example.dbBooked, Respond 400 "Validation Error" None)
  /\ AdminController.touchesTimeSettings
       (AdminController.mkDatePatch (Some EmptyString) None None None None) = false.
Proof.
  apply (X19_time_settings_are_frozen_while_booked Example.host Example.dbBooked 1
           Example.window_0900_1700
           (AdminController.mkDatePatch (Some "10:00"%string) None None None None)
           (AdminController.mkDatePatch None None None (Some false) None)
           (AdminController.mkDatePatch None None None (Some false)
              (Some Edge.longText))).
  - split; [|split].
    + repeat constructor. intros [].
    + repeat constructor. intros [].
    + intros d [<-|[]]. split; vm_compute; reflexivity.
  - vm_compute. reflexivity.
  - vm_compute. lia.
  - reflexivity.
  - reflexivity.
  - vm_compute. lia.
  - reflexivity.
  - vm_compute. lia.
Defined.
